(** * Payment transaction lifecycle of kShopB: a shallow embedding

    The development embeds the payment core of the backend: the Transaction
    model with its pre-save hook and [addStatusUpdate]
    (models/Transaction.js), the payment controller
    (controllers/enhancedPaymentController.js), the webhook router
    (routes/webhooks.js) and the monitoring service
    (services/paymentMonitoring.js).

    Conventions of the embedding.
    - JavaScript numbers are exact rationals ([Q]); amounts the gateway sends
      in paise are integers ([Z]).  Equations between numbers are stated with
      [==] ([Qeq]).
    - The two MongoDB collections are lists; a document's [_id] is its
      position.  A loaded Mongoose document is a private copy of the stored
      record plus the dirty flag behind [isModified('status')]; [save] runs
      the pre-save hook and writes the copy back at its position.
    - Handlers run one at a time: every [await] is a sequential step.
    - [new Date()] and [Date.now()] are the parameter [now].
    - Schema validation on [save] is not part of the embedding: a save whose
      pre-save hook calls [next()] without an error persists the document.
    - HMAC-SHA256 is a field of the environment: the code only compares two
      digests for equality. *)

From Stdlib Require Import ZArith QArith Qminmax String Ascii List Lia.
From stdpp Require Import base option list strings pretty gmap.

Local Open Scope string_scope.
Local Open Scope Z_scope.

(** ** JavaScript helpers *)

Module Js.

(** [x || 0] on a number that may be [undefined]. *)
Definition or0 (x : option Z) : Z :=
  match x with
  | Some v => v
  | None => 0%Z
  end.

(** Truthiness of a number that may be [undefined]. *)
Definition truthyZ (x : option Z) : bool :=
  match x with
  | Some v => negb (v =? 0)%Z
  | None => false
  end.

(** Truthiness of a number. *)
Definition truthyQ (q : Q) : bool := negb (Qeq_bool q 0).

(** [!s] on a string that may be [undefined]: the empty string is falsy. *)
Definition falsy_str (s : option string) : bool :=
  match s with
  | None => true
  | Some EmptyString => true
  | Some _ => false
  end.

(** [s || d] on a string that may be [undefined]. *)
Definition str_or (s : option string) (d : string) : string :=
  match s with
  | Some (String c r) => String c r
  | _ => d
  end.

(** The string an optional string is converted to, as a property key in
    [obj[key]] or as an operand of [+]. *)
Definition to_string (s : option string) : string :=
  match s with
  | Some k => k
  | None => "undefined"
  end.

(** [String.prototype.toLowerCase] on the ASCII letters. *)
Definition lower_ascii (c : ascii) : ascii :=
  let n := nat_of_ascii c in
  if ((65 <=? n) && (n <=? 90))%nat then ascii_of_nat (n + 32) else c.

Fixpoint toLowerCase (s : string) : string :=
  match s with
  | EmptyString => EmptyString
  | String c r => String (lower_ascii c) (toLowerCase r)
  end.

(** [String.prototype.includes]. *)
Fixpoint includes (needle hay : string) : bool :=
  String.prefix needle hay ||
  match hay with
  | EmptyString => false
  | String _ r => includes needle r
  end.

End Js.

(** ** Data model *)

(** The [status] enumeration of the Transaction schema. *)
Inductive Status :=
| initiated | pending | processing | authorized
| captured | success | failed | cancelled
| expired | disputed | refunded | partially_refunded.

#[global] Instance Status_eq_dec : EqDecision Status.
Proof. solve_decision. Defined.

(** The terminal states named by the specification. *)
Definition is_terminal (s : Status) : bool :=
  match s with
  | success | failed | cancelled | expired | refunded => true
  | _ => false
  end.

(** The [method] enumeration of the Transaction schema. *)
Inductive Method := card | netbanking | upi | wallet | emi | cod.

#[global] Instance Method_eq_dec : EqDecision Method.
Proof. solve_decision. Defined.

(** The [status] enumeration of the Order schema. *)
Inductive OrderStatus :=
| order_pending | order_confirmed | order_processing
| order_shipped | order_delivered | order_cancelled.

#[global] Instance OrderStatus_eq_dec : EqDecision OrderStatus.
Proof. solve_decision. Defined.

(** A payment entity as the gateway reports it (fetch result or webhook
    entity).  Amounts are in paise. *)
Record Payment := mkPayment {
  p_id : option string;
  p_status : option string;
  p_method : option string;
  p_amount : option Z;
  p_fee : option Z;
  p_tax : option Z;
  p_order_id : option string;
  p_error_code : option string;
  p_error_description : option string;
  p_updated_at : option Z;
}.

(** Values stored under [statusHistory[].metadata] (a Mixed field). *)
Inductive MetaValue :=
| MStr (s : string)
| MOptStr (s : option string)
| MNum (q : Q)
| MOptNum (z : option Z)
| MBool (b : bool)
| MStatus (s : option Status)
| MId (n : nat)
| MPayment (p : Payment).

Record StatusEntry := mkStatusEntry {
  se_status : Status;
  se_timestamp : Z;
  se_reason : option string;
  se_metadata : list (string * MetaValue);
}.

Record Fees := mkFees {
  gatewayFee : Q;
  serviceTax : Q;
  totalFee : Q;
}.

Record Refund := mkRefund {
  refundId : option string;
  refund_amount : option Q;
  refund_reason : option string;
  refund_initiatedBy : option nat;
  refund_initiatedAt : option Z;
  refund_processedAt : option Z;
  refund_arn : option string;
  refund_status : option string;
}.

(** The Transaction document.  Fields that no modelled operation reads or
    branches on are left out: gateway, gatewayTransactionId, currency, type,
    paymentDetails, userId, retry and failure data, risk, customer, webhook,
    settlement, dispute, notes and audit data. *)
Record Transaction := mkTransaction {
  transactionId : string;
  orderId : option nat;
  gatewayOrderId : option string;
  gatewayPaymentId : option string;
  amount : Q;
  method : Method;
  status : Status;
  previousStatus : option Status;
  statusHistory : list StatusEntry;
  authorizedAt : option Z;
  capturedAt : option Z;
  failedAt : option Z;
  refundedAt : option Z;
  fees : Fees;
  netAmount : Q;
  refund : option Refund;
  createdAt : Z;
}.

(** Field assignments [t.f = v]. *)
Definition set_orderId (v : option nat) (t : Transaction) : Transaction :=
  let '(mkTransaction a _ c d e f g h i j k l m n o p q) := t in
  mkTransaction a v c d e f g h i j k l m n o p q.
Definition set_gatewayPaymentId (v : option string) (t : Transaction) : Transaction :=
  let '(mkTransaction a b c _ e f g h i j k l m n o p q) := t in
  mkTransaction a b c v e f g h i j k l m n o p q.
Definition set_method (v : Method) (t : Transaction) : Transaction :=
  let '(mkTransaction a b c d e _ g h i j k l m n o p q) := t in
  mkTransaction a b c d e v g h i j k l m n o p q.
Definition set_status (v : Status) (t : Transaction) : Transaction :=
  let '(mkTransaction a b c d e f _ h i j k l m n o p q) := t in
  mkTransaction a b c d e f v h i j k l m n o p q.
Definition set_previousStatus (v : option Status) (t : Transaction) : Transaction :=
  let '(mkTransaction a b c d e f g _ i j k l m n o p q) := t in
  mkTransaction a b c d e f g v i j k l m n o p q.
Definition set_statusHistory (v : list StatusEntry) (t : Transaction) : Transaction :=
  let '(mkTransaction a b c d e f g h _ j k l m n o p q) := t in
  mkTransaction a b c d e f g h v j k l m n o p q.
Definition set_authorizedAt (v : option Z) (t : Transaction) : Transaction :=
  let '(mkTransaction a b c d e f g h i _ k l m n o p q) := t in
  mkTransaction a b c d e f g h i v k l m n o p q.
Definition set_capturedAt (v : option Z) (t : Transaction) : Transaction :=
  let '(mkTransaction a b c d e f g h i j _ l m n o p q) := t in
  mkTransaction a b c d e f g h i j v l m n o p q.
Definition set_failedAt (v : option Z) (t : Transaction) : Transaction :=
  let '(mkTransaction a b c d e f g h i j k _ m n o p q) := t in
  mkTransaction a b c d e f g h i j k v m n o p q.
Definition set_refundedAt (v : option Z) (t : Transaction) : Transaction :=
  let '(mkTransaction a b c d e f g h i j k l _ n o p q) := t in
  mkTransaction a b c d e f g h i j k l v n o p q.
Definition set_fees (v : Fees) (t : Transaction) : Transaction :=
  let '(mkTransaction a b c d e f g h i j k l m _ o p q) := t in
  mkTransaction a b c d e f g h i j k l m v o p q.
Definition set_netAmount (v : Q) (t : Transaction) : Transaction :=
  let '(mkTransaction a b c d e f g h i j k l m n _ p q) := t in
  mkTransaction a b c d e f g h i j k l m n v p q.
Definition set_refund (v : option Refund) (t : Transaction) : Transaction :=
  let '(mkTransaction a b c d e f g h i j k l m n o _ q) := t in
  mkTransaction a b c d e f g h i j k l m n o v q.

(** [statusHistory.push(e)]. *)
Definition push_history (e : StatusEntry) (t : Transaction) : Transaction :=
  set_statusHistory (statusHistory t ++ [e]) t.

(** Shipping address of an order: the two name fields the Order pre-save
    hook reads.  [shippingAddress] is a nested path of the Order schema, so
    the document always has the object; its fields may be absent. *)
Record ShippingAddress := mkShippingAddress {
  sa_name : option string;
  sa_fullName : option string;
}.

(** The Order document, with the fields the payment paths write or read
    (items and the price breakdown are left out). *)
Record Order := mkOrder {
  o_user : nat;
  o_shippingAddress : ShippingAddress;
  o_paymentId : option string;
  o_total : Q;
  o_status : OrderStatus;
  o_isPaid : bool;
  o_paidAt : option Z;
  o_notes : option string;
}.

Definition set_o_status (v : OrderStatus) (o : Order) : Order :=
  let '(mkOrder a b c d _ f g h) := o in mkOrder a b c d v f g h.
Definition set_o_notes (v : option string) (o : Order) : Order :=
  let '(mkOrder a b c d e f g _) := o in mkOrder a b c d e f g v.
Definition set_o_isPaid (v : bool) (o : Order) : Order :=
  let '(mkOrder a b c d e _ g h) := o in mkOrder a b c d e v g h.
Definition set_o_paidAt (v : option Z) (o : Order) : Order :=
  let '(mkOrder a b c d e f _ h) := o in mkOrder a b c d e f v h.
Definition set_o_shippingAddress (v : ShippingAddress) (o : Order) : Order :=
  let '(mkOrder a _ c d e f g h) := o in mkOrder a v c d e f g h.

(** The database: the Transaction and the Order collection. *)
Record Db := mkDb {
  transactions : list Transaction;
  orders : list Order;
}.

(** A thrown value.  [statusCode] is absent on plain [Error]s; [message] is
    absent on the plain objects the gateway SDK rejects with. *)
Record JsError := mkError {
  err_message : option string;
  err_statusCode : option Z;
}.

(** [new AppError(message, statusCode)]. *)
Definition AppError (message : string) (statusCode : Z) : JsError :=
  mkError (Some message) (Some statusCode).

(** [new Error(message)]. *)
Definition PlainError (message : string) : JsError :=
  mkError (Some message) None.

(** The [TypeError] of a property read on [undefined]. *)
Definition TypeError (property : string) : JsError :=
  mkError (Some ("Cannot read properties of undefined (reading '" ++ property ++ "')")) None.

(** ** The Transaction model (models/Transaction.js) *)

(** A loaded Transaction document.  [tx_original] stands for the property
    [this.original] the pre-save hook reads: no statement of the program
    assigns it, so every document the program loads or creates has none. *)
Record TxDoc := mkTxDoc {
  doc_id : nat;
  doc : Transaction;
  statusModified : bool;
  tx_original : option Transaction;
}.

(** A document as a query returns it. *)
Definition load (i : nat) (t : Transaction) : TxDoc :=
  mkTxDoc i t false None.

(** Assignment through the document: [this.status = v] marks the path
    modified when the value changes. *)
Definition assign_status (v : Status) (d : TxDoc) : TxDoc :=
  mkTxDoc (doc_id d) (set_status v (doc d))
          (statusModified d || negb (bool_decide (status (doc d) = v)))
          (tx_original d).

(** Assignment to a path other than [status]. *)
Definition assign (f : Transaction -> Transaction) (d : TxDoc) : TxDoc :=
  mkTxDoc (doc_id d) (f (doc d)) (statusModified d) (tx_original d).

(** The timing switch of the pre-save hook. *)
Definition update_timing (now : Z) (t : Transaction) : Transaction :=
  match status t with
  | authorized => set_authorizedAt (Some now) t
  | captured | success => set_capturedAt (Some now) t
  | failed => set_failedAt (Some now) t
  | refunded | partially_refunded => set_refundedAt (Some now) t
  | _ => t
  end.

(** [transactionSchema.pre('save', ...)].  The nested path [fees] of a
    Mongoose document is always an object, so [this.fees] is truthy. *)
Definition preSave (now : Z) (d : TxDoc) : Transaction :=
  let t := doc d in
  let t1 :=
    if statusModified d && negb (bool_decide (Some (status t) = previousStatus t))
    then
      let t' := push_history
                  (mkStatusEntry (status t) now (Some "Status changed")
                     [("previousStatus", MStatus (previousStatus t))]) t in
      let t'' := update_timing now t' in
      set_previousStatus
        (Some (match tx_original d with
               | Some o => status o
               | None => status t''
               end)) t''
    else t in
  if Js.truthyQ (amount t1)
  then set_netAmount
         (amount t1 - (if Js.truthyQ (totalFee (fees t1))
                       then totalFee (fees t1) else 0))%Q t1
  else t1.

(** [doc.save()] on a loaded document: run the hook, write the document at
    its [_id], clear the dirty flag. *)
Definition save (now : Z) (d : TxDoc) (db : Db) : TxDoc * Db :=
  let t := preSave now d in
  (mkTxDoc (doc_id d) t false (tx_original d),
   mkDb (<[doc_id d := t]> (transactions db)) (orders db)).

(** [transactionSchema.methods.addStatusUpdate]. *)
Definition addStatusUpdate (now : Z) (st : Status) (reason : option string)
    (metadata : list (string * MetaValue)) (d : TxDoc) (db : Db) : TxDoc * Db :=
  let d1 := assign (set_previousStatus (Some (status (doc d)))) d in
  let d2 := assign_status st d1 in
  let d3 := assign (push_history (mkStatusEntry st now reason metadata)) d2 in
  save now d3 db.

(** [Transaction.findOne(query)]: the first stored document matching. *)
Definition findOne (q : Transaction -> bool) (db : Db) : option TxDoc :=
  match list_find (fun t => q t = true) (transactions db) with
  | Some (i, t) => Some (load i t)
  | None => None
  end.

(** A sequence of status updates applied to the stored transaction [i],
    each on a freshly loaded document. *)
Fixpoint apply_updates (now : Z) (i : nat) (us : list (Status * string)) (db : Db) : Db :=
  match us with
  | [] => db
  | (st, reason) :: rest =>
      match transactions db !! i with
      | Some t => apply_updates now i rest (snd (addStatusUpdate now st (Some reason) [] (load i t) db))
      | None => db
      end
  end.

(** ** The gateway adapter (controllers/enhancedPaymentController.js) *)

(** Argument of [orders.create]. *)
Record OrderRequest := mkOrderRequest {
  or_amount : Q;
  or_currency : string;
  or_receipt : string;
}.

(** Result of [orders.create]. *)
Record GatewayOrder := mkGatewayOrder {
  go_id : string;
  go_currency : string;
  go_amount : Q;
}.

(** Result of [payments.refund]. *)
Record GatewayRefund := mkGatewayRefund {
  gr_id : string;
}.

(** The gateway SDK instance.  The gateway is outside the program: each call
    is an oracle.  The calls the controller retries take the number of the
    attempt, so that consecutive attempts may answer differently. *)
Record Razorpay := mkRazorpay {
  orders_create : OrderRequest -> Z -> JsError + GatewayOrder;
  payments_fetch : option string -> Z -> JsError + Payment;
  payments_refund : option string -> Q -> JsError + GatewayRefund;
}.

(** The process environment. *)
Record Env := mkEnv {
  RAZORPAY_KEY_SECRET : string;
  RAZORPAY_WEBHOOK_SECRET : option string;
  razorpay : option Razorpay;
  hmac_sha256_hex : string -> string -> string;
}.

(** [getRazorpayInstance]: the instance, or the 503 error when the
    credentials are not configured. *)
Definition getRazorpayInstance (env : Env) : JsError + Razorpay :=
  match razorpay env with
  | Some instance => inr instance
  | None => inl (AppError "Payment service is not available. Please contact support." 503)
  end.

Record RetryConfig := mkRetryConfig {
  maxAttempts : Z;
  backoffMultiplier : Z;
  initialDelay : Z;
  maxDelay : Z;
}.

Definition RETRY_CONFIG : RetryConfig :=
  {| maxAttempts := 3; backoffMultiplier := 2; initialDelay := 1000; maxDelay := 10000 |}.

(** [calculateRetryDelay], on the attempt numbers the adapter passes
    ([attempt >= 1], where [Math.pow] is the integer power). *)
Definition calculateRetryDelay (attempt : Z) : Z :=
  let delay := initialDelay RETRY_CONFIG * backoffMultiplier RETRY_CONFIG ^ (attempt - 1) in
  Z.min delay (maxDelay RETRY_CONFIG).

Definition retryableStatusCodes : list Z := [429; 500; 502; 503; 504].
Definition retryableMessages : list string := ["timeout"; "network"; "connection"].

(** [Array.prototype.includes] on the status codes; an absent [statusCode]
    is in no list. *)
Definition includes_code (codes : list Z) (c : option Z) : bool :=
  match c with
  | Some v => existsb (Z.eqb v) codes
  | None => false
  end.

(** [isRetryableError].  When the status code is not in the list the message
    is read: on an error without [message] the read throws a [TypeError]. *)
Definition isRetryableError (error : JsError) : JsError + bool :=
  if includes_code retryableStatusCodes (err_statusCode error) then inr true
  else match err_message error with
       | Some m => inr (existsb (fun msg => Js.includes msg (Js.toLowerCase m)) retryableMessages)
       | None => inl (TypeError "toLowerCase")
       end.

(** What the adapter does, in order: gateway calls and sleeps. *)
Inductive Event :=
| EvCall (attempt : Z)
| EvDelay (ms : Z).

(** The body shared by [createRazorpayOrderWithRetry] and
    [fetchPaymentDetailsWithRetry]: [call n] is the outcome of
    [getRazorpayInstance()] followed by the gateway call on attempt [n].
    The recursion of the source is on [attempt + 1], guarded by
    [attempt < maxAttempts]; [fuel] bounds it here and is never exhausted
    when it is at least [maxAttempts - attempt]. *)
Fixpoint retry_loop {A : Type} (fuel : nat) (call : Z -> JsError + A) (attempt : Z)
    : list Event * (JsError + A) :=
  match call attempt with
  | inr result => ([EvCall attempt], inr result)
  | inl error =>
      if attempt <? maxAttempts RETRY_CONFIG then
        match isRetryableError error with
        | inl thrown => ([EvCall attempt], inl thrown)
        | inr false => ([EvCall attempt], inl error)
        | inr true =>
            match fuel with
            | O => ([EvCall attempt], inl error)
            | S fuel' =>
                let delayMs := calculateRetryDelay attempt in
                let '(evs, r) := retry_loop fuel' call (attempt + 1) in
                (EvCall attempt :: EvDelay delayMs :: evs, r)
            end
        end
      else ([EvCall attempt], inl error)
  end.

Definition retry_fuel (attempt : Z) : nat :=
  Z.to_nat (maxAttempts RETRY_CONFIG - attempt).

Definition createRazorpayOrderWithRetry (env : Env) (orderData : OrderRequest) (attempt : Z)
    : list Event * (JsError + GatewayOrder) :=
  retry_loop (retry_fuel attempt)
    (fun n => match getRazorpayInstance env with
              | inl e => inl e
              | inr instance => orders_create instance orderData n
              end) attempt.

Definition fetchPaymentDetailsWithRetry (env : Env) (paymentId : option string) (attempt : Z)
    : list Event * (JsError + Payment) :=
  retry_loop (retry_fuel attempt)
    (fun n => match getRazorpayInstance env with
              | inl e => inl e
              | inr instance => payments_fetch instance paymentId n
              end) attempt.

(** Number of gateway calls in a run of the adapter. *)
Fixpoint attempts_made (evs : list Event) : nat :=
  match evs with
  | [] => O
  | EvCall _ :: rest => S (attempts_made rest)
  | EvDelay _ :: rest => attempts_made rest
  end.

(** The sleeps of a run, in order. *)
Fixpoint delays_of (evs : list Event) : list Z :=
  match evs with
  | [] => []
  | EvDelay ms :: rest => ms :: delays_of rest
  | EvCall _ :: rest => delays_of rest
  end.

(** [getPaymentMethod]: the five gateway method names, [card] otherwise. *)
Definition getPaymentMethod (razorpayMethod : option string) : Method :=
  match razorpayMethod with
  | Some "card" => card
  | Some "netbanking" => netbanking
  | Some "upi" => upi
  | Some "wallet" => wallet
  | Some "emi" => emi
  | _ => card
  end.

(** [calculateFees]. *)
Definition calculateFees (paymentData : Payment) : Fees :=
  let fee := Js.or0 (p_fee paymentData) in
  let tax := Js.or0 (p_tax paymentData) in
  mkFees (inject_Z fee / 100)%Q (inject_Z tax / 100)%Q (inject_Z (fee + tax) / 100)%Q.

(** ** The Order model (models/Order.js) *)

(** [orderSchema.pre('save', ...)]: copies one name field to the other and
    rejects an address without any name. *)
Definition orderPreSave (o : Order) : JsError + Order :=
  let sa := o_shippingAddress o in
  let sa1 := if negb (Js.falsy_str (sa_fullName sa)) && Js.falsy_str (sa_name sa)
             then mkShippingAddress (sa_fullName sa) (sa_fullName sa) else sa in
  let sa2 := if negb (Js.falsy_str (sa_name sa1)) && Js.falsy_str (sa_fullName sa1)
             then mkShippingAddress (sa_name sa1) (sa_name sa1) else sa1 in
  if Js.falsy_str (sa_name sa2) && Js.falsy_str (sa_fullName sa2)
  then inl (PlainError "Shipping address must have a name or fullName")
  else inr (set_o_shippingAddress sa2 o).

(** [order.save()] on a new document: the stored order and its [_id]. *)
Definition save_new_order (o : Order) (db : Db) : JsError + (nat * Order * Db) :=
  match orderPreSave o with
  | inl e => inl e
  | inr o' => inr (length (orders db), o', mkDb (transactions db) (orders db ++ [o']))
  end.

(** [order.save()] on the document loaded from position [i]. *)
Definition save_order (i : nat) (o : Order) (db : Db) : JsError + Db :=
  match orderPreSave o with
  | inl e => inl e
  | inr o' => inr (mkDb (transactions db) (<[i := o']> (orders db)))
  end.

(** [Order.findById]. *)
Definition findById (i : nat) (db : Db) : option Order := orders db !! i.

(** ** The payment controller (controllers/enhancedPaymentController.js) *)

(** [transaction.save()] on a new document: every path given to the
    constructor counts as modified, and the document is appended. *)
Definition save_new (now : Z) (t : Transaction) (db : Db) : TxDoc * Db :=
  let i := length (transactions db) in
  let t' := preSave now (mkTxDoc i t true None) in
  (mkTxDoc i t' false None, mkDb (transactions db ++ [t']) (orders db)).

(** The request of [createOrder]: [items] is the length of the array, absent
    when the property is missing or not an array. *)
Record CreateRequest := mkCreateRequest {
  cr_amount : option Q;
  cr_currency : option string;
  cr_items : option nat;
  cr_user : nat;
}.

(** The body of the success response of [createOrder]. *)
Record CreateResponse := mkCreateResponse {
  cresp_order : GatewayOrder;
  cresp_transactionId : string;
  cresp_tx_id : nat;
  cresp_tx_status : Status;
}.

(** [createOrder].  [suffix] is the random part of the transaction id. *)
Definition createOrder (env : Env) (now : Z) (suffix : string) (req : CreateRequest) (db : Db)
    : Db * (JsError + CreateResponse) :=
  match cr_amount req with
  | None => (db, inl (AppError "Invalid amount specified" 400))
  | Some amt =>
      if negb (Js.truthyQ amt) || Qle_bool amt 0
      then (db, inl (AppError "Invalid amount specified" 400))
      else
        match cr_items req with
        | None | Some O => (db, inl (AppError "Order items are required" 400))
        | Some (S _) =>
            let transactionId := "txn_" ++ pretty now ++ "_" ++ suffix in
            let currency := Js.str_or (cr_currency req) "INR" in
            match snd (createRazorpayOrderWithRetry env
                         (mkOrderRequest (amt * 100) currency transactionId) 1) with
            | inl error =>
                (db, inl (match err_message error with
                          | Some m =>
                              AppError (if Js.includes "API" m
                                        then "Payment gateway unavailable. Please try again."
                                        else m) 500
                          | None => TypeError "includes"
                          end))
            | inr razorpayOrder =>
                let transaction :=
                  mkTransaction transactionId None (Some (go_id razorpayOrder)) None
                    amt card initiated None [] None None None None
                    (mkFees 0 0 0) amt None now in
                let '(t1, db1) := save_new now transaction db in
                (db1, inr (mkCreateResponse razorpayOrder transactionId
                             (doc_id t1) (status (doc t1))))
            end
        end
  end.

(** [req.body.orderData]. *)
Record OrderData := mkOrderData {
  od_shippingAddress : option ShippingAddress;
  od_totalPrice : Q;
}.

(** The request of [verifyPayment]: [req.body] and [req.user._id]. *)
Record VerifyRequest := mkVerifyRequest {
  razorpay_order_id : option string;
  razorpay_payment_id : option string;
  razorpay_signature : option string;
  orderData : option OrderData;
  vr_transactionId : option string;
  vr_user : nat;
}.

(** The body of the success response of [verifyPayment]. *)
Record VerifyResponse := mkVerifyResponse {
  vresp_order_id : nat;
  vresp_order : Order;
  vresp_tx_id : nat;
  vresp_tx_status : Status;
  vresp_fees : Fees;
  vresp_payment_id : option string;
  vresp_method : Method;
}.

(** The HTTP status the error middleware answers a thrown error with. *)
Definition http_status (e : JsError) : Z :=
  match err_statusCode e with
  | Some c => c
  | None => 500
  end.

(** The query [{ transactionId }]. *)
Definition by_transactionId (id : option string) (t : Transaction) : bool :=
  bool_decide (Some (transactionId t) = id).

(** The query [{ gatewayPaymentId: id }]: an absent id matches the documents
    without the field. *)
Definition by_gatewayPaymentId (id : option string) (t : Transaction) : bool :=
  bool_decide (gatewayPaymentId t = id).

(** The query [{ gatewayOrderId: id }]. *)
Definition by_gatewayOrderId (id : option string) (t : Transaction) : bool :=
  bool_decide (gatewayOrderId t = id).

(** The document [new Order({...})] of [verifyPayment]. *)
Definition verified_order (now : Z) (req : VerifyRequest) (od : OrderData) : Order :=
  mkOrder (vr_user req)
    (match od_shippingAddress od with
     | Some sa => sa
     | None => mkShippingAddress None None
     end)
    (razorpay_payment_id req) (od_totalPrice od)
    order_confirmed true (Some now) None.

(** [paymentDetails.amount === transaction.amount * 100]. *)
Definition amount_matches (paymentDetails : Payment) (t : Transaction) : bool :=
  match p_amount paymentDetails with
  | Some a => Qeq_bool (inject_Z a) (amount t * 100)
  | None => false
  end.

(** The string [verifyPayment] signs: the two gateway ids around a bar. *)
Definition signed_ids (req : VerifyRequest) : string :=
  Js.to_string (razorpay_order_id req) ++ "|" ++ Js.to_string (razorpay_payment_id req).

(** The [try] block of [verifyPayment]. *)
Definition verify_try (env : Env) (now : Z) (req : VerifyRequest) (od : OrderData) (db : Db)
    : Db * (JsError + VerifyResponse) :=
  match findOne (by_transactionId (vr_transactionId req)) db with
  | None => (db, inl (AppError "Transaction not found" 404))
  | Some transaction =>
      let body := signed_ids req in
      let expectedSignature := hmac_sha256_hex env (RAZORPAY_KEY_SECRET env) body in
      if negb (bool_decide (Some expectedSignature = razorpay_signature req)) then
        let '(_, db1) :=
          addStatusUpdate now failed (Some "Invalid payment signature")
            [("razorpay_order_id", MOptStr (razorpay_order_id req));
             ("razorpay_payment_id", MOptStr (razorpay_payment_id req));
             ("provided_signature", MOptStr (razorpay_signature req));
             ("expected_signature", MStr expectedSignature)] transaction db in
        (db1, inl (AppError "Payment verification failed" 400))
      else
        match snd (fetchPaymentDetailsWithRetry env (razorpay_payment_id req) 1) with
        | inl e => (db, inl e)
        | inr paymentDetails =>
            if negb (amount_matches paymentDetails (doc transaction))
            then (db, inl (AppError "Payment amount mismatch" 400))
            else if negb (bool_decide (p_status paymentDetails = Some "captured"))
            then (db, inl (AppError "Payment not captured successfully" 400))
            else
              let order := verified_order now req od in
              match save_new_order order db with
              | inl e => (db, inl e)
              | inr (savedId, savedOrder, db1) =>
                  let t1 := assign (set_orderId (Some savedId)) transaction in
                  let t2 := assign (set_gatewayPaymentId (razorpay_payment_id req)) t1 in
                  let t3 := assign (set_method (getPaymentMethod (p_method paymentDetails))) t2 in
                  let t4 := assign (set_fees (calculateFees paymentDetails)) t3 in
                  let '(t5, db2) :=
                    addStatusUpdate now success (Some "Payment verified and captured")
                      [("order_id", MId savedId); ("payment_details", MPayment paymentDetails)]
                      t4 db1 in
                  (db2, inr (mkVerifyResponse savedId savedOrder (doc_id t5)
                               (status (doc t5)) (fees (doc t5))
                               (razorpay_payment_id req) (method (doc t5))))
              end
        end
  end.

(** [verifyPayment]: the field checks, the [try] block, and the [catch]
    block, which reloads the transaction, marks it failed with the error's
    message and rethrows. *)
Definition verifyPayment (env : Env) (now : Z) (req : VerifyRequest) (db : Db)
    : Db * (JsError + VerifyResponse) :=
  if Js.falsy_str (razorpay_order_id req) || Js.falsy_str (razorpay_payment_id req)
     || Js.falsy_str (razorpay_signature req)
  then (db, inl (AppError "Missing payment verification data" 400))
  else
    match orderData req with
    | None => (db, inl (AppError "Missing order or transaction data" 400))
    | Some od =>
        if Js.falsy_str (vr_transactionId req)
        then (db, inl (AppError "Missing order or transaction data" 400))
        else
          match verify_try env now req od db with
          | (db1, inr response) => (db1, inr response)
          | (db1, inl error) =>
              let db2 :=
                match findOne (by_transactionId (vr_transactionId req)) db1 with
                | Some transaction =>
                    snd (addStatusUpdate now failed (err_message error)
                           [("error_code", MOptNum (err_statusCode error));
                            ("razorpay_order_id", MOptStr (razorpay_order_id req));
                            ("razorpay_payment_id", MOptStr (razorpay_payment_id req))]
                           transaction db1)
                | None => db1
                end in
              (db2, inl error)
          end
    end.

(** The request of [refundPayment]. *)
Record RefundRequest := mkRefundRequest {
  rr_paymentId : option string;
  rr_amount : option Q;
  rr_reason : option string;
  rr_transactionId : option string;
  rr_user : nat;
}.

(** The body of the success response of [refundPayment]. *)
Record RefundResponse := mkRefundResponse {
  rresp_refund : GatewayRefund;
  rresp_tx_id : nat;
  rresp_tx_status : Status;
  rresp_refundDetails : option Refund;
}.

(** [amount || transaction.amount]. *)
Definition refund_amount_or (a : option Q) (total : Q) : Q :=
  match a with
  | Some v => if Js.truthyQ v then v else total
  | None => total
  end.

(** The query of [refundPayment]: by payment id when one is given, by
    transaction id otherwise. *)
Definition refund_query (req : RefundRequest) : Transaction -> bool :=
  if negb (Js.falsy_str (rr_paymentId req))
  then by_gatewayPaymentId (rr_paymentId req)
  else by_transactionId (rr_transactionId req).

(** The [try] block of [refundPayment]. *)
Definition refund_try (env : Env) (now : Z) (req : RefundRequest) (db : Db)
    : Db * (JsError + RefundResponse) :=
  let query := refund_query req in
  match findOne query db with
  | None => (db, inl (AppError "Transaction not found" 404))
  | Some transaction =>
      let total := amount (doc transaction) in
      let refundAmount := refund_amount_or (rr_amount req) total in
      if negb (Qle_bool refundAmount total)
      then (db, inl (AppError "Refund amount cannot exceed transaction amount" 400))
      else
        match getRazorpayInstance env with
        | inl e => (db, inl e)
        | inr razorpayInstance =>
            match payments_refund razorpayInstance
                    (gatewayPaymentId (doc transaction)) (refundAmount * 100)%Q with
            | inl e => (db, inl e)
            | inr gwRefund =>
                let refundStatus :=
                  if Qeq_bool refundAmount total then refunded else partially_refunded in
                let t1 := assign (set_refund
                            (Some (mkRefund (Some (gr_id gwRefund)) (Some refundAmount)
                                     (Some (Js.str_or (rr_reason req) "Customer requested refund"))
                                     (Some (rr_user req)) (Some now) None None
                                     (Some "processing")))) transaction in
                let '(t2, db1) :=
                  addStatusUpdate now refundStatus (Some "Refund initiated")
                    [("refund_id", MStr (gr_id gwRefund)); ("refund_amount", MNum refundAmount);
                     ("reason", MOptStr (rr_reason req)); ("initiated_by", MId (rr_user req))]
                    t1 db in
                let response :=
                  mkRefundResponse gwRefund (doc_id t2) (status (doc t2)) (refund (doc t2)) in
                match orderId (doc t2) with
                | None => (db1, inr response)
                | Some oid =>
                    match findById oid db1 with
                    | None => (db1, inr response)
                    | Some order =>
                        if Qeq_bool refundAmount total then
                          match save_order oid (set_o_status order_cancelled order) db1 with
                          | inl e => (db1, inl e)
                          | inr db2 => (db2, inr response)
                          end
                        else (db1, inr response)
                    end
                end
            end
        end
  end.

(** [refundPayment]: the [catch] block replaces every error of the [try]
    block by a 500. *)
Definition refundPayment (env : Env) (now : Z) (req : RefundRequest) (db : Db)
    : Db * (JsError + RefundResponse) :=
  if Js.falsy_str (rr_paymentId req) && Js.falsy_str (rr_transactionId req)
  then (db, inl (AppError "Payment ID or Transaction ID is required" 400))
  else
    match refund_try env now req db with
    | (db1, inr response) => (db1, inr response)
    | (db1, inl _) => (db1, inl (AppError "Failed to process refund" 500))
    end.

(** ** JSON values and [JSON.stringify] *)

(** A parsed JSON value.  Numbers are the integers. *)
#[local] Unset Elimination Schemes.
Inductive Json :=
| JNull
| JBool (b : bool)
| JNum (n : Z)
| JStr (s : string)
| JArr (items : list Json)
| JObj (fields : list (string * Json)).
#[local] Set Elimination Schemes.

Definition hex_digit (n : nat) : ascii :=
  ascii_of_nat (if (n <? 10)%nat then 48 + n else 87 + n).

(** The escape [JSON.stringify] writes for one character of a string. *)
Definition escape_char (c : ascii) : string :=
  let n := nat_of_ascii c in
  let bs (r : string) := String (ascii_of_nat 92) r in
  if ((n =? 34) || (n =? 92))%nat then bs (String c EmptyString)
  else if (n =? 8)%nat then bs "b"
  else if (n =? 9)%nat then bs "t"
  else if (n =? 10)%nat then bs "n"
  else if (n =? 12)%nat then bs "f"
  else if (n =? 13)%nat then bs "r"
  else if (n <? 32)%nat
       then bs (String "u" (String "0" (String "0"
              (String (hex_digit (n / 16)) (String (hex_digit (n mod 16)) EmptyString)))))
  else String c EmptyString.

Fixpoint escape_string (s : string) : string :=
  match s with
  | EmptyString => EmptyString
  | String c r => escape_char c ++ escape_string r
  end.

Definition quote (s : string) : string :=
  String (ascii_of_nat 34) (escape_string s ++ String (ascii_of_nat 34) EmptyString).

(** [JSON.stringify] without indentation: no white space, object keys in
    insertion order. *)
Fixpoint JSON_stringify (j : Json) : string :=
  match j with
  | JNull => "null"
  | JBool true => "true"
  | JBool false => "false"
  | JNum n => pretty n
  | JStr s => quote s
  | JArr items =>
      "[" ++ (fix join (l : list Json) : string :=
                match l with
                | [] => EmptyString
                | [x] => JSON_stringify x
                | x :: rest => JSON_stringify x ++ "," ++ join rest
                end) items ++ "]"
  | JObj fields =>
      "{" ++ (fix join (l : list (string * Json)) : string :=
                match l with
                | [] => EmptyString
                | [(k, v)] => quote k ++ ":" ++ JSON_stringify v
                | (k, v) :: rest => quote k ++ ":" ++ JSON_stringify v ++ "," ++ join rest
                end) fields ++ "}"
  end.

(** Property read [j.k]: [None] is [undefined]. *)
Definition jget (k : string) (j : Json) : option Json :=
  match j with
  | JObj fields => snd <$> find (fun kv => bool_decide (fst kv = k)) fields
  | _ => None
  end.

(** Truthiness of a JSON value that may be [undefined]. *)
Definition j_truthy (j : option Json) : bool :=
  match j with
  | None | Some JNull | Some (JBool false) | Some (JNum 0) | Some (JStr EmptyString) => false
  | Some _ => true
  end.

(** Typed reads of a property: a string, a number, an array of strings. *)
Definition j_str (k : string) (j : Json) : option string :=
  match jget k j with
  | Some (JStr s) => Some s
  | _ => None
  end.

Definition j_num (k : string) (j : Json) : option Z :=
  match jget k j with
  | Some (JNum n) => Some n
  | _ => None
  end.

Definition j_strs (k : string) (j : Json) : option (list string) :=
  match jget k j with
  | Some (JArr items) =>
      Some (omap (fun x => match x with JStr s => Some s | _ => None end) items)
  | _ => None
  end.

(** The payment entity of a webhook payload, read field by field. *)
Definition payment_view (e : Json) : Payment :=
  mkPayment (j_str "id" e) (j_str "status" e) (j_str "method" e)
            (j_num "amount" e) (j_num "fee" e) (j_num "tax" e)
            (j_str "order_id" e) (j_str "error_code" e)
            (j_str "error_description" e) (j_num "updated_at" e).

(** *** [JSON.parse], on a subset

    The body parser [express.json] hands the handlers [JSON.parse] of the
    raw body.  The parser below covers white space, [null], [true], [false],
    integers, strings with the two-character escapes, arrays and objects; it
    answers [None] on anything else and on objects with a repeated key or a
    key made of digits (where a JavaScript object does not keep the textual
    order). *)

Definition is_ws (c : ascii) : bool :=
  let n := nat_of_ascii c in
  ((n =? 32) || (n =? 9) || (n =? 10) || (n =? 13))%nat.

Definition is_digit (c : ascii) : bool :=
  let n := nat_of_ascii c in ((48 <=? n) && (n <=? 57))%nat.

Fixpoint skip_ws (s : string) : string :=
  match s with
  | String c r => if is_ws c then skip_ws r else s
  | EmptyString => EmptyString
  end.

Definition unescape (c : ascii) : option ascii :=
  let n := nat_of_ascii c in
  if ((n =? 34) || (n =? 92) || (n =? 47))%nat then Some c
  else if (n =? 110)%nat then Some (ascii_of_nat 10)
  else if (n =? 116)%nat then Some (ascii_of_nat 9)
  else if (n =? 114)%nat then Some (ascii_of_nat 13)
  else if (n =? 98)%nat then Some (ascii_of_nat 8)
  else if (n =? 102)%nat then Some (ascii_of_nat 12)
  else None.

(** The characters of a string literal after its opening quote, and the
    rest of the input after the closing quote. *)
Fixpoint parse_string_body (s : string) : option (string * string) :=
  match s with
  | EmptyString => None
  | String c r =>
      if (nat_of_ascii c =? 34)%nat then Some (EmptyString, r)
      else if (nat_of_ascii c =? 92)%nat then
        match r with
        | String e r' =>
            match unescape e, parse_string_body r' with
            | Some c', Some (body, rest) => Some (String c' body, rest)
            | _, _ => None
            end
        | EmptyString => None
        end
      else if (nat_of_ascii c <? 32)%nat then None
      else match parse_string_body r with
           | Some (body, rest) => Some (String c body, rest)
           | None => None
           end
  end.

Fixpoint parse_digits (acc : Z) (s : string) : Z * string :=
  match s with
  | String c r =>
      if is_digit c then parse_digits (10 * acc + Z.of_nat (nat_of_ascii c - 48)) r
      else (acc, s)
  | EmptyString => (acc, s)
  end.

Definition all_digits (k : string) : bool :=
  forallb is_digit (list_ascii_of_string k) && negb (bool_decide (k = EmptyString)).

(** The elements of an array after one element has been read. *)
Fixpoint parse_array_rest (fuel : nat) (value : string -> option (Json * string)) (s : string)
    : option (list Json * string) :=
  match fuel with
  | O => None
  | S fuel' =>
      match skip_ws s with
      | String "]" r => Some ([], r)
      | String "," r =>
          match value r with
          | Some (v, r1) =>
              match parse_array_rest fuel' value r1 with
              | Some (vs, r2) => Some (v :: vs, r2)
              | None => None
              end
          | None => None
          end
      | _ => None
      end
  end.

(** One [key : value] member of an object. *)
Definition parse_member (value : string -> option (Json * string)) (s : string)
    : option (string * Json * string) :=
  match skip_ws s with
  | String c r =>
      if (nat_of_ascii c =? 34)%nat then
        match parse_string_body r with
        | Some (k, r1) =>
            match skip_ws r1 with
            | String ":" r2 =>
                match value r2 with
                | Some (v, r3) => if all_digits k then None else Some (k, v, r3)
                | None => None
                end
            | _ => None
            end
        | None => None
        end
      else None
  | EmptyString => None
  end.

(** The members of an object after one member has been read. *)
Fixpoint parse_object_rest (fuel : nat) (value : string -> option (Json * string)) (s : string)
    : option (list (string * Json) * string) :=
  match fuel with
  | O => None
  | S fuel' =>
      match skip_ws s with
      | String "}" r => Some ([], r)
      | String "," r =>
          match parse_member value r with
          | Some (k, v, r1) =>
              match parse_object_rest fuel' value r1 with
              | Some (kvs, r2) =>
                  if bool_decide (k ∈ kvs.*1) then None else Some ((k, v) :: kvs, r2)
              | None => None
              end
          | None => None
          end
      | _ => None
      end
  end.

(** [strip_prefix p s] is the rest of [s] after its prefix [p]. *)
Fixpoint strip_prefix (p s : string) : option string :=
  match p, s with
  | EmptyString, _ => Some s
  | String a p', String b s' => if Ascii.eqb a b then strip_prefix p' s' else None
  | String _ _, EmptyString => None
  end.

Fixpoint parse_value (fuel : nat) (s : string) : option (Json * string) :=
  match fuel with
  | O => None
  | S fuel' =>
      match skip_ws s with
      | EmptyString => None
      | String c r =>
          if (nat_of_ascii c =? 34)%nat then
            match parse_string_body r with
            | Some (str, r1) => Some (JStr str, r1)
            | None => None
            end
          else if Ascii.eqb c "[" then
            match skip_ws r with
            | String "]" r1 => Some (JArr [], r1)
            | _ =>
                match parse_value fuel' r with
                | Some (v, r1) =>
                    match parse_array_rest fuel' (parse_value fuel') r1 with
                    | Some (vs, r2) => Some (JArr (v :: vs), r2)
                    | None => None
                    end
                | None => None
                end
            end
          else if Ascii.eqb c "{" then
            match skip_ws r with
            | String "}" r1 => Some (JObj [], r1)
            | _ =>
                match parse_member (parse_value fuel') r with
                | Some (k, v, r1) =>
                    match parse_object_rest fuel' (parse_value fuel') r1 with
                    | Some (kvs, r2) =>
                        if bool_decide (k ∈ kvs.*1) then None
                        else Some (JObj ((k, v) :: kvs), r2)
                    | None => None
                    end
                | None => None
                end
            end
          else if Ascii.eqb c "-" then
            match r with
            | String d _ =>
                if is_digit d then
                  let '(n, rest) := parse_digits 0 r in Some (JNum (- n), rest)
                else None
            | EmptyString => None
            end
          else if is_digit c then
            let '(n, rest) := parse_digits 0 (String c r) in Some (JNum n, rest)
          else
            match strip_prefix "null" (String c r), strip_prefix "true" (String c r),
                  strip_prefix "false" (String c r) with
            | Some rest, _, _ => Some (JNull, rest)
            | _, Some rest, _ => Some (JBool true, rest)
            | _, _, Some rest => Some (JBool false, rest)
            | None, None, None => None
            end
      end
  end.

Definition JSON_parse (s : string) : option Json :=
  match parse_value (S (String.length s)) s with
  | Some (v, rest) => if bool_decide (skip_ws rest = EmptyString) then Some v else None
  | None => None
  end.

(** ** The webhook router (routes/webhooks.js) *)

(** Outcome of a handler: it returns, or throws. *)
Definition Outcome : Type := Db * (JsError + unit).

(** [handlePaymentAuthorized].  [method] is a required path of the schema,
    so [!transaction.method] is false on a stored document. *)
Definition handlePaymentAuthorized (now : Z) (payment : Payment) (ipAddress : string) (db : Db)
    : Outcome :=
  match findOne (by_gatewayPaymentId (p_id payment)) db with
  | None => (db, inr tt)
  | Some transaction =>
      let '(t1, db1) :=
        addStatusUpdate now authorized (Some "Payment authorized by gateway")
          [("webhook_event", MStr "payment.authorized");
           ("gateway_status", MOptStr (p_status payment));
           ("webhook_ip", MStr ipAddress);
           ("payment_method", MOptStr (p_method payment))] transaction db in
      if bool_decide (method (doc t1) = card) then
        let t2 := assign (set_method (getPaymentMethod (p_method payment))) t1 in
        (snd (save now t2 db1), inr tt)
      else (db1, inr tt)
  end.

(** [handlePaymentCaptured]. *)
Definition handlePaymentCaptured (now : Z) (payment : Payment) (ipAddress : string) (db : Db)
    : Outcome :=
  match findOne (by_gatewayPaymentId (p_id payment)) db with
  | None => (db, inr tt)
  | Some transaction =>
      let '(t1, db1) :=
        addStatusUpdate now captured (Some "Payment captured by gateway")
          [("webhook_event", MStr "payment.captured");
           ("gateway_status", MOptStr (p_status payment));
           ("webhook_ip", MStr ipAddress);
           ("captured_amount", MOptNum (p_amount payment));
           ("fee", MOptNum (p_fee payment));
           ("tax", MOptNum (p_tax payment))] transaction db in
      if Js.truthyZ (p_fee payment) || Js.truthyZ (p_tax payment) then
        let newFees :=
          mkFees (inject_Z (Js.or0 (p_fee payment)) / 100)%Q
                 (inject_Z (Js.or0 (p_tax payment)) / 100)%Q
                 (inject_Z (Js.or0 (p_fee payment) + Js.or0 (p_tax payment)) / 100)%Q in
        let t2 := assign (set_fees newFees) t1 in
        let t3 := assign (fun t => set_netAmount (amount t - totalFee (fees t))%Q t) t2 in
        (snd (save now t3 db1), inr tt)
      else (db1, inr tt)
  end.

(** [handlePaymentFailed]. *)
Definition handlePaymentFailed (now : Z) (payment : Payment) (ipAddress : string) (db : Db)
    : Outcome :=
  match findOne (fun t => by_gatewayPaymentId (p_id payment) t
                          || by_gatewayOrderId (p_order_id payment) t) db with
  | None => (db, inr tt)
  | Some transaction =>
      let '(t1, db1) :=
        addStatusUpdate now failed (Some "Payment failed at gateway")
          [("webhook_event", MStr "payment.failed");
           ("gateway_status", MOptStr (p_status payment));
           ("webhook_ip", MStr ipAddress);
           ("error_code", MOptStr (p_error_code payment));
           ("error_description", MOptStr (p_error_description payment))] transaction db in
      match orderId (doc t1) with
      | None => (db1, inr tt)
      | Some oid =>
          match findById oid db1 with
          | None => (db1, inr tt)
          | Some order =>
              if negb (bool_decide (o_status order = order_cancelled)) then
                let order' :=
                  set_o_notes
                    (Some ("Payment failed: " ++ Js.to_string (p_error_description payment)))
                    (set_o_status order_cancelled order) in
                match save_order oid order' db1 with
                | inl e => (db1, inl e)
                | inr db2 => (db2, inr tt)
                end
              else (db1, inr tt)
          end
      end
  end.

(** [handleOrderPaid]. *)
Definition handleOrderPaid (now : Z) (order : Json) (ipAddress : string) (db : Db) : Outcome :=
  match findOne (by_gatewayOrderId (j_str "id" order)) db with
  | None => (db, inr tt)
  | Some transaction =>
      let '(_, db1) :=
        addStatusUpdate now success (Some "Order marked as paid")
          [("webhook_event", MStr "order.paid");
           ("gateway_status", MOptStr (j_str "status" order));
           ("webhook_ip", MStr ipAddress);
           ("amount_paid", MOptNum (j_num "amount_paid" order))] transaction db in
      (db1, inr tt)
  end.

Definition empty_refund : Refund := mkRefund None None None None None None None None.

(** The nested path [transaction.refund]: an object even when nothing was
    stored under it. *)
Definition refund_of (t : Transaction) : Refund :=
  match refund t with
  | Some r => r
  | None => empty_refund
  end.

(** [handleRefundCreated]. *)
Definition handleRefundCreated (now : Z) (refundE : Json) (ipAddress : string) (db : Db)
    : Outcome :=
  match findOne (by_gatewayPaymentId (j_str "payment_id" refundE)) db with
  | None => (db, inr tt)
  | Some transaction =>
      let old := refund_of (doc transaction) in
      let t1 :=
        assign (set_refund
                  (Some (mkRefund (j_str "id" refundE)
                           ((fun a => inject_Z a / 100)%Q <$> j_num "amount" refundE)
                           (refund_reason old) (refund_initiatedBy old)
                           ((fun c => c * 1000) <$> j_num "created_at" refundE)
                           (refund_processedAt old) (refund_arn old)
                           (Some "processing")))) transaction in
      let refundStatus :=
        match j_num "amount" refundE with
        | Some a => if Qeq_bool (inject_Z a) (amount (doc t1) * 100) then refunded
                    else partially_refunded
        | None => partially_refunded
        end in
      let '(t2, db1) :=
        addStatusUpdate now refundStatus (Some "Refund created by gateway")
          [("webhook_event", MStr "refund.created");
           ("refund_id", MOptStr (j_str "id" refundE));
           ("refund_amount", MOptNum (j_num "amount" refundE));
           ("webhook_ip", MStr ipAddress)] t1 db in
      (snd (save now t2 db1), inr tt)
  end.

(** The query [{ 'refund.refundId': id }]. *)
Definition by_refundId (id : option string) (t : Transaction) : bool :=
  bool_decide (refundId (refund_of t) = id).

(** The body shared by [handleRefundProcessed] and [handleRefundFailed]:
    update the refund sub-record, re-assert the current status, save. *)
Definition refund_progress (now : Z) (upd : Refund -> Refund) (reason event : string)
    (refundE : Json) (ipAddress : string) (db : Db) : Outcome :=
  match findOne (by_refundId (j_str "id" refundE)) db with
  | None => (db, inr tt)
  | Some transaction =>
      let t1 := assign (fun t => set_refund (Some (upd (refund_of t))) t) transaction in
      let '(t2, db1) :=
        addStatusUpdate now (status (doc t1)) (Some reason)
          [("webhook_event", MStr event);
           ("refund_id", MOptStr (j_str "id" refundE));
           ("webhook_ip", MStr ipAddress)] t1 db in
      (snd (save now t2 db1), inr tt)
  end.

(** [handleRefundProcessed]. *)
Definition handleRefundProcessed (now : Z) (refundE : Json) : string -> Db -> Outcome :=
  refund_progress now
    (fun r => mkRefund (refundId r) (refund_amount r) (refund_reason r)
                (refund_initiatedBy r) (refund_initiatedAt r) (Some now)
                (match jget "acquirer_data" refundE with
                 | Some a => j_str "arn" a
                 | None => None
                 end)
                (Some "completed"))
    "Refund processed successfully" "refund.processed" refundE.

(** [handleRefundFailed]. *)
Definition handleRefundFailed (now : Z) (refundE : Json) : string -> Db -> Outcome :=
  refund_progress now
    (fun r => mkRefund (refundId r) (refund_amount r) (refund_reason r)
                (refund_initiatedBy r) (refund_initiatedAt r) (refund_processedAt r)
                (refund_arn r) (Some "failed"))
    "Refund failed" "refund.failed" refundE.

(** [handleDisputeCreated] (the dispute sub-record is outside the modelled
    fields). *)
Definition handleDisputeCreated (now : Z) (dispute : Json) (ipAddress : string) (db : Db)
    : Outcome :=
  match findOne (by_gatewayPaymentId (j_str "payment_id" dispute)) db with
  | None => (db, inr tt)
  | Some transaction =>
      let '(t1, db1) :=
        addStatusUpdate now disputed (Some "Payment disputed")
          [("webhook_event", MStr "payment.dispute.created");
           ("dispute_id", MOptStr (j_str "id" dispute));
           ("reason", MOptStr (j_str "reason_code" dispute));
           ("webhook_ip", MStr ipAddress)] transaction db in
      (snd (save now t1 db1), inr tt)
  end.

(** [Transaction.find(query)]: the matching documents, in stored order. *)
Definition find_all (q : Transaction -> bool) (db : Db) : list TxDoc :=
  omap (fun it => if q (snd it) then Some (load (fst it) (snd it)) else None)
       (imap (fun i t => (i, t)) (transactions db)).

(** [handleSettlementProcessed] (the settlement sub-record is outside the
    modelled fields).  A payload without the array [entity_ids] makes the
    [$in] query throw. *)
Definition handleSettlementProcessed (now : Z) (settlement : Json) (ipAddress : string) (db : Db)
    : Outcome :=
  match j_strs "entity_ids" settlement with
  | None => (db, inl (PlainError "$in needs an array"))
  | Some ids =>
      let found :=
        find_all (fun t => match gatewayPaymentId t with
                           | Some id => bool_decide (id ∈ ids)
                           | None => false
                           end) db in
      (foldl (fun acc transaction =>
                let '(t1, db1) :=
                  addStatusUpdate now (status (doc transaction)) (Some "Payment settled")
                    [("webhook_event", MStr "settlement.processed");
                     ("settlement_id", MOptStr (j_str "id" settlement));
                     ("utr", MOptStr (j_str "utr" settlement));
                     ("webhook_ip", MStr ipAddress)] transaction acc in
                snd (save now t1 db1)) db found,
       inr tt)
  end.

(** [processWebhookEvent]: pick the entity, reject a payload without one,
    dispatch on the event name.  [payload] is [None] when the body has no
    such property. *)
Definition processWebhookEvent (now : Z) (event : option Json) (payload : option Json)
    (ipAddress : string) (db : Db) : Outcome :=
  match payload with
  | None | Some JNull => (db, inl (TypeError "payment"))
  | Some pl =>
      let holder :=
        if j_truthy (jget "payment" pl) then jget "payment" pl
        else if j_truthy (jget "order" pl) then jget "order" pl
        else if j_truthy (jget "refund" pl) then jget "refund" pl
        else Some (JObj []) in
      let entity := match holder with Some h => jget "entity" h | None => None end in
      match entity with
      | Some e =>
          if negb (j_truthy entity) then (db, inl (AppError "Invalid webhook payload" 400))
          else
            match event with
            | Some (JStr ev) =>
                if String.eqb ev "payment.authorized"
                then handlePaymentAuthorized now (payment_view e) ipAddress db
                else if String.eqb ev "payment.captured"
                then handlePaymentCaptured now (payment_view e) ipAddress db
                else if String.eqb ev "payment.failed"
                then handlePaymentFailed now (payment_view e) ipAddress db
                else if String.eqb ev "order.paid"
                then handleOrderPaid now e ipAddress db
                else if String.eqb ev "refund.created"
                then handleRefundCreated now e ipAddress db
                else if String.eqb ev "refund.processed"
                then handleRefundProcessed now e ipAddress db
                else if String.eqb ev "refund.failed"
                then handleRefundFailed now e ipAddress db
                else if String.eqb ev "payment.dispute.created"
                then handleDisputeCreated now e ipAddress db
                else if String.eqb ev "settlement.processed"
                then handleSettlementProcessed now e ipAddress db
                else (db, inr tt)
            | _ => (db, inr tt)
            end
      | None => (db, inl (AppError "Invalid webhook payload" 400))
      end
  end.

(** An inbound webhook request: the signature header, the bytes received,
    and [req.body] as the body parser left it. *)
Record WebhookRequest := mkWebhookRequest {
  wh_signature : option string;
  wh_rawBody : string;
  wh_body : Json;
  wh_ip : string;
}.

(** The JSON document the route answers with. *)
Inductive WebhookReply :=
| ReplyError (error : string)
| ReplySuccess
| ReplyAcknowledged (error : option string).

Record Response := mkResponse {
  res_status : Z;
  res_body : WebhookReply;
}.

(** The string the route feeds to the HMAC: [JSON.stringify(req.body)]. *)
Definition signed_payload (req : WebhookRequest) : string :=
  JSON_stringify (wh_body req).

(** [router.post('/razorpay', ...)].  [res.json] without [res.status]
    answers 200. *)
Definition razorpayWebhook (env : Env) (now : Z) (req : WebhookRequest) (db : Db)
    : Db * Response :=
  match RAZORPAY_WEBHOOK_SECRET env with
  | None | Some EmptyString => (db, mkResponse 500 (ReplyError "Webhook not configured"))
  | Some webhookSecret =>
      let body := signed_payload req in
      let expectedSignature := hmac_sha256_hex env webhookSecret body in
      if negb (bool_decide (wh_signature req = Some expectedSignature))
      then (db, mkResponse 400 (ReplyError "Invalid signature"))
      else
        match processWebhookEvent now (jget "event" (wh_body req))
                (jget "payload" (wh_body req)) (wh_ip req) db with
        | (db1, inr _) => (db1, mkResponse 200 ReplySuccess)
        | (db1, inl error) => (db1, mkResponse 200 (ReplyAcknowledged (err_message error)))
        end
  end.

(** ** The monitoring service (services/paymentMonitoring.js) *)

(** The object literal [statusMap] of [mapRazorpayStatus], as a finite map
    (own properties only). *)
Definition statusMap : gmap string Status :=
  list_to_map
    [("created", initiated); ("authorized", authorized); ("captured", success);
     ("refunded", refunded); ("failed", failed)].

(** [mapRazorpayStatus]. *)
Definition mapRazorpayStatus (razorpayStatus : string) : Status :=
  default pending (statusMap !! razorpayStatus).

(** [reconcileTransaction]: the service calls the gateway once, without the
    controller's retry wrapper. *)
Definition reconcileTransaction (rz : Razorpay) (now : Z) (transaction : TxDoc) (db : Db)
    : Outcome :=
  let attempt :=
    match payments_fetch rz (gatewayPaymentId (doc transaction)) 1 with
    | inl e => (db, inl e)
    | inr paymentDetails =>
        let newStatus := mapRazorpayStatus (Js.to_string (p_status paymentDetails)) in
        if negb (bool_decide (newStatus = status (doc transaction))) then
          let '(t1, db1) :=
            addStatusUpdate now newStatus (Some "Status updated via reconciliation")
              [("reconciliation", MBool true);
               ("gateway_status", MOptStr (p_status paymentDetails));
               ("gateway_updated_at", MOptNum (p_updated_at paymentDetails))]
              transaction db in
          let t2 :=
            if negb (Js.falsy_str (p_method paymentDetails))
            then assign (set_method (getPaymentMethod (p_method paymentDetails))) t1
            else t1 in
          let t3 :=
            if Js.truthyZ (p_fee paymentDetails) || Js.truthyZ (p_tax paymentDetails) then
              let newFees :=
                mkFees (inject_Z (Js.or0 (p_fee paymentDetails)) / 100)%Q
                       (inject_Z (Js.or0 (p_tax paymentDetails)) / 100)%Q
                       (inject_Z (Js.or0 (p_fee paymentDetails)
                                  + Js.or0 (p_tax paymentDetails)) / 100)%Q in
              assign (fun t => set_netAmount (amount t - totalFee (fees t))%Q t)
                     (assign (set_fees newFees) t2)
            else t2 in
          let '(t4, db2) := save now t3 db1 in
          match (if bool_decide (newStatus = success) then orderId (doc t4) else None) with
          | None => (db2, inr tt)
          | Some oid =>
              match findById oid db2 with
              | None => (db2, inr tt)
              | Some order =>
                  if negb (o_isPaid order) then
                    let order' :=
                      set_o_status order_confirmed
                        (set_o_paidAt (Some now) (set_o_isPaid true order)) in
                    match save_order oid order' db2 with
                    | inl e => (db2, inl e)
                    | inr db3 => (db3, inr tt)
                    end
                  else (db2, inr tt)
              end
          end
        else (db, inr tt)
    end in
  match attempt with
  | (db1, inr r) => (db1, inr r)
  | (db1, inl error) =>
      if bool_decide (err_statusCode error = Some 404) then
        (snd (addStatusUpdate now failed (Some "Payment not found in gateway")
                [("reconciliation", MBool true); ("error", MStr "PAYMENT_NOT_FOUND")]
                transaction db1),
         inr tt)
      else (db1, inl error)
  end.

(** The query of the expiry sweep. *)
Definition is_stale (staleDate : Z) (t : Transaction) : bool :=
  (bool_decide (status t = initiated) || bool_decide (status t = pending))
  && (createdAt t <? staleDate).

(** The body of the sweep's loop for one document; the [catch] of the loop
    logs an error and goes on with what was saved before it. *)
Definition cleanup_one (now : Z) (db : Db) (transaction : TxDoc) : Db :=
  let '(t1, db1) :=
    addStatusUpdate now expired (Some "Transaction expired due to inactivity")
      [("cleanup", MBool true);
       ("stale_duration", MNum (inject_Z (now - createdAt (doc transaction))))]
      transaction db in
  match orderId (doc t1) with
  | None => db1
  | Some oid =>
      match findById oid db1 with
      | None => db1
      | Some order =>
          if bool_decide (o_status order = order_pending) then
            let order' :=
              set_o_notes (Some "Order cancelled due to payment timeout")
                (set_o_status order_cancelled order) in
            match save_order oid order' db1 with
            | inl _ => db1
            | inr db2 => db2
            end
          else db1
      end
  end.

(** [cleanupStaleTransactions]. *)
Definition cleanupStaleTransactions (now : Z) (db : Db) : Db :=
  let staleDate := now - 7 * 24 * 60 * 60 * 1000 in
  let staleTransactions := find_all (is_stale staleDate) db in
  foldl (cleanup_one now) db staleTransactions.

(** ** Derived notions used in the statements *)

(** The hook's history entry. *)
Definition hook_entry (now : Z) (t : Transaction) : StatusEntry :=
  mkStatusEntry (status t) now (Some "Status changed")
    [("previousStatus", MStatus (previousStatus t))].

(** What [addStatusUpdate] stores for a document as loaded. *)
Definition updated (now : Z) (st : Status) (reason : option string)
    (metadata : list (string * MetaValue)) (d : TxDoc) : Transaction :=
  preSave now
    (assign (push_history (mkStatusEntry st now reason metadata))
       (assign_status st (assign (set_previousStatus (Some (status (doc d)))) d))).

(** A failure the specification calls retryable: its status code is one of
    429, 500, 502, 503, 504, or its message contains "timeout", "network" or
    "connection" (the message is compared in lower case, as the code does). *)
Definition retryable_failure (e : JsError) : Prop :=
  (exists c, err_statusCode e = Some c /\ c ∈ [429; 500; 502; 503; 504])
  \/ (exists m w, err_message e = Some m
                 /\ w ∈ ["timeout"; "network"; "connection"]
                 /\ Js.includes w (Js.toLowerCase m) = true).

(** The retry policy of the specification for an adapter function [run]
    wrapped around the gateway call [call]: at most three attempts from a
    first attempt numbered 1; a success returns at once; a retryable failure
    of attempt [n < 3] is followed by a sleep of [min (1000 * 2^(n-1)) 10000]
    milliseconds and attempt [n + 1]; any other failure ends the run with an
    error after that one call. *)
Definition retry_policy {A : Type} (call : Z -> JsError + A)
    (run : Z -> list Event * (JsError + A)) : Prop :=
  (1 <= attempts_made (fst (run 1%Z)) <= 3)%nat
  /\ delays_of (fst (run 1)) `prefix_of` [1000; 2000]
  /\ (forall n v, call n = inr v -> run n = ([EvCall n], inr v))
  /\ (forall n e, 1 <= n -> call n = inl e ->
        (n < 3 /\ retryable_failure e ->
           run n = (EvCall n :: EvDelay (Z.min (1000 * 2 ^ (n - 1)) 10000) :: fst (run (n + 1)),
                    snd (run (n + 1))))
        /\ (~ (n < 3 /\ retryable_failure e) ->
           fst (run n) = [EvCall n] /\ exists e', snd (run n) = inl e')).

(** The transaction [verifyPayment] stores on success, from the document
    [d] it loaded, the gateway's payment and the new order's id. *)
Definition verified_tx (now : Z) (req : VerifyRequest) (paymentDetails : Payment)
    (savedId : nat) (d : TxDoc) : Transaction :=
  updated now success (Some "Payment verified and captured")
    [("order_id", MId savedId); ("payment_details", MPayment paymentDetails)]
    (assign (set_fees (calculateFees paymentDetails))
       (assign (set_method (getPaymentMethod (p_method paymentDetails)))
          (assign (set_gatewayPaymentId (razorpay_payment_id req))
             (assign (set_orderId (Some savedId)) d)))).

(** The operations that set the [fees] sub-record of the stored transaction
    [i] and complete a save: a successful verification, the
    [payment.captured] webhook handler when the entity carries a fee or a
    tax, and a reconciliation that sees a new status and a fee or a tax. *)
Inductive fee_update : Db -> nat -> Db -> Prop :=
| fee_update_verification env now req db db1 r :
    verifyPayment env now req db = (db1, inr r) ->
    fee_update db (vresp_tx_id r) db1
| fee_update_webhook now payment ipAddress db i t :
    findOne (by_gatewayPaymentId (p_id payment)) db = Some (load i t) ->
    Js.truthyZ (p_fee payment) || Js.truthyZ (p_tax payment) = true ->
    fee_update db i (fst (handlePaymentCaptured now payment ipAddress db))
| fee_update_reconciliation rz now db i t paymentDetails :
    transactions db !! i = Some t ->
    payments_fetch rz (gatewayPaymentId t) 1 = inr paymentDetails ->
    mapRazorpayStatus (Js.to_string (p_status paymentDetails)) <> status t ->
    Js.truthyZ (p_fee paymentDetails) || Js.truthyZ (p_tax paymentDetails) = true ->
    fee_update db i (fst (reconcileTransaction rz now (load i t) db)).

(** An order the Order hook accepts: its shipping address has a name or a
    full name.  Every order stored through [save] is one. *)
Definition order_named (o : Order) : Prop :=
  Js.falsy_str (sa_name (o_shippingAddress o)) = false
  \/ Js.falsy_str (sa_fullName (o_shippingAddress o)) = false.

(** A transaction the specification calls stale at time [now]: its status
    is [initiated] or [pending] and it was created more than 7 days before. *)
Definition stale_by_spec (now : Z) (t : Transaction) : Prop :=
  (status t = initiated \/ status t = pending)
  /\ 7 * 24 * 60 * 60 * 1000 < now - createdAt t.

(** ** Sample data *)

Definition dq : string := String (ascii_of_nat 34) EmptyString.

Definition no_fees : Fees := mkFees 0 0 0.

(** A transaction before its verification: Rs 500, [initiated], no order. *)
Definition tx_initiated : Transaction :=
  mkTransaction "txn_1" None (Some "order_1") None 500 card
    initiated None [] None None None None no_fees 500 None 0.

(** The same transaction after a successful verification against order 0. *)
Definition tx_success : Transaction :=
  mkTransaction "txn_1" (Some 0%nat) (Some "order_1") (Some "pay_1") 500 card
    success (Some success)
    [mkStatusEntry success 10 (Some "Payment verified and captured") []]
    None (Some 10) None None no_fees 500 None 0.

Definition named_address : ShippingAddress :=
  mkShippingAddress (Some "Asha") (Some "Asha").

Definition order_paid : Order :=
  mkOrder 7 named_address (Some "pay_1") 500 order_confirmed true (Some 10) None.

Definition order_waiting : Order :=
  mkOrder 7 named_address None 500 order_pending false None None.


(** A stand-in for HMAC-SHA256 in the examples: the program only compares
    two digests, so any function of key and message serves. *)
Definition sample_hmac (key msg : string) : string :=
  "hmac(" ++ key ++ "," ++ msg ++ ")".

(** A gateway that reports every payment as captured, Rs 500, with a fee of
    Rs 10 and Rs 1.80 of tax, and accepts every refund. *)
Definition sample_gateway : Razorpay :=
  mkRazorpay
    (fun _ _ => inr (mkGatewayOrder "order_1" "INR" 50000))
    (fun id _ => inr (mkPayment id (Some "captured") (Some "upi") (Some 50000)
                        (Some 1000) (Some 180) (Some "order_1") None None None))
    (fun _ _ => inr (mkGatewayRefund "rfnd_1")).

Definition sample_env : Env :=
  mkEnv "key_secret" (Some "whsec") (Some sample_gateway) sample_hmac.

Definition sample_orderData : OrderData :=
  mkOrderData (Some (mkShippingAddress (Some "Asha") None)) 500.

(** A verification request with the right signature. *)
Definition good_request : VerifyRequest :=
  mkVerifyRequest (Some "order_1") (Some "pay_1")
    (Some (sample_hmac "key_secret" "order_1|pay_1"))
    (Some sample_orderData) (Some "txn_1") 7.

(** The same request signed for another payment id. *)
Definition tampered_request : VerifyRequest :=
  mkVerifyRequest (Some "order_1") (Some "pay_1")
    (Some (sample_hmac "key_secret" "order_1|pay_2"))
    (Some sample_orderData) (Some "txn_1") 7.

Definition db_initiated : Db := mkDb [tx_initiated] [].

(** The answer to [good_request] on [db_initiated] at time 10, and the
    database it leaves. *)
Definition first_response : VerifyResponse :=
  mkVerifyResponse 0
    (mkOrder 7 named_address (Some "pay_1") 500 order_confirmed true (Some 10) None)
    0 success (mkFees (1000 # 100) (180 # 100) (1180 # 100)) (Some "pay_1") upi.

Definition db_verified : Db :=
  Eval vm_compute in fst (verifyPayment sample_env 10 good_request db_initiated).

(** A webhook delivery.  The gateway's bytes have a space after each colon
    and comma; [express.json] parses them into [captured_event]. *)
Definition captured_raw : string :=
  "{" ++ dq ++ "event" ++ dq ++ ": " ++ dq ++ "payment.captured" ++ dq ++ ", "
  ++ dq ++ "payload" ++ dq ++ ": {" ++ dq ++ "payment" ++ dq ++ ": {"
  ++ dq ++ "entity" ++ dq ++ ": {" ++ dq ++ "id" ++ dq ++ ": " ++ dq ++ "pay_1" ++ dq
  ++ ", " ++ dq ++ "fee" ++ dq ++ ": 1000, " ++ dq ++ "tax" ++ dq ++ ": 180}}}}".

Definition captured_event : Json :=
  JObj [("event", JStr "payment.captured");
        ("payload",
         JObj [("payment",
                JObj [("entity",
                       JObj [("id", JStr "pay_1"); ("fee", JNum 1000); ("tax", JNum 180)])])])].

(** The delivery signed by the gateway: the header is the HMAC of the bytes
    sent. *)
Definition gateway_signed_request : WebhookRequest :=
  mkWebhookRequest (Some (sample_hmac "whsec" captured_raw)) captured_raw captured_event
    "10.0.0.1".

(** The same delivery with the header computed over the re-serialized body. *)
Definition reserialized_signed_request : WebhookRequest :=
  mkWebhookRequest (Some (sample_hmac "whsec" (JSON_stringify captured_event)))
    captured_raw captured_event "10.0.0.1".

(** A delivery whose payload has no entity: [{"event":"payment.captured","payload":{}}],
    correctly signed. *)
Definition shapeless_event : Json :=
  JObj [("event", JStr "payment.captured"); ("payload", JObj [])].

Definition shapeless_request : WebhookRequest :=
  mkWebhookRequest (Some (sample_hmac "whsec" (JSON_stringify shapeless_event)))
    (JSON_stringify shapeless_event) shapeless_event "10.0.0.1".

Definition db_success : Db := mkDb [tx_success] [order_paid].

(** A refund request without amount, and one for Rs 200, by transaction id. *)
Definition full_refund_request : RefundRequest :=
  mkRefundRequest None None (Some "damaged") (Some "txn_1") 1.

Definition partial_refund_request : RefundRequest :=
  mkRefundRequest None (Some 200%Q) (Some "damaged") (Some "txn_1") 1.

(** A database for the expiry sweep at time [day 9]: transaction 0 is
    [pending] since day 1 and linked to the pending order 0; transaction 1 is
    [pending] since day 8; transaction 2 is [success] since day 1. *)
Definition day (n : Z) : Z := n * 24 * 60 * 60 * 1000.

Definition tx_at (id : string) (st : Status) (created : Z) (oid : option nat) : Transaction :=
  mkTransaction id oid (Some "order_1") None 500 card
    st None [] None None None None no_fees 500 None created.

Definition db_sweep : Db :=
  mkDb [tx_at "txn_a" pending (day 1) (Some 0%nat);
        tx_at "txn_b" pending (day 8) None;
        tx_at "txn_c" success (day 1) None]
       [order_waiting].

(** ** The validators of the schema, and the prototype chain *)

(** What [doc.validate()] checks on the paths of the record.  [save] runs it
    before the pre-save hook and writes nothing when it fails:
    [transactionId] and [orderId] are required and [amount] has the minimum
    0.  The paths [status], [previousStatus] and [method] range over their
    enums by their types, [netAmount] is always present, and the required
    paths outside the record ([userId], [gateway], [gatewayTransactionId],
    [currency], [type]) are taken to be present.  The functions
    [save] and [addStatusUpdate] above are the save of a document that
    passes; the statements that speak of a completed write take the stored
    document to pass, as every document stored through [save] does. *)
Definition schema_valid (t : Transaction) : bool :=
  negb (String.eqb (transactionId t) "")
  && match orderId t with Some _ => true | None => false end
  && Qle_bool 0 (amount t).

(** The property names every object literal inherits from
    [Object.prototype]. *)
Definition Object_prototype_names : list string :=
  ["constructor"; "__defineGetter__"; "__defineSetter__"; "hasOwnProperty";
   "__lookupGetter__"; "__lookupSetter__"; "isPrototypeOf"; "propertyIsEnumerable";
   "toString"; "valueOf"; "__proto__"; "toLocaleString"].

Definition inherited (key : string) : bool :=
  bool_decide (key ∈ Object_prototype_names).

(** The value of [statusMap[razorpayStatus] || 'pending'] with the prototype
    chain: an own key gives its status; an inherited name gives the inherited
    member, a function or an object and so truthy, written [inr name]; every
    other string gives 'pending'.  [mapRazorpayStatus] above is this value
    on the strings that are not inherited names. *)
Definition mapRazorpayStatus_returns (razorpayStatus : string) : Status + string :=
  match statusMap !! razorpayStatus with
  | Some st => inl st
  | None => if inherited razorpayStatus then inr razorpayStatus else inl pending
  end.

(** The value of [methodMap[razorpayMethod] || 'card'], in the same way. *)
Definition getPaymentMethod_returns (razorpayMethod : option string) : Method + string :=
  if inherited (Js.to_string razorpayMethod) then inr (Js.to_string razorpayMethod)
  else inl (getPaymentMethod razorpayMethod).

(** The sample transaction linked to an order that waits for its payment,
    and a database holding the two. *)
Definition tx_linked : Transaction := set_orderId (Some 0%nat) tx_initiated.

Definition db_linked : Db := mkDb [tx_linked] [order_waiting].

(** A database for the expiry sweep whose transactions all pass the schema:
    both linked to order 0, [pending] since day 1 and since day 8. *)
Definition db_stale : Db :=
  mkDb [tx_at "txn_a" pending (day 1) (Some 0%nat);
        tx_at "txn_b" pending (day 8) (Some 0%nat)]
       [order_waiting].

(** ** Notions for the properties beyond the specification's claims *)

(** [t'] is a later state of the transaction [t]: the status history of
    [t] is a prefix of that of [t'], and the identity of the record (its
    transaction id, its gateway order id, its amount, its creation time) is
    the same. *)
Definition tx_extends (t t' : Transaction) : Prop :=
  statusHistory t `prefix_of` statusHistory t'
  /\ transactionId t' = transactionId t
  /\ gatewayOrderId t' = gatewayOrderId t
  /\ amount t' = amount t
  /\ createdAt t' = createdAt t.

(** [db'] is a later state of the Transaction collection of [db]: the same
    number of documents, each a later state of the one at its position. *)
Definition db_extends (db db' : Db) : Prop :=
  length (transactions db') = length (transactions db)
  /\ forall i t, transactions db !! i = Some t ->
       exists t', transactions db' !! i = Some t' /\ tx_extends t t'.

(** The four timing fields of a transaction. *)
Definition timing (t : Transaction) : option Z * option Z * option Z * option Z :=
  (authorizedAt t, capturedAt t, failedAt t, refundedAt t).

(** The database the tampered sample request leaves at time 20. *)
Definition db_tampered : Db :=
  Eval vm_compute in fst (verifyPayment sample_env 20 tampered_request db_linked).

(** ** Failure categories (routes/webhooks.js, services/paymentMonitoring.js) *)

(** [Array.prototype.includes] on an array of strings, for a value that may
    be [undefined]. *)
Definition includes_str (l : list string) (x : option string) : bool :=
  match x with
  | Some s => bool_decide (s ∈ l)
  | None => false
  end.

(** [categorizeFailureReason]. *)
Definition categorizeFailureReason (errorCode : option string) : string :=
  let technicalErrors := ["GATEWAY_ERROR"; "BAD_REQUEST_ERROR"; "SERVER_ERROR"] in
  let businessErrors := ["PAYMENT_CAPTURE_FAILED"; "PAYMENT_ALREADY_REFUNDED"] in
  let userErrors := ["INVALID_CARD_NUMBER"; "CARD_EXPIRED"; "INSUFFICIENT_FUNDS"] in
  if includes_str technicalErrors errorCode then "technical"
  else if includes_str businessErrors errorCode then "business"
  else if includes_str userErrors errorCode then "user_error"
  else "unknown".

(** The condition ['failureReason.category': { $in: [...] }] of the query
    of [retryFailedPayments]. *)
Definition retryable_category (category : string) : bool :=
  bool_decide (category ∈ ["technical"; "network"]).

(** ** The analytics filters (controllers/enhancedPaymentController.js) *)

(** A condition of a MongoDB filter document: a value to equal, or a range
    of dates given by its operators. *)
Inductive Cond :=
| CEq (value : string)
| CRange (operators : gmap string Z).

(** The object [dateRange] of [getPaymentAnalytics]: [$gte] and [$lte]
    are set from the query parameters that are given; [newDate] stands for
    [new Date(string)]. *)
Definition dateRange (newDate : string -> Z) (startDate endDate : option string)
    : gmap string Z :=
  let r1 : gmap string Z :=
    match startDate with
    | Some s => if Js.falsy_str startDate then ∅ else <["$gte" := newDate s]> ∅
    | None => ∅
    end in
  match endDate with
  | Some s => if Js.falsy_str endDate then r1 else <["$lte" := newDate s]> r1
  | None => r1
  end.

(** [matchStage]: [dateRange.createdAt ? { createdAt: dateRange } : {}].  A
    date is an object, so a property that is present is truthy. *)
Definition matchStage (newDate : string -> Z) (startDate endDate : option string)
    : gmap string Cond :=
  let r := dateRange newDate startDate endDate in
  match r !! "createdAt" with
  | Some _ => {[ "createdAt" := CRange r ]}
  | None => ∅
  end.

(** The [$match] stages of the four aggregations of [getPaymentAnalytics]:
    the overview ([getTransactionStats]), the failure analysis
    ([getFailureAnalysis], which spreads its argument over
    [{status: 'failed'}]), the revenue trends and the method distribution
    (both [{...matchStage, status: 'success'}]). *)
Record AnalyticsFilters := mkAnalyticsFilters {
  overview_match : gmap string Cond;
  failureAnalysis_match : gmap string Cond;
  revenueTrends_match : gmap string Cond;
  methodDistribution_match : gmap string Cond;
}.

Definition getPaymentAnalytics_filters (newDate : string -> Z)
    (startDate endDate : option string) : AnalyticsFilters :=
  let m := matchStage newDate startDate endDate in
  mkAnalyticsFilters m
    (m ∪ {[ "status" := CEq "failed" ]})
    (<["status" := CEq "success"]> m)
    (<["status" := CEq "success"]> m).

(** ** The life cycle of the monitoring service (services/paymentMonitoring.js) *)

(** The periodic tasks of the service. *)
Inductive Task :=
| ReconcileTransactions
| RetryFailedPayments
| CleanupStaleTransactions
| GenerateDailyAnalytics
| ProcessRetryQueue.

(** An entry of the retry queue. *)
Record RetryItem := mkRetryItem {
  ri_transaction : TxDoc;
  ri_addedAt : Z;
  ri_attempts : Z;
}.

(** The service object together with the timers it has registered:
    [cron.schedule(pattern, f)] and [setInterval(f, ms)] each add a timer,
    and the service keeps no handle on any of them. *)
Record Service := mkService {
  isRunning : bool;
  retryQueue : gmap string RetryItem;
  cronJobs : list (string * Task);
  intervals : list (Z * Task);
}.

(** [new PaymentMonitoringService()]. *)
Definition new_service : Service := mkService false ∅ [] [].

(** [start()]. *)
Definition start (s : Service) : Service :=
  if isRunning s then s
  else
    mkService true (retryQueue s)
      (cronJobs s ++ [("*/30 * * * *", ReconcileTransactions);
                      ("*/5 * * * *", RetryFailedPayments);
                      ("0 2 * * *", CleanupStaleTransactions);
                      ("0 3 * * *", GenerateDailyAnalytics)])
      (intervals s ++ [(30000, ProcessRetryQueue)]).

(** [stop()]. *)
Definition stop (s : Service) : Service :=
  mkService false ∅ (cronJobs s) (intervals s).

(** The tasks that run when the timers of [pattern] fire: every callback
    registered for it, unless the service is stopped (each callback starts
    with [if (!this.isRunning) return]). *)
Definition fired (pattern : string) (s : Service) : list Task :=
  if isRunning s
  then snd <$> filter (fun job => fst job = pattern) (cronJobs s)
  else [].
(** * Properties *)

Local Open Scope list_scope.

(** ** Records and documents *)

Ltac tx_cases :=
  repeat match goal with
         | d : TxDoc |- _ => destruct d
         | t : Transaction |- _ => destruct t
         end;
  simpl in *.

Lemma set_status_status v t : status (set_status v t) = v.
Proof. by destruct t. Qed.

Lemma push_history_history e t : statusHistory (push_history e t) = statusHistory t ++ [e].
Proof. by destruct t. Qed.

(** The fields the pre-save hook leaves alone. *)
Lemma preSave_frame now d :
  let t := preSave now d in
  status t = status (doc d) /\ amount t = amount (doc d)
  /\ transactionId t = transactionId (doc d) /\ orderId t = orderId (doc d)
  /\ gatewayPaymentId t = gatewayPaymentId (doc d)
  /\ gatewayOrderId t = gatewayOrderId (doc d)
  /\ fees t = fees (doc d) /\ method t = method (doc d)
  /\ refund t = refund (doc d) /\ createdAt t = createdAt (doc d).
Proof.
  destruct d as [i t m o]; destruct t as [a b c e f g st h hs j k l n fe na r ca].
  unfold preSave; simpl.
  destruct (m && _); simpl.
  - destruct st; simpl; destruct (Js.truthyQ f); simpl; repeat split.
  - destruct (Js.truthyQ f); simpl; repeat split.
Qed.

Lemma preSave_history now d :
  statusHistory (preSave now d) =
  statusHistory (doc d) ++
  (if statusModified d && negb (bool_decide (Some (status (doc d)) = previousStatus (doc d)))
   then [hook_entry now (doc d)] else []).
Proof.
  destruct d as [i t m o]; destruct t as [a b c e f g st h hs j k l n fe na r ca].
  unfold preSave, hook_entry; simpl.
  destruct (m && _); simpl.
  - destruct st; simpl; destruct (Js.truthyQ f); simpl; reflexivity.
  - destruct (Js.truthyQ f); simpl; by rewrite app_nil_r.
Qed.

(** The hook's net amount: recomputed whenever the amount is truthy. *)
Lemma preSave_netAmount now d :
  Js.truthyQ (amount (doc d)) = true ->
  (netAmount (preSave now d) == amount (doc d) - totalFee (fees (doc d)))%Q.
Proof.
  destruct d as [i t m o]; destruct t as [a b c e f g st h hs j k l n fe na r ca].
  unfold preSave; simpl. intros Hf.
  assert (Hfee : ((if Js.truthyQ (totalFee fe) then totalFee fe else 0) == totalFee fe)%Q).
  { unfold Js.truthyQ. destruct (Qeq_bool (totalFee fe) 0) eqn:E; simpl; [|reflexivity].
    apply Qeq_bool_eq in E. by rewrite E. }
  destruct (m && _); simpl.
  - destruct st; simpl; rewrite Hf; simpl; by rewrite Hfee.
  - rewrite Hf; simpl. by rewrite Hfee.
Qed.

Lemma addStatusUpdate_eq now st reason metadata d db :
  addStatusUpdate now st reason metadata d db =
  (mkTxDoc (doc_id d) (updated now st reason metadata d) false (tx_original d),
   mkDb (<[doc_id d := updated now st reason metadata d]> (transactions db)) (orders db)).
Proof. reflexivity. Qed.

Lemma updated_frame now st reason metadata d :
  let t := updated now st reason metadata d in
  status t = st /\ amount t = amount (doc d)
  /\ transactionId t = transactionId (doc d) /\ orderId t = orderId (doc d)
  /\ gatewayPaymentId t = gatewayPaymentId (doc d)
  /\ gatewayOrderId t = gatewayOrderId (doc d)
  /\ fees t = fees (doc d) /\ method t = method (doc d)
  /\ refund t = refund (doc d) /\ createdAt t = createdAt (doc d).
Proof.
  unfold updated.
  pose proof (preSave_frame now
    (assign (push_history (mkStatusEntry st now reason metadata))
       (assign_status st (assign (set_previousStatus (Some (status (doc d)))) d)))) as H.
  simpl in H. destruct d as [i t m o]; destruct t; simpl in *. exact H.
Qed.

Lemma updated_history now st reason metadata d :
  statusModified d = false ->
  statusHistory (updated now st reason metadata d) =
  statusHistory (doc d) ++
  mkStatusEntry st now reason metadata ::
  (if bool_decide (status (doc d) = st) then []
   else [mkStatusEntry st now (Some "Status changed")
           [("previousStatus", MStatus (Some (status (doc d))))]]).
Proof.
  intros Hm. unfold updated. rewrite preSave_history.
  destruct d as [i t m o]; destruct t as [a b c e f g s0 h hs j k l n fe na r ca].
  simpl in *. subst m. simpl. unfold hook_entry; simpl.
  rewrite <- app_assoc. f_equal. simpl. f_equal.
  destruct (decide (s0 = st)) as [->|Hne].
  - rewrite !bool_decide_eq_true_2 by done. reflexivity.
  - rewrite (bool_decide_eq_false_2 (s0 = st)) by done. simpl.
    rewrite bool_decide_eq_false_2; [reflexivity|]. intros [= ->]. done.
Qed.

(** ** C1: status updates and terminal states *)

Lemma schema_valid_updated now st reason metadata d :
  schema_valid (updated now st reason metadata d) = schema_valid (doc d).
Proof.
  destruct (updated_frame now st reason metadata d) as (_ & Ha & Hid & Ho & _).
  cbv zeta in Ha, Hid, Ho. unfold schema_valid. by rewrite Ha, Hid, Ho.
Qed.

(** C1 (as amended): [addStatusUpdate] accepts every transition.  Whatever
    the current status of a stored transaction that passes the schema,
    terminal or not, the stored status after the call is the requested one,
    and the stored document passes the schema again.  A call with the current
    status leaves the status as it is and appends exactly one history entry;
    a call with a different status appends two, the caller's entry and the
    pre-save hook's "Status changed" entry. *)
Theorem addStatusUpdate_accepts_every_transition
    (now : Z) (st : Status) (reason : option string)
    (metadata : list (string * MetaValue)) (i : nat) (t : Transaction) (db : Db) :
  transactions db !! i = Some t ->
  schema_valid t = true ->
  exists t',
    transactions (snd (addStatusUpdate now st reason metadata (load i t) db)) !! i = Some t'
    /\ orders (snd (addStatusUpdate now st reason metadata (load i t) db)) = orders db
    /\ status t' = st
    /\ schema_valid t' = true
    /\ statusHistory t' =
       statusHistory t ++
       mkStatusEntry st now reason metadata ::
       (if bool_decide (status t = st) then []
        else [mkStatusEntry st now (Some "Status changed")
                [("previousStatus", MStatus (Some (status t)))]]).
Proof.
  intros Hi Hv. rewrite addStatusUpdate_eq. simpl.
  exists (updated now st reason metadata (load i t)). split; [|split; [|split; [|split]]].
  - apply list_lookup_insert_eq. by eapply lookup_lt_Some.
  - reflexivity.
  - apply (updated_frame now st reason metadata (load i t)).
  - by rewrite schema_valid_updated.
  - by rewrite updated_history.
Qed.

(** The instance of the theorem at a transaction that is already [success]
    and receives [success] again. *)
Lemma addStatusUpdate_accepts_witness :
  transactions (mkDb [tx_success] [order_paid]) !! 0%nat = Some tx_success
  /\ schema_valid tx_success = true
  /\ exists t',
    transactions (snd (addStatusUpdate 20 success (Some "Order marked as paid") []
                         (load 0 tx_success) (mkDb [tx_success] [order_paid]))) !! 0%nat
      = Some t'
    /\ orders (snd (addStatusUpdate 20 success (Some "Order marked as paid") []
                      (load 0 tx_success) (mkDb [tx_success] [order_paid]))) = [order_paid]
    /\ status t' = success
    /\ schema_valid t' = true
    /\ statusHistory t' =
       statusHistory tx_success ++
       mkStatusEntry success 20 (Some "Order marked as paid") [] ::
       (if bool_decide (status tx_success = success) then []
        else [mkStatusEntry success 20 (Some "Status changed")
                [("previousStatus", MStatus (Some (status tx_success)))]]).
Proof.
  split; [reflexivity|]. split; [reflexivity|].
  apply (addStatusUpdate_accepts_every_transition 20 success (Some "Order marked as paid") []
           0 tx_success (mkDb [tx_success] [order_paid])).
  - reflexivity.
  - reflexivity.
Defined.

(** C1 fails as stated: a stored transaction that passes the schema and is
    in the terminal state [success] is stored as [failed] when it receives
    [failed]; and the history of a transaction linked to its order and
    updated with [success] and then [failed] holds the one terminal state
    followed by the other. *)
Lemma terminal_state_overwritten :
  is_terminal success = true /\ is_terminal failed = true /\ success <> failed
  /\ schema_valid tx_success = true /\ schema_valid tx_linked = true
  /\ status <$> transactions
       (snd (addStatusUpdate 20 failed (Some "Payment failed at gateway") []
               (load 0 tx_success) (mkDb [tx_success] [order_paid]))) = [failed]
  /\ (fun t => se_status <$> statusHistory t) <$>
       transactions
         (apply_updates 20 0 [(success, "Order marked as paid");
                               (failed, "Payment failed at gateway")]
            db_linked)
     = [[success; success; failed; failed]].
Proof. repeat split; try done. Qed.

(** ** C5: the retry policy of the gateway adapter *)

Lemma includes_code_spec c :
  includes_code retryableStatusCodes c = true <->
  exists v, c = Some v /\ v ∈ [429; 500; 502; 503; 504].
Proof.
  unfold includes_code, retryableStatusCodes. destruct c as [v|]; simpl.
  - split.
    + intros H. exists v. split; [done|].
      repeat (apply orb_prop in H as [H|H]; [apply Z.eqb_eq in H; subst; set_solver|]).
      done.
    + intros (v' & [= <-] & Hin).
      repeat (apply elem_of_cons in Hin as [->|Hin]; [by rewrite ?Z.eqb_refl, ?orb_true_r|]).
      by apply elem_of_nil in Hin.
  - split; [done|]. by intros (v & ? & _).
Qed.

Lemma retryable_messages_spec m :
  existsb (fun msg => Js.includes msg (Js.toLowerCase m)) retryableMessages = true <->
  exists w, w ∈ ["timeout"; "network"; "connection"] /\ Js.includes w (Js.toLowerCase m) = true.
Proof.
  unfold retryableMessages. rewrite existsb_exists. split.
  - intros (w & Hin & Hw). exists w. split; [by apply list_elem_of_In|done].
  - intros (w & Hin & Hw). exists w. split; [by apply list_elem_of_In|done].
Qed.

(** [isRetryableError] answers [true] exactly on the retryable failures. *)
Lemma isRetryableError_true e :
  isRetryableError e = inr true <-> retryable_failure e.
Proof.
  unfold isRetryableError, retryable_failure.
  destruct (includes_code retryableStatusCodes (err_statusCode e)) eqn:Hc.
  - split; [|done]. intros _. left. by apply includes_code_spec.
  - assert (Hn : ~ exists c, err_statusCode e = Some c /\ c ∈ [429; 500; 502; 503; 504]).
    { intros H. apply includes_code_spec in H. congruence. }
    destruct (err_message e) as [m|].
    + split.
      * intros [= H]. right. apply retryable_messages_spec in H as (w & ? & ?). by exists m, w.
      * intros [H|(m' & w & [= <-] & Hin & Hw)]; [done|].
        f_equal. apply retryable_messages_spec. by exists w.
    + split; [done|]. intros [H|(m' & w & ? & _)]; done.
Qed.

Lemma retry_loop_attempts {A} fuel (call : Z -> JsError + A) n :
  (1 <= attempts_made (fst (retry_loop fuel call n)) <= S fuel)%nat.
Proof.
  revert n. induction fuel as [|fuel IH]; intros n; simpl.
  - destruct (call n); [|simpl; lia].
    destruct (n <? _); [|simpl; lia].
    destruct (isRetryableError _) as [|[|]]; simpl; lia.
  - destruct (call n); [|simpl; lia].
    destruct (n <? _); [|simpl; lia].
    destruct (isRetryableError _) as [|[|]]; [simpl; lia| |simpl; lia].
    specialize (IH (n + 1)). destruct (retry_loop fuel call (n + 1)) as [evs r].
    simpl in *. lia.
Qed.

Lemma calculateRetryDelay_eq n :
  calculateRetryDelay n = Z.min (1000 * 2 ^ (n - 1)) 10000.
Proof. reflexivity. Qed.

Lemma retry_fuel_step n : n < 3 -> retry_fuel n = S (retry_fuel (n + 1)).
Proof. intros H. unfold retry_fuel. simpl. lia. Qed.

(** The delays of a run started at attempt 1. *)
Lemma retry_loop_delays {A} (call : Z -> JsError + A) :
  delays_of (fst (retry_loop (retry_fuel 1) call 1)) `prefix_of` [1000; 2000].
Proof.
  change (retry_fuel 1) with 2%nat. simpl.
  destruct (call 1); [|simpl; apply prefix_nil].
  destruct (isRetryableError _) as [|[|]]; simpl; try apply prefix_nil.
  destruct (call (1 + 1)); simpl; [|by exists [2000]].
  destruct (isRetryableError _) as [|[|]]; simpl; try (by exists [2000]).
  destruct (call (1 + 1 + 1)); simpl; by exists [].
Qed.

Lemma retry_loop_policy {A} (call : Z -> JsError + A) :
  retry_policy call (fun n => retry_loop (retry_fuel n) call n).
Proof.
  unfold retry_policy. split; [|split; [|split]].
  - apply (retry_loop_attempts 2 call 1).
  - apply retry_loop_delays.
  - intros n v Hv. destruct (retry_fuel n); simpl; by rewrite Hv.
  - intros n e Hn He. split.
    + intros [Hlt Hr]. rewrite (retry_fuel_step n Hlt). simpl. rewrite He.
      assert ((n <? 3) = true) as -> by lia.
      apply isRetryableError_true in Hr. rewrite Hr.
      rewrite calculateRetryDelay_eq.
      by destruct (retry_loop (retry_fuel (n + 1)) call (n + 1)).
    + intros Hnot. destruct (Z.ltb_spec n 3) as [Hlt|Hge].
      * rewrite (retry_fuel_step n Hlt). simpl. rewrite He.
        assert ((n <? 3) = true) as -> by lia.
        destruct (isRetryableError e) as [te|[|]] eqn:Hr.
        -- simpl. eauto.
        -- exfalso. apply Hnot. split; [done|]. by apply isRetryableError_true.
        -- simpl. eauto.
      * destruct (retry_fuel n); simpl; rewrite He;
          (assert ((n <? 3) = false) as -> by lia); simpl; eauto.
Qed.

(** C5: both adapter functions of the controller, the order creation and
    the payment fetch, follow the retry policy: at most 3 attempts; the sleep
    before attempt [n + 1] is [min (1000 * 2^(n-1)) 10000] ms, that is 1000
    then 2000; a failure is retried exactly when the attempt is not the last
    and the failure is retryable (status code 429, 500, 502, 503 or 504, or a
    message containing "timeout", "network" or "connection"); every other
    failure ends the run after that call with an error. *)
Theorem gateway_adapter_retry_policy (env : Env) (orderData : OrderRequest)
    (paymentId : option string) :
  retry_policy
    (fun n => match getRazorpayInstance env with
              | inl e => inl e
              | inr instance => orders_create instance orderData n
              end)
    (createRazorpayOrderWithRetry env orderData)
  /\ retry_policy
       (fun n => match getRazorpayInstance env with
                 | inl e => inl e
                 | inr instance => payments_fetch instance paymentId n
                 end)
       (fetchPaymentDetailsWithRetry env paymentId).
Proof. split; apply retry_loop_policy. Qed.

(** ** Queries *)

Lemma findOne_Some q db d :
  findOne q db = Some d ->
  exists i t, d = load i t /\ transactions db !! i = Some t /\ q t = true.
Proof.
  unfold findOne. destruct (list_find _ _) as [[i t]|] eqn:Hf; [|done].
  intros [= <-]. apply list_find_Some in Hf as (Hi & Hq & _). by exists i, t.
Qed.

(** Writing a document that still matches the query at the position the
    query found leaves the query's answer at that position. *)
Lemma findOne_insert q db i t t' os :
  findOne q db = Some (load i t) -> q t' = true ->
  findOne q (mkDb (<[i := t']> (transactions db)) os) = Some (load i t').
Proof.
  unfold findOne. destruct (list_find _ (transactions db)) as [[j u]|] eqn:Hf; [|done].
  intros [= -> ->] Hq. apply list_find_Some in Hf as (Hi & _ & Hfirst). simpl.
  assert (list_find (fun t0 => q t0 = true) (<[i := t']> (transactions db)) = Some (i, t'))
    as ->; [|done].
  apply list_find_Some. split; [|split; [done|]].
  - apply list_lookup_insert_eq. by eapply lookup_lt_Some.
  - intros j y Hj Hlt. rewrite list_lookup_insert_ne in Hj by lia. by eapply Hfirst.
Qed.

(** ** C3: a signature mismatch *)



(** ** C2: a second verification of the same payment *)

(** What a successful [verifyPayment] went through. *)
Lemma verifyPayment_success_inv env now req db db1 r :
  verifyPayment env now req db = (db1, inr r) ->
  exists od i t pd o',
    orderData req = Some od
    /\ Js.falsy_str (razorpay_order_id req) = false
    /\ Js.falsy_str (razorpay_payment_id req) = false
    /\ Js.falsy_str (razorpay_signature req) = false
    /\ Js.falsy_str (vr_transactionId req) = false
    /\ findOne (by_transactionId (vr_transactionId req)) db = Some (load i t)
    /\ razorpay_signature req
       = Some (hmac_sha256_hex env (RAZORPAY_KEY_SECRET env) (signed_ids req))
    /\ snd (fetchPaymentDetailsWithRetry env (razorpay_payment_id req) 1) = inr pd
    /\ amount_matches pd t = true
    /\ p_status pd = Some "captured"
    /\ orderPreSave (verified_order now req od) = inr o'
    /\ db1 = mkDb (<[i := verified_tx now req pd (length (orders db)) (load i t)]>
                     (transactions db))
                  (orders db ++ [o'])
    /\ r = mkVerifyResponse (length (orders db)) o' i
             (status (verified_tx now req pd (length (orders db)) (load i t)))
             (fees (verified_tx now req pd (length (orders db)) (load i t)))
             (razorpay_payment_id req)
             (method (verified_tx now req pd (length (orders db)) (load i t))).
Proof.
  unfold verifyPayment. intros H.
  destruct (Js.falsy_str (razorpay_order_id req)) eqn:F1; [discriminate H|].
  destruct (Js.falsy_str (razorpay_payment_id req)) eqn:F2; [discriminate H|].
  destruct (Js.falsy_str (razorpay_signature req)) eqn:F3; [discriminate H|].
  cbn [orb] in H. destruct (orderData req) as [od|] eqn:Hod; [|discriminate H].
  destruct (Js.falsy_str (vr_transactionId req)) eqn:F4; [discriminate H|].
  destruct (verify_try env now req od db) as [db' [e|resp]] eqn:Htry; [discriminate H|].
  injection H as <- <-. unfold verify_try in Htry.
  destruct (findOne _ db) as [d|] eqn:Hfind; [|discriminate Htry].
  destruct (findOne_Some _ _ _ Hfind) as (i & t & -> & Hi & Hq).
  destruct (bool_decide (Some _ = razorpay_signature req)) eqn:Hsig; cbn [negb] in Htry;
    [|rewrite addStatusUpdate_eq in Htry; discriminate Htry].
  apply bool_decide_eq_true_1 in Hsig.
  destruct (snd (fetchPaymentDetailsWithRetry _ _ _)) as [e|pd] eqn:Hfetch;
    [discriminate Htry|].
  cbn [doc load] in Htry.
  destruct (amount_matches pd t) eqn:Hamt; cbn [negb] in Htry; [|discriminate Htry].
  destruct (bool_decide (p_status pd = _)) eqn:Hcap; cbn [negb] in Htry;
    [|discriminate Htry].
  apply bool_decide_eq_true_1 in Hcap.
  unfold save_new_order in Htry.
  destruct (orderPreSave _) as [e|o'] eqn:Hpre; [discriminate Htry|].
  rewrite addStatusUpdate_eq in Htry. cbv beta iota zeta in Htry.
  injection Htry as <- <-.
  exists od, i, t, pd, o'.
  unfold verified_tx.
  repeat (split; [first [assumption | reflexivity | (symmetry; assumption)]|]).
  reflexivity.
Qed.

(** The converse: a request that passes every check is answered with a new
    order. *)
Lemma verifyPayment_success env now req db od i t pd o' :
  orderData req = Some od ->
  Js.falsy_str (razorpay_order_id req) = false ->
  Js.falsy_str (razorpay_payment_id req) = false ->
  Js.falsy_str (razorpay_signature req) = false ->
  Js.falsy_str (vr_transactionId req) = false ->
  findOne (by_transactionId (vr_transactionId req)) db = Some (load i t) ->
  razorpay_signature req
    = Some (hmac_sha256_hex env (RAZORPAY_KEY_SECRET env) (signed_ids req)) ->
  snd (fetchPaymentDetailsWithRetry env (razorpay_payment_id req) 1) = inr pd ->
  amount_matches pd t = true ->
  p_status pd = Some "captured" ->
  orderPreSave (verified_order now req od) = inr o' ->
  verifyPayment env now req db =
  (mkDb (<[i := verified_tx now req pd (length (orders db)) (load i t)]> (transactions db))
        (orders db ++ [o']),
   inr (mkVerifyResponse (length (orders db)) o' i
          (status (verified_tx now req pd (length (orders db)) (load i t)))
          (fees (verified_tx now req pd (length (orders db)) (load i t)))
          (razorpay_payment_id req)
          (method (verified_tx now req pd (length (orders db)) (load i t))))).
Proof.
  intros Hod F1 F2 F3 F4 Hfind Hsig Hfetch Hamt Hcap Hpre.
  unfold verifyPayment. rewrite F1, F2, F3, Hod, F4. cbn [orb].
  unfold verify_try. rewrite Hfind, Hfetch. cbn [doc load].
  rewrite Hamt, Hcap, <- Hsig. rewrite !bool_decide_eq_true_2 by reflexivity.
  cbn [negb]. unfold save_new_order. rewrite Hpre. rewrite addStatusUpdate_eq.
  unfold verified_tx. reflexivity.
Qed.

(** The Order hook reads the shipping address only. *)
Lemma orderPreSave_verified_order now now' req od o' :
  orderPreSave (verified_order now req od) = inr o' ->
  orderPreSave (verified_order now' req od) = inr (set_o_paidAt (Some now') o').
Proof.
  unfold orderPreSave, verified_order. simpl.
  repeat match goal with |- context [if ?c then _ else _] => destruct c end;
    intros [= <-]; reflexivity.
Qed.

Lemma verified_tx_frame now req pd oid d :
  let t := verified_tx now req pd oid d in
  status t = success /\ amount t = amount (doc d)
  /\ transactionId t = transactionId (doc d) /\ orderId t = Some oid
  /\ gatewayPaymentId t = razorpay_payment_id req
  /\ fees t = calculateFees pd.
Proof.
  unfold verified_tx.
  match goal with |- context [updated ?n ?s ?r ?m ?dd] =>
    pose proof (updated_frame n s r m dd) as H end.
  destruct d as [i t m o]; destruct t. simpl in *. tauto.
Qed.

Lemma verified_tx_history now req pd oid d :
  statusModified d = false ->
  statusHistory (verified_tx now req pd oid d) =
  statusHistory (doc d) ++
  mkStatusEntry success now (Some "Payment verified and captured")
    [("order_id", MId oid); ("payment_details", MPayment pd)] ::
  (if bool_decide (status (doc d) = success) then []
   else [mkStatusEntry success now (Some "Status changed")
           [("previousStatus", MStatus (Some (status (doc d))))]]).
Proof.
  intros Hm. unfold verified_tx. rewrite updated_history.
  - destruct d as [i t m o]; destruct t; reflexivity.
  - by destruct d.
Qed.

(** C2 (as amended): [verifyPayment] has no branch for a transaction that is
    already [success].  When a first call succeeded, a second call with the
    same request in the same environment succeeds again: it stores a second
    Order and returns it under a new id, links the transaction to the new
    Order, leaves the status [success], and appends exactly one status
    history entry, ([success], "Payment verified and captured"). *)
Theorem second_verification_creates_second_order
    (env : Env) (now1 now2 : Z) (req : VerifyRequest) (db0 db1 : Db) (r1 : VerifyResponse) :
  verifyPayment env now1 req db0 = (db1, inr r1) ->
  exists db2 r2 t1 t2 metadata,
    verifyPayment env now2 req db1 = (db2, inr r2)
    /\ vresp_order_id r1 = length (orders db0)
    /\ vresp_order_id r2 = S (vresp_order_id r1)
    /\ orders db1 = orders db0 ++ [vresp_order r1]
    /\ orders db2 = orders db1 ++ [vresp_order r2]
    /\ vresp_tx_id r2 = vresp_tx_id r1
    /\ transactions db1 !! vresp_tx_id r1 = Some t1
    /\ transactions db2 !! vresp_tx_id r1 = Some t2
    /\ status t1 = success /\ status t2 = success
    /\ orderId t1 = Some (vresp_order_id r1)
    /\ orderId t2 = Some (vresp_order_id r2)
    /\ statusHistory t2 =
       statusHistory t1 ++
       [mkStatusEntry success now2 (Some "Payment verified and captured") metadata].
Proof.
  intros H1.
  destruct (verifyPayment_success_inv _ _ _ _ _ _ H1)
    as (od & i & t & pd & o' & Hod & F1 & F2 & F3 & F4 & Hfind & Hsig & Hfetch
        & Hamt & Hcap & Hpre & -> & ->).
  set (T1 := verified_tx now1 req pd (length (orders db0)) (load i t)).
  set (db1 := mkDb (<[i := T1]> (transactions db0)) (orders db0 ++ [o'])).
  destruct (verified_tx_frame now1 req pd (length (orders db0)) (load i t))
    as (Hst1 & Ham1 & Hid1 & Hoid1 & _). fold T1 in Hst1, Ham1, Hid1, Hoid1.
  destruct (findOne_Some _ _ _ Hfind) as (i' & t0 & Heq & Hi & Hq).
  injection Heq as <- <-.
  assert (Hfind1 : findOne (by_transactionId (vr_transactionId req)) db1 = Some (load i T1)).
  { apply (findOne_insert _ db0 i t T1 _ Hfind). unfold by_transactionId in *.
    cbn [doc load] in Hid1. by rewrite Hid1. }
  assert (Hamt1 : amount_matches pd T1 = true).
  { unfold amount_matches in *. cbn [doc load] in Ham1. by rewrite Ham1. }
  pose proof (orderPreSave_verified_order now1 now2 req od o' Hpre) as Hpre2.
  pose proof (verifyPayment_success env now2 req db1 od i T1 pd _
                Hod F1 F2 F3 F4 Hfind1 Hsig Hfetch Hamt1 Hcap Hpre2) as H2.
  set (T2 := verified_tx now2 req pd (length (orders db1)) (load i T1)) in *.
  destruct (verified_tx_frame now2 req pd (length (orders db1)) (load i T1))
    as (Hst2 & _ & _ & Hoid2 & _). fold T2 in Hst2, Hoid2.
  eexists _, _, T1, T2, _. split; [exact H2|].
  cbn [vresp_order_id vresp_order vresp_tx_id orders transactions db1].
  split; [done|]. split; [by rewrite length_app; simpl; lia|].
  split; [done|]. split; [done|]. split; [done|].
  split. { apply list_lookup_insert_eq. by eapply lookup_lt_Some. }
  split. { apply list_lookup_insert_eq. rewrite length_insert. by eapply lookup_lt_Some. }
  split; [done|]. split; [done|]. split; [done|].
  split. { rewrite Hoid2. simpl. by rewrite length_app; simpl; f_equal; lia. }
  unfold T2. rewrite verified_tx_history by done. cbn [doc load].
  by rewrite Hst1, bool_decide_eq_true_2.
Qed.

Lemma first_verification_sample :
  verifyPayment sample_env 10 good_request db_initiated = (db_verified, inr first_response).
Proof. vm_compute. reflexivity. Qed.

(** The instance of the theorem at the sample request. *)
Lemma second_verification_witness :
  exists db2 r2 t1 t2 metadata,
    verifyPayment sample_env 20 good_request db_verified = (db2, inr r2)
    /\ vresp_order_id first_response = length (orders db_initiated)
    /\ vresp_order_id r2 = S (vresp_order_id first_response)
    /\ orders db_verified = orders db_initiated ++ [vresp_order first_response]
    /\ orders db2 = orders db_verified ++ [vresp_order r2]
    /\ vresp_tx_id r2 = vresp_tx_id first_response
    /\ transactions db_verified !! vresp_tx_id first_response = Some t1
    /\ transactions db2 !! vresp_tx_id first_response = Some t2
    /\ status t1 = success /\ status t2 = success
    /\ orderId t1 = Some (vresp_order_id first_response)
    /\ orderId t2 = Some (vresp_order_id r2)
    /\ statusHistory t2 =
       statusHistory t1 ++
       [mkStatusEntry success 20 (Some "Payment verified and captured") metadata].
Proof.
  exact (second_verification_creates_second_order sample_env 10 20 good_request db_initiated
           db_verified first_response first_verification_sample).
Defined.

(** C2 fails as stated: after a first successful verification, which
    created Order 0, the same request is verified again and answered with a
    second Order, Order 1; the collection then holds two orders for the one
    payment. *)
Lemma second_verification_duplicates_order :
  exists db1 r1 db2 r2,
    verifyPayment sample_env 10 good_request db_initiated = (db1, inr r1)
    /\ verifyPayment sample_env 20 good_request db1 = (db2, inr r2)
    /\ status <$> transactions db1 = [success]
    /\ gatewayPaymentId <$> transactions db1 = [Some "pay_1"]
    /\ razorpay_payment_id good_request = Some "pay_1"
    /\ vresp_order_id r1 = 0%nat
    /\ vresp_order_id r2 = 1%nat
    /\ length (orders db1) = 1%nat
    /\ length (orders db2) = 2%nat
    /\ o_paymentId <$> orders db2 = [Some "pay_1"; Some "pay_1"].
Proof.
  exists db_verified, first_response. do 2 eexists.
  split; [exact first_verification_sample|].
  split; [vm_compute; reflexivity|].
  repeat (split; [vm_compute; reflexivity|]). vm_compute; reflexivity.
Qed.

(** ** The Order hook *)

Lemma orderPreSave_named o :
  order_named o ->
  exists o', orderPreSave o = inr o' /\ o_status o' = o_status o /\ order_named o'.
Proof.
  unfold order_named, orderPreSave.
  destruct o as [u [n f] p tot st paid pa notes]. simpl.
  destruct (Js.falsy_str n) eqn:Hn, (Js.falsy_str f) eqn:Hf; simpl;
    repeat (progress (rewrite ?Hn, ?Hf; simpl)); intros [H|H]; try discriminate H;
    eexists; (split; [reflexivity|]); simpl; auto.
Qed.

Lemma orderPreSave_stored o o' : orderPreSave o = inr o' -> order_named o'.
Proof.
  unfold order_named, orderPreSave.
  destruct o as [u [n f] p tot st paid pa notes]. simpl.
  destruct (Js.falsy_str n) eqn:Hn, (Js.falsy_str f) eqn:Hf; simpl;
    repeat (progress (rewrite ?Hn, ?Hf; simpl)); intros [= <-]; simpl; auto.
Qed.

Lemma orderPreSave_error o e :
  orderPreSave o = inl e ->
  e = PlainError "Shipping address must have a name or fullName".
Proof.
  unfold orderPreSave. destruct (_ && _); [|discriminate]. by intros [= <-].
Qed.

Lemma order_named_set_status s o : order_named (set_o_status s o) <-> order_named o.
Proof. by destruct o. Qed.

Lemma order_named_set_notes s o : order_named (set_o_notes s o) <-> order_named o.
Proof. by destruct o. Qed.

Lemma o_status_set_status s o : o_status (set_o_status s o) = s.
Proof. by destruct o. Qed.

Lemma o_status_set_notes s o : o_status (set_o_notes s o) = o_status o.
Proof. by destruct o. Qed.

(** ** C4: the net amount after a fee update *)

Lemma truthyQ_true q : Js.truthyQ q = true <-> ~ (q == 0)%Q.
Proof.
  unfold Js.truthyQ. destruct (Qeq_bool q 0) eqn:E; simpl.
  - apply Qeq_bool_eq in E. split; [done|]. intros H. by destruct H.
  - apply Qeq_bool_neq in E. split; [done|]. done.
Qed.

Lemma save_eq now d db :
  save now d db =
  (mkTxDoc (doc_id d) (preSave now d) false (tx_original d),
   mkDb (<[doc_id d := preSave now d]> (transactions db)) (orders db)).
Proof. reflexivity. Qed.

(** A net amount assigned as [amount - fees.totalFee] before the save
    survives the hook. *)
Lemma preSave_netAmount_assigned now d :
  (netAmount (doc d) == amount (doc d) - totalFee (fees (doc d)))%Q ->
  (netAmount (preSave now d)
   == amount (preSave now d) - totalFee (fees (preSave now d)))%Q.
Proof.
  intros H. destruct (preSave_frame now d) as (_ & Ha & _ & _ & _ & _ & Hf & _).
  simpl in Ha, Hf. rewrite Ha, Hf.
  destruct (Js.truthyQ (amount (doc d))) eqn:E; [by apply preSave_netAmount|].
  destruct d as [i t m o]; destruct t as [a b c e f g st h hs j k l n fe na r ca].
  unfold preSave; simpl in *.
  destruct (m && _); simpl.
  - destruct st; simpl; rewrite E; simpl; exact H.
  - rewrite E; simpl; exact H.
Qed.

(** The assignments of the webhook handler and of the reconciliation:
    [fees = newFees; netAmount = amount - fees.totalFee]. *)
Lemma assigned_fees_netAmount newFees d :
  let d' := assign (fun t => set_netAmount (amount t - totalFee (fees t))%Q t)
              (assign (set_fees newFees) d) in
  (netAmount (doc d') == amount (doc d') - totalFee (fees (doc d')))%Q.
Proof. destruct d as [i t m o]; destruct t; simpl. reflexivity. Qed.

Lemma updated_netAmount now st reason metadata d :
  ~ (amount (doc d) == 0)%Q ->
  (netAmount (updated now st reason metadata d)
   == amount (updated now st reason metadata d)
      - totalFee (fees (updated now st reason metadata d)))%Q.
Proof.
  intros Hnz. destruct (updated_frame now st reason metadata d)
    as (_ & Ha & _ & _ & _ & _ & Hf & _).
  simpl in Ha, Hf. rewrite Ha, Hf. unfold updated.
  rewrite preSave_netAmount.
  - destruct d as [i t m o]; destruct t; reflexivity.
  - apply truthyQ_true. by destruct d as [i t m o]; destruct t.
Qed.

(** C4: after every operation that updates the fees of a stored transaction
    and completes a save (a successful verification, the [payment.captured]
    webhook with a fee or a tax, a reconciliation with a fee or a tax), the
    stored transaction satisfies [netAmount = amount - fees.totalFee].  The
    amount is taken to be non-zero, as it is for every transaction
    [createOrder] stores. *)
Theorem netAmount_after_fee_update (db : Db) (i : nat) (db' : Db) :
  fee_update db i db' ->
  exists t',
    transactions db' !! i = Some t'
    /\ (~ (amount t' == 0)%Q ->
        (netAmount t' == amount t' - totalFee (fees t'))%Q).
Proof.
  intros [env now req db0 db1 r Hv
         | now payment ip db0 j t Hfind Hfee
         | rz now db0 j t pd Hj Hfetch Hnew Hfee].
  - destruct (verifyPayment_success_inv _ _ _ _ _ _ Hv)
      as (od & j & t & pd & o' & _ & _ & _ & _ & _ & Hfind & _ & _ & _ & _ & _ & Hdb & Hr).
    clear Hv. subst db1 r.
    destruct (findOne_Some _ _ _ Hfind) as (j' & t0 & Heq & Hj & _).
    injection Heq as <- <-.
    exists (verified_tx now req pd (length (orders db0)) (load j t)). split.
    { cbn [transactions vresp_tx_id]. apply list_lookup_insert_eq. by eapply lookup_lt_Some. }
    intros Hnz. unfold verified_tx in *.
    match type of Hnz with context [updated ?n ?s ?r ?m ?dd] =>
      destruct (updated_frame n s r m dd) as (_ & Ha & _); rewrite Ha in Hnz end.
    by apply updated_netAmount.
  - destruct (findOne_Some _ _ _ Hfind) as (j' & t0 & Heq & Hj & _).
    injection Heq as <- <-.
    unfold handlePaymentCaptured. rewrite Hfind, addStatusUpdate_eq.
    cbv beta iota zeta. rewrite Hfee, save_eq.
    set (T1 := updated _ _ _ _ _).
    cbn [fst snd transactions doc_id assign load doc statusModified tx_original].
    eexists. split.
    { apply list_lookup_insert_eq. rewrite length_insert. by eapply lookup_lt_Some. }
    intros _. apply preSave_netAmount_assigned.
    match goal with |- context [set_fees ?nf] =>
      apply (assigned_fees_netAmount nf (mkTxDoc j T1 false None)) end.
  - assert (Hlt : (j < length (transactions db0))%nat) by by eapply lookup_lt_Some.
    unfold reconcileTransaction. cbn [doc load]. rewrite Hfetch.
    rewrite bool_decide_eq_false_2 by done. cbn [negb]. rewrite addStatusUpdate_eq.
    cbv beta iota zeta. rewrite Hfee.
    set (T1 := updated _ _ _ _ _). rewrite save_eq. cbv beta iota zeta.
    set (d2 := if negb (Js.falsy_str (p_method pd)) then _ else _).
    set (newFees := mkFees _ _ _).
    set (d3 := assign _ (assign (set_fees newFees) d2)).
    assert (Hid : doc_id d3 = j).
    { unfold d3, d2. by destruct (negb (Js.falsy_str (p_method pd))). }
    rewrite Hid. cbn [doc_id load].
    exists (preSave now d3). split.
    + assert (Hlook : forall os,
                transactions (mkDb (<[j := preSave now d3]> (<[j := T1]> (transactions db0)))
                                os) !! j = Some (preSave now d3)).
      { intros os. cbn [transactions]. apply list_lookup_insert_eq.
        by rewrite length_insert. }
      destruct (bool_decide _); [|apply Hlook].
      destruct (orderId _) as [oid|]; [|apply Hlook].
      unfold findById. destruct (orders _ !! oid) as [o|]; [|apply Hlook].
      destruct (negb (o_isPaid o)); [|apply Hlook].
      unfold save_order. destruct (orderPreSave _) as [e|o1] eqn:Hpre; [|apply Hlook].
      apply orderPreSave_error in Hpre. subst e. apply Hlook.
    + intros _. apply preSave_netAmount_assigned. unfold d3.
      apply (assigned_fees_netAmount newFees d2).
Qed.

(** The instance of the theorem at the sample verification: the stored
    transaction has amount 500, fees 11.80 and net amount 488.20. *)
Lemma netAmount_after_fee_update_witness :
  exists t',
    transactions db_verified !! vresp_tx_id first_response = Some t'
    /\ (~ (amount t' == 0)%Q ->
        (netAmount t' == amount t' - totalFee (fees t'))%Q).
Proof.
  exact (netAmount_after_fee_update db_initiated (vresp_tx_id first_response) db_verified
           (fee_update_verification sample_env 10 good_request db_initiated
              db_verified first_response first_verification_sample)).
Defined.

Example netAmount_sample :
  (fun t => Qred (netAmount t)) <$> transactions db_verified = [(2441 # 5)%Q].
Proof. vm_compute. reflexivity. Qed.

(** Every transaction [createOrder] stores has a positive amount, and its
    net amount is the amount. *)
Lemma createOrder_stores_positive_amount env now suffix req db db1 r :
  createOrder env now suffix req db = (db1, inr r) ->
  exists t,
    transactions db1 !! cresp_tx_id r = Some t
    /\ (0 < amount t)%Q /\ status t = initiated /\ (netAmount t == amount t - 0)%Q.
Proof.
  unfold createOrder. intros H.
  destruct (cr_amount req) as [amt|]; [|done].
  destruct (Js.truthyQ amt) eqn:Ht; [|done].
  destruct (Qle_bool amt 0) eqn:Hle; [done|]. simpl in H.
  destruct (cr_items req) as [[|n]|]; try done.
  destruct (snd (createRazorpayOrderWithRetry _ _ _)) as [e|go]; [done|].
  unfold save_new in H. cbv beta iota zeta in H. injection H as <- <-.
  cbn [transactions cresp_tx_id doc_id].
  set (d := mkTxDoc _ _ true None).
  destruct (preSave_frame now d) as (Hs & Ha & _).
  exists (preSave now d). split.
  { rewrite lookup_app_r by done. by rewrite Nat.sub_diag. }
  rewrite (preSave_netAmount now d) by exact Ht.
  rewrite Ha, Hs. cbn [d doc amount status fees totalFee].
  split; [|split; reflexivity].
  apply Qnot_le_lt. intros Hc. apply Qle_bool_iff in Hc. congruence.
Qed.

(** ** C6: the digest of a webhook *)

(** C6 (as amended): with the webhook secret configured, the route
    recomputes HMAC-SHA256 under the secret over [JSON.stringify] of the
    parsed body, a re-serialization: the bytes received play no part in the
    answer.  It answers 400 exactly when that digest differs from the
    signature header, leaving the database as it was, and hands the event to
    [processWebhookEvent] only on a match. *)
Theorem webhook_digest_of_reserialized_body
    (env : Env) (now : Z) (req : WebhookRequest) (db : Db) (c : ascii) (secret : string) :
  RAZORPAY_WEBHOOK_SECRET env = Some (String c secret) ->
  (forall raw,
     razorpayWebhook env now
       (mkWebhookRequest (wh_signature req) raw (wh_body req) (wh_ip req)) db
     = razorpayWebhook env now req db)
  /\ (res_status (snd (razorpayWebhook env now req db)) = 400 <->
      wh_signature req
      <> Some (hmac_sha256_hex env (String c secret) (JSON_stringify (wh_body req))))
  /\ (wh_signature req
      <> Some (hmac_sha256_hex env (String c secret) (JSON_stringify (wh_body req))) ->
      razorpayWebhook env now req db = (db, mkResponse 400 (ReplyError "Invalid signature")))
  /\ (wh_signature req
      = Some (hmac_sha256_hex env (String c secret) (JSON_stringify (wh_body req))) ->
      fst (razorpayWebhook env now req db)
      = fst (processWebhookEvent now (jget "event" (wh_body req))
               (jget "payload" (wh_body req)) (wh_ip req) db)
      /\ res_status (snd (razorpayWebhook env now req db)) = 200).
Proof.
  intros Hsecret. unfold razorpayWebhook, signed_payload. rewrite Hsecret.
  cbn [wh_signature wh_body wh_ip].
  split; [done|].
  destruct (decide (wh_signature req
                    = Some (hmac_sha256_hex env (String c secret)
                              (JSON_stringify (wh_body req))))) as [Heq|Hne].
  - rewrite bool_decide_eq_true_2 by done. cbn [negb].
    destruct (processWebhookEvent _ _ _ _ _) as [db1 [e|u]]; cbn [fst snd res_status];
      repeat split; try done.
  - rewrite bool_decide_eq_false_2 by done. cbn [negb fst snd res_status].
    repeat split; try done.
Qed.

(** The instance of the theorem at the delivery signed by the gateway. *)
Lemma webhook_digest_witness :
  (forall raw,
     razorpayWebhook sample_env 20
       (mkWebhookRequest (wh_signature gateway_signed_request) raw
          (wh_body gateway_signed_request) (wh_ip gateway_signed_request)) db_success
     = razorpayWebhook sample_env 20 gateway_signed_request db_success)
  /\ (res_status (snd (razorpayWebhook sample_env 20 gateway_signed_request db_success)) = 400
      <-> wh_signature gateway_signed_request
          <> Some (hmac_sha256_hex sample_env "whsec"
                     (JSON_stringify (wh_body gateway_signed_request))))
  /\ (wh_signature gateway_signed_request
      <> Some (hmac_sha256_hex sample_env "whsec"
                 (JSON_stringify (wh_body gateway_signed_request))) ->
      razorpayWebhook sample_env 20 gateway_signed_request db_success
      = (db_success, mkResponse 400 (ReplyError "Invalid signature")))
  /\ (wh_signature gateway_signed_request
      = Some (hmac_sha256_hex sample_env "whsec"
                (JSON_stringify (wh_body gateway_signed_request))) ->
      fst (razorpayWebhook sample_env 20 gateway_signed_request db_success)
      = fst (processWebhookEvent 20 (jget "event" (wh_body gateway_signed_request))
               (jget "payload" (wh_body gateway_signed_request))
               (wh_ip gateway_signed_request) db_success)
      /\ res_status (snd (razorpayWebhook sample_env 20 gateway_signed_request db_success))
         = 200).
Proof.
  exact (webhook_digest_of_reserialized_body sample_env 20 gateway_signed_request db_success
           "w"%char "hsec" eq_refl).
Defined.

(** C6 fails as stated: a delivery whose header is the HMAC of the bytes
    received is answered 400, because the route signs the re-serialized body,
    which differs from the bytes; the same bytes with the header computed
    over the re-serialization are accepted. *)
Lemma raw_body_signature_rejected :
  JSON_parse (wh_rawBody gateway_signed_request) = Some (wh_body gateway_signed_request)
  /\ wh_signature gateway_signed_request
     = Some (hmac_sha256_hex sample_env "whsec" (wh_rawBody gateway_signed_request))
  /\ signed_payload gateway_signed_request <> wh_rawBody gateway_signed_request
  /\ razorpayWebhook sample_env 20 gateway_signed_request db_success
     = (db_success, mkResponse 400 (ReplyError "Invalid signature"))
  /\ res_status (snd (razorpayWebhook sample_env 20 reserialized_signed_request db_success))
     = 200.
Proof.
  split; [reflexivity|]. split; [reflexivity|]. split; [by vm_compute|].
  split; reflexivity.
Qed.

(** ** C7: the status of the webhook answer *)

(** Every delivery whose signature matches is answered 200, whatever
    [processWebhookEvent] does. *)
Lemma matching_signature_answered_200 env now req db c secret :
  RAZORPAY_WEBHOOK_SECRET env = Some (String c secret) ->
  wh_signature req = Some (hmac_sha256_hex env (String c secret) (signed_payload req)) ->
  res_status (snd (razorpayWebhook env now req db)) = 200.
Proof.
  intros Hs Hsig. unfold razorpayWebhook. rewrite Hs, Hsig.
  rewrite bool_decide_eq_true_2 by done. cbn [negb].
  by destruct (processWebhookEvent _ _ _ _ _) as [db1 [e|u]].
Qed.

(** A delivery whose signature differs is answered 400. *)
Lemma differing_signature_answered_400 env now req db c secret :
  RAZORPAY_WEBHOOK_SECRET env = Some (String c secret) ->
  wh_signature req <> Some (hmac_sha256_hex env (String c secret) (signed_payload req)) ->
  res_status (snd (razorpayWebhook env now req db)) = 400.
Proof.
  intros Hs Hsig. unfold razorpayWebhook. rewrite Hs.
  by rewrite bool_decide_eq_false_2.
Qed.

(** C7, at the failing input: a correctly signed delivery whose payload has
    no entity makes [processWebhookEvent] throw the 400 error "Invalid
    webhook payload"; the route catches it and answers 200 with the body
    [{status: 'acknowledged', error: 'Invalid webhook payload'}]. *)
Theorem payload_shape_failure_answered_200 :
  processWebhookEvent 20 (jget "event" shapeless_event) (jget "payload" shapeless_event)
    "10.0.0.1" db_success
  = (db_success, inl (AppError "Invalid webhook payload" 400))
  /\ razorpayWebhook sample_env 20 shapeless_request db_success
     = (db_success, mkResponse 200 (ReplyAcknowledged (Some "Invalid webhook payload"))).
Proof. split; reflexivity. Qed.

(** ** C10: the reconciliation status mapping *)

Lemma mapRazorpayStatus_other s :
  s ∉ ["created"; "authorized"; "captured"; "refunded"; "failed"] ->
  mapRazorpayStatus s = pending.
Proof.
  intros Hs. unfold mapRazorpayStatus, statusMap.
  rewrite (not_elem_of_list_to_map_1 (M := gmap string)); [done|]. exact Hs.
Qed.

Lemma mapRazorpayStatus_image s :
  mapRazorpayStatus s ∈ [initiated; authorized; success; refunded; failed; pending].
Proof.
  destruct (decide (s ∈ ["created"; "authorized"; "captured"; "refunded"; "failed"]))
    as [Hin|Hout].
  - repeat (apply elem_of_cons in Hin as [->|Hin]; [vm_compute; set_solver|]).
    by apply elem_of_nil in Hin.
  - rewrite mapRazorpayStatus_other by done. set_solver.
Qed.

(** What [reconcileTransaction] leaves in the Transaction collection. *)
Lemma reconcileTransaction_transactions rz now i t db :
  transactions (fst (reconcileTransaction rz now (load i t) db)) = transactions db
  \/ (exists t' t1,
        transactions (fst (reconcileTransaction rz now (load i t) db))
        = <[i := t']> (<[i := t1]> (transactions db))
        /\ status t' ∈ [initiated; authorized; success; refunded; failed; pending])
  \/ (exists t',
        transactions (fst (reconcileTransaction rz now (load i t) db))
        = <[i := t']> (transactions db)
        /\ status t' = failed).
Proof.
  unfold reconcileTransaction. cbn [doc load].
  destruct (payments_fetch rz (gatewayPaymentId t) 1) as [e|pd] eqn:Hfetch.
  - destruct (bool_decide (err_statusCode e = Some 404)).
    + right. right. rewrite addStatusUpdate_eq. cbn [fst snd transactions doc_id load].
      eexists. split; [reflexivity|].
      by destruct (updated_frame now failed (Some "Payment not found in gateway")
                     [("reconciliation", MBool true); ("error", MStr "PAYMENT_NOT_FOUND")]
                     (load i t)) as (Hs & _).
    + by left.
  - destruct (bool_decide (mapRazorpayStatus (Js.to_string (p_status pd)) = status t)).
    + by left.
    + right. left. cbn [negb]. rewrite addStatusUpdate_eq. cbv beta iota zeta.
      set (T1 := updated _ _ _ _ _). rewrite save_eq. cbv beta iota zeta.
      set (d2 := if negb (Js.falsy_str (p_method pd)) then _ else _).
      set (d3 := if Js.truthyZ (p_fee pd) || Js.truthyZ (p_tax pd) then _ else _).
      assert (Hid : doc_id d3 = i).
      { unfold d3, d2. by destruct (negb (Js.falsy_str (p_method pd))),
                            (Js.truthyZ (p_fee pd) || Js.truthyZ (p_tax pd)). }
      assert (Hst : status (preSave now d3) = mapRazorpayStatus (Js.to_string (p_status pd))).
      { destruct (preSave_frame now d3) as (-> & _).
        assert (Hu : status T1 = mapRazorpayStatus (Js.to_string (p_status pd))).
        { unfold T1.
          by destruct (updated_frame now (mapRazorpayStatus (Js.to_string (p_status pd)))
                         (Some "Status updated via reconciliation")
                         [("reconciliation", MBool true);
                          ("gateway_status", MOptStr (p_status pd));
                          ("gateway_updated_at", MOptNum (p_updated_at pd))]
                         (load i t)) as (Hs & _). }
        unfold d3, d2.
        destruct (negb (Js.falsy_str (p_method pd))),
                 (Js.truthyZ (p_fee pd) || Js.truthyZ (p_tax pd));
          cbn [assign doc]; destruct T1; exact Hu. }
      rewrite Hid. cbn [doc_id load].
      exists (preSave now d3), T1. rewrite Hst. split; [|apply mapRazorpayStatus_image].
      destruct (bool_decide _); [|reflexivity].
      destruct (orderId _) as [oid|]; [|reflexivity].
      unfold findById. destruct (orders _ !! oid) as [o|]; [|reflexivity].
      destruct (negb (o_isPaid o)); [|reflexivity].
      unfold save_order. destruct (orderPreSave _) as [e|o1] eqn:Hpre; [|reflexivity].
      apply orderPreSave_error in Hpre. subst e. reflexivity.
Qed.

(** What a reconciliation stores: it either leaves the stored transaction
    as it was or stores it with a status among [initiated], [authorized],
    [success], [refunded], [failed], [pending], never [captured]. *)
Lemma reconcileTransaction_status rz now i t db :
  transactions db !! i = Some t ->
  exists t',
    transactions (fst (reconcileTransaction rz now (load i t) db)) !! i = Some t'
    /\ (t' = t
        \/ status t' ∈ [initiated; authorized; success; refunded; failed; pending])
    /\ (t' = t \/ status t' <> captured).
Proof.
  intros Hi.
  assert (Hlt : (i < length (transactions db))%nat) by by eapply lookup_lt_Some.
  destruct (reconcileTransaction_transactions rz now i t db)
    as [-> | [(t' & t1 & -> & Hin) | (t' & -> & Hst)]].
  - exists t. by repeat split; [|left|left].
  - exists t'. split; [apply list_lookup_insert_eq; by rewrite length_insert|].
    split; right; [done|]. intros Hc. rewrite Hc in Hin.
    repeat (apply elem_of_cons in Hin as [Hin|Hin]; [discriminate Hin|]).
    by apply elem_of_nil in Hin.
  - exists t'. split; [by apply list_lookup_insert_eq|].
    split; right; [rewrite Hst; rewrite !elem_of_cons; auto 10|congruence].
Qed.

Lemma statusMap_inherited s : inherited s = true -> statusMap !! s = None.
Proof.
  unfold inherited, Object_prototype_names. intros H. apply bool_decide_eq_true_1 in H.
  repeat (apply elem_of_cons in H as [->|H]; [vm_compute; reflexivity|]).
  by apply elem_of_nil in H.
Qed.

(** C10, the mapping as the code computes it.  [statusMap[razorpayStatus] ||
    'pending'] maps "created" to [initiated], "authorized" to [authorized],
    "captured" to [success], "refunded" to [refunded], "failed" to [failed],
    and every other string to [pending] unless the string names a member
    every object inherits: for "constructor", "toString", "__proto__" and
    the like the lookup finds the inherited member, which is truthy, and the
    function returns it instead of [pending].  On every other string the
    function is [mapRazorpayStatus]. *)
Theorem inherited_status_is_not_pending :
  mapRazorpayStatus_returns "created" = inl initiated
  /\ mapRazorpayStatus_returns "authorized" = inl authorized
  /\ mapRazorpayStatus_returns "captured" = inl success
  /\ mapRazorpayStatus_returns "refunded" = inl refunded
  /\ mapRazorpayStatus_returns "failed" = inl failed
  /\ (forall s, s ∉ ["created"; "authorized"; "captured"; "refunded"; "failed"] ->
                inherited s = false -> mapRazorpayStatus_returns s = inl pending)
  /\ (forall s, inherited s = true -> mapRazorpayStatus_returns s = inr s)
  /\ mapRazorpayStatus_returns "constructor" = inr "constructor"
  /\ mapRazorpayStatus_returns "constructor" <> inl pending
  /\ (forall s, inherited s = false ->
                mapRazorpayStatus_returns s = inl (mapRazorpayStatus s)).
Proof.
  do 5 (split; [vm_compute; reflexivity|]).
  split.
  { intros s Hs Hi. unfold mapRazorpayStatus_returns, statusMap.
    rewrite (not_elem_of_list_to_map_1 (M := gmap string)) by exact Hs.
    by rewrite Hi. }
  split.
  { intros s Hi. unfold mapRazorpayStatus_returns.
    by rewrite (statusMap_inherited s Hi), Hi. }
  split; [vm_compute; reflexivity|].
  split; [vm_compute; discriminate|].
  intros s Hi. unfold mapRazorpayStatus_returns, mapRazorpayStatus.
  destruct (statusMap !! s); [reflexivity|]. by rewrite Hi.
Qed.

Example reconcile_captured_to_success :
  status <$> transactions
    (fst (reconcileTransaction sample_gateway 30 (load 0 (set_status captured tx_success))
            (mkDb [set_status captured tx_success] [order_paid])))
  = [success].
Proof. reflexivity. Qed.

(** ** C9: full and partial refunds *)

Lemma refund_amount_or_default a total :
  a = None \/ (exists v, a = Some v /\ (v == 0)%Q) ->
  refund_amount_or a total = total.
Proof.
  intros [->|(v & -> & Hv)]; [done|]. unfold refund_amount_or, Js.truthyQ.
  by rewrite (proj2 (Qeq_bool_iff v 0) Hv).
Qed.

Lemma refund_amount_or_explicit v total :
  ~ (v == 0)%Q -> refund_amount_or (Some v) total = v.
Proof. intros Hv. unfold refund_amount_or. by rewrite (proj2 (truthyQ_true v) Hv). Qed.

Lemma assign_set_refund_doc r d :
  status (doc (assign (set_refund r) d)) = status (doc d)
  /\ orderId (doc (assign (set_refund r) d)) = orderId (doc d)
  /\ statusModified (assign (set_refund r) d) = statusModified d.
Proof. by destruct d as [i t m o]; destruct t. Qed.

(** C9: for a stored transaction that passes the schema and a gateway that
    accepts the refund,
    [refundPayment] without amount (or with amount 0) refunds the full
    amount, stores the transaction as [refunded] and sets the linked Order,
    if any, to [cancelled]; with an explicit amount strictly below the
    transaction amount it stores [partially_refunded] and leaves the Order
    collection as it was. *)
Theorem refund_full_or_partial
    (env : Env) (now : Z) (req : RefundRequest) (db : Db)
    (i : nat) (t : Transaction) (rz : Razorpay) (gwRefund : GatewayRefund) :
  Js.falsy_str (rr_paymentId req) && Js.falsy_str (rr_transactionId req) = false ->
  findOne (refund_query req) db = Some (load i t) ->
  schema_valid t = true ->
  razorpay env = Some rz ->
  payments_refund rz (gatewayPaymentId t)
    (refund_amount_or (rr_amount req) (amount t) * 100)%Q = inr gwRefund ->
  (forall oid o, orderId t = Some oid -> orders db !! oid = Some o -> order_named o) ->
  (rr_amount req = None \/ (exists v, rr_amount req = Some v /\ (v == 0)%Q) ->
   exists db' r t',
     refundPayment env now req db = (db', inr r)
     /\ transactions db' !! i = Some t'
     /\ status t' = refunded
     /\ rresp_tx_status r = refunded
     /\ (refund_amount <$> refund t') = Some (Some (amount t))
     /\ (forall oid o, orderId t = Some oid -> orders db !! oid = Some o ->
           exists o', orders db' !! oid = Some o' /\ o_status o' = order_cancelled))
  /\ (forall v, rr_amount req = Some v -> ~ (v == 0)%Q -> (v < amount t)%Q ->
      exists db' r t',
        refundPayment env now req db = (db', inr r)
        /\ transactions db' !! i = Some t'
        /\ status t' = partially_refunded
        /\ rresp_tx_status r = partially_refunded
        /\ (refund_amount <$> refund t') = Some (Some v)
        /\ orders db' = orders db).
Proof.
  intros Hids Hfind _ Hrz Hgw Hnamed.
  destruct (findOne_Some _ _ _ Hfind) as (i' & t0 & Heq & Hi & _).
  injection Heq as <- <-.
  assert (Hlt : (i < length (transactions db))%nat) by by eapply lookup_lt_Some.
  split.
  - intros Hamt. rewrite (refund_amount_or_default _ (amount t) Hamt) in Hgw.
    unfold refundPayment. rewrite Hids. unfold refund_try, getRazorpayInstance.
    rewrite Hfind, Hrz. cbn [doc load].
    rewrite (refund_amount_or_default _ (amount t) Hamt), Hgw.
    assert (Qle_bool (amount t) (amount t) = true) as -> by (apply Qle_bool_iff; apply Qle_refl).
    assert (Qeq_bool (amount t) (amount t) = true) as -> by (by apply Qeq_bool_iff).
    cbn [negb]. rewrite addStatusUpdate_eq. cbv beta iota zeta.
    match goal with |- context [updated ?n ?s ?r ?m ?dd] =>
      destruct (updated_frame n s r m dd) as (Hst & _ & _ & Hoid & _ & _ & _ & _ & Href & _);
      set (T1 := updated n s r m dd) in * end.
    cbn [doc doc_id load assign] in *.
    assert (Hoid' : orderId T1 = orderId t) by (rewrite Hoid; by destruct t).
    assert (Href' : refund_amount <$> refund T1 = Some (Some (amount t)))
      by (rewrite Href; by destruct t).
    rewrite Hoid'. unfold findById. cbn [orders].
    destruct (orderId t) as [oid|] eqn:Ho.
    + destruct (orders db !! oid) as [o|] eqn:Hoo.
      * destruct (orderPreSave_named (set_o_status order_cancelled o))
          as (o' & Hpre & Hst' & _).
        { apply order_named_set_status. by eapply Hnamed. }
        unfold save_order. rewrite Hpre. cbn [transactions orders].
        eexists _, _, T1. split; [reflexivity|].
        cbn [transactions orders rresp_tx_status].
        split; [by apply list_lookup_insert_eq|]. do 3 (split; [done|]).
        intros oid' o0 [= <-] Ho0. exists o'. split.
        -- apply list_lookup_insert_eq. by eapply lookup_lt_Some.
        -- by rewrite Hst', o_status_set_status.
      * eexists _, _, T1. split; [reflexivity|].
        cbn [transactions orders rresp_tx_status].
        split; [by apply list_lookup_insert_eq|]. do 3 (split; [done|]).
        intros oid' o0 [= <-] Ho0. congruence.
    + eexists _, _, T1. split; [reflexivity|].
      cbn [transactions orders rresp_tx_status].
      split; [by apply list_lookup_insert_eq|]. do 3 (split; [done|]).
      intros oid' o0 Hc. done.
  - intros v Hv Hnz Hless. rewrite Hv, (refund_amount_or_explicit v _ Hnz) in Hgw.
    unfold refundPayment. rewrite Hids. unfold refund_try, getRazorpayInstance.
    rewrite Hfind, Hrz. cbn [doc load].
    rewrite Hv, (refund_amount_or_explicit v _ Hnz), Hgw.
    assert (Qle_bool v (amount t) = true) as ->
      by (apply Qle_bool_iff; by apply Qlt_le_weak).
    assert (Qeq_bool v (amount t) = false) as ->.
    { apply not_true_is_false. intros Hc. apply Qeq_bool_iff in Hc.
      rewrite Hc in Hless. by apply Qlt_irrefl in Hless. }
    cbn [negb]. rewrite addStatusUpdate_eq. cbv beta iota zeta.
    match goal with |- context [updated ?n ?s ?r ?m ?dd] =>
      destruct (updated_frame n s r m dd) as (Hst & _ & _ & Hoid & _ & _ & _ & _ & Href & _);
      set (T1 := updated n s r m dd) in * end.
    cbn [doc doc_id load assign] in *.
    assert (Href' : refund_amount <$> refund T1 = Some (Some v))
      by (rewrite Href; by destruct t).
    exists (mkDb (<[i := T1]> (transactions db)) (orders db)).
    eexists _, T1. split.
    { destruct (orderId T1) as [oid|]; [|reflexivity].
      unfold findById. by destruct (orders _ !! oid). }
    cbn [transactions orders rresp_tx_status].
    split; [by apply list_lookup_insert_eq|]. by repeat split.
Qed.

(** The instance of the theorem at a refund without amount of the verified
    sample transaction. *)
Lemma refund_full_or_partial_witness :
  (rr_amount full_refund_request = None
   \/ (exists v, rr_amount full_refund_request = Some v /\ (v == 0)%Q) ->
   exists db' r t',
     refundPayment sample_env 30 full_refund_request db_success = (db', inr r)
     /\ transactions db' !! 0%nat = Some t'
     /\ status t' = refunded
     /\ rresp_tx_status r = refunded
     /\ (refund_amount <$> refund t') = Some (Some (amount tx_success))
     /\ (forall oid o, orderId tx_success = Some oid -> orders db_success !! oid = Some o ->
           exists o', orders db' !! oid = Some o' /\ o_status o' = order_cancelled))
  /\ (forall v, rr_amount full_refund_request = Some v -> ~ (v == 0)%Q ->
      (v < amount tx_success)%Q ->
      exists db' r t',
        refundPayment sample_env 30 full_refund_request db_success = (db', inr r)
        /\ transactions db' !! 0%nat = Some t'
        /\ status t' = partially_refunded
        /\ rresp_tx_status r = partially_refunded
        /\ (refund_amount <$> refund t') = Some (Some v)
        /\ orders db' = orders db_success).
Proof.
  apply (refund_full_or_partial sample_env 30 full_refund_request db_success 0 tx_success
           sample_gateway (mkGatewayRefund "rfnd_1")); try reflexivity.
  intros [|oid] o Hoid Ho; [|discriminate Ho].
  injection Ho as <-. left. reflexivity.
Defined.

Example partial_refund_sample :
  (status <$> transactions (fst (refundPayment sample_env 30 partial_refund_request db_success)),
   o_status <$> orders (fst (refundPayment sample_env 30 partial_refund_request db_success)))
  = ([partially_refunded], [order_confirmed]).
Proof. vm_compute. reflexivity. Qed.

(** ** C8: the expiry sweep *)


Lemma elem_of_find_all q db d :
  d ∈ find_all q db <->
  exists i t, d = load i t /\ transactions db !! i = Some t /\ q t = true.
Proof.
  unfold find_all. rewrite list_elem_of_omap. split.
  - intros ([i t] & Hin & Hq). apply elem_of_lookup_imap in Hin as (j & y & Heq & Hl).
    injection Heq as -> ->. cbn [fst snd] in Hq.
    destruct (q y) eqn:E; [|discriminate Hq]. injection Hq as <-. by exists j, y.
  - intros (i & t & -> & Hl & Hq). exists (i, t). split.
    + apply elem_of_lookup_imap. by exists i, t.
    + cbn [fst snd]. by rewrite Hq.
Qed.

Lemma cleanup_one_transactions now db d :
  transactions (cleanup_one now db d)
  = <[doc_id d := updated now expired (Some "Transaction expired due to inactivity")
                    [("cleanup", MBool true);
                     ("stale_duration", MNum (inject_Z (now - createdAt (doc d))))] d]>
      (transactions db).
Proof.
  unfold cleanup_one. rewrite addStatusUpdate_eq. cbv beta iota zeta.
  cbn [doc]. destruct (orderId _) as [oid|]; [|reflexivity].
  unfold findById. destruct (orders _ !! oid) as [o|]; [|reflexivity].
  destruct (bool_decide _); [|reflexivity].
  unfold save_order. by destruct (orderPreSave _).
Qed.

(** One step of the sweep on the Order collection: nothing, or the pending
    order linked to the document is replaced by a cancelled one. *)
Lemma cleanup_one_orders now db d :
  orders (cleanup_one now db d) = orders db
  \/ exists oid o o',
       orderId (doc d) = Some oid /\ orders db !! oid = Some o
       /\ o_status o = order_pending /\ o_status o' = order_cancelled
       /\ orders (cleanup_one now db d) = <[oid := o']> (orders db).
Proof.
  unfold cleanup_one. rewrite addStatusUpdate_eq. cbv beta iota zeta. cbn [doc].
  destruct (updated_frame now expired (Some "Transaction expired due to inactivity")
              [("cleanup", MBool true);
               ("stale_duration", MNum (inject_Z (now - createdAt (doc d))))] d)
    as (_ & _ & _ & Hoid & _).
  rewrite Hoid. destruct (orderId (doc d)) as [oid|]; [|by left].
  unfold findById. cbn [orders]. destruct (orders db !! oid) as [o|] eqn:Ho; [|by left].
  destruct (bool_decide (o_status o = order_pending)) eqn:Hp; [|by left].
  apply bool_decide_eq_true_1 in Hp.
  unfold save_order, orderPreSave.
  destruct (_ && _); [by left|]. right. eexists oid, o, _.
  split; [done|]. split; [done|]. split; [done|]. split; [|reflexivity].
  by destruct o.
Qed.


Lemma sweep_length now ds db :
  length (transactions (foldl (cleanup_one now) db ds)) = length (transactions db)
  /\ length (orders (foldl (cleanup_one now) db ds)) = length (orders db).
Proof.
  revert db. induction ds as [|d ds IH]; intros db; [done|].
  cbn [foldl]. destruct (IH (cleanup_one now db d)) as [-> ->].
  rewrite cleanup_one_transactions, length_insert. split; [done|].
  destruct (cleanup_one_orders now db d) as [->|(oid & o & o' & _ & _ & _ & _ & ->)];
    [done|by rewrite length_insert].
Qed.

(** The sweep leaves alone the transactions it did not select. *)
Lemma sweep_untouched now ds db i :
  (forall d, d ∈ ds -> doc_id d <> i) ->
  transactions (foldl (cleanup_one now) db ds) !! i = transactions db !! i.
Proof.
  revert db. induction ds as [|d ds IH]; intros db Hds; [done|].
  cbn [foldl]. rewrite IH by (intros d' Hd'; apply Hds; by right).
  rewrite cleanup_one_transactions. apply list_lookup_insert_ne. apply Hds. by left.
Qed.

(** The sweep stores every transaction it selected as [expired]. *)
Lemma sweep_expires now ds db i :
  (exists d, d ∈ ds /\ doc_id d = i) -> (i < length (transactions db))%nat ->
  exists t', transactions (foldl (cleanup_one now) db ds) !! i = Some t'
             /\ status t' = expired.
Proof.
  revert db. induction ds as [|d ds IH]; intros db (d0 & Hin & Hid) Hlt.
  { by apply elem_of_nil in Hin. }
  cbn [foldl].
  destruct (decide (Exists (fun d' => doc_id d' = i) ds)) as [Hex|Hnex].
  - apply Exists_exists in Hex as (d' & Hd' & Hid'). apply IH; [by exists d'|].
    by rewrite cleanup_one_transactions, length_insert.
  - rewrite sweep_untouched.
    2:{ intros d' Hd' Hc. apply Hnex, Exists_exists. by exists d'. }
    apply elem_of_cons in Hin as [->|Hin].
    2:{ exfalso. apply Hnex, Exists_exists. by exists d0. }
    rewrite cleanup_one_transactions, Hid. eexists. split.
    + by apply list_lookup_insert_eq.
    + by destruct (updated_frame now expired (Some "Transaction expired due to inactivity")
                     [("cleanup", MBool true);
                      ("stale_duration", MNum (inject_Z (now - createdAt (doc d))))] d)
        as (Hs & _).
Qed.





Example expiry_sweep_sample :
  (status <$> transactions (cleanupStaleTransactions (day 9) db_sweep),
   o_status <$> orders (cleanupStaleTransactions (day 9) db_sweep))
  = ([expired; pending; success], [order_cancelled]).
Proof. vm_compute. reflexivity. Qed.

(** * Properties beyond the specification's claims *)

(** ** The audit trail: histories only grow, identities never change *)

Lemma tx_extends_refl t : tx_extends t t.
Proof. by repeat split. Qed.

Lemma tx_extends_trans t1 t2 t3 : tx_extends t1 t2 -> tx_extends t2 t3 -> tx_extends t1 t3.
Proof.
  intros (H1 & H2 & H3 & H4 & H5) (G1 & G2 & G3 & G4 & G5).
  split; [by etrans|]. repeat split; congruence.
Qed.

Lemma db_extends_refl db : db_extends db db.
Proof. split; [done|]. intros i t Hi. exists t. split; [done|apply tx_extends_refl]. Qed.

Lemma db_extends_trans db1 db2 db3 :
  db_extends db1 db2 -> db_extends db2 db3 -> db_extends db1 db3.
Proof.
  intros [L1 H1] [L2 H2]. split; [congruence|].
  intros i t Hi. destruct (H1 i t Hi) as (t2 & Hi2 & E1).
  destruct (H2 i t2 Hi2) as (t3 & Hi3 & E2). exists t3. split; [done|].
  by eapply tx_extends_trans.
Qed.

(** Writing a later state of the stored document at its position. *)
Lemma db_extends_write db db' i t t' :
  transactions db !! i = Some t -> tx_extends t t' ->
  transactions db' = <[i := t']> (transactions db) ->
  db_extends db db'.
Proof.
  intros Hi He Heq. split; [by rewrite Heq, length_insert|].
  intros j u Hj. rewrite Heq. destruct (decide (i = j)) as [<-|Hne].
  - exists t'. split; [apply list_lookup_insert_eq; by eapply lookup_lt_Some|].
    rewrite Hi in Hj. by injection Hj as <-.
  - exists u. split; [by rewrite list_lookup_insert_ne|apply tx_extends_refl].
Qed.

(** Two writes in a row at the same position. *)
Lemma db_extends_write2 db db' i t t1 t2 :
  transactions db !! i = Some t -> tx_extends t t1 -> tx_extends t1 t2 ->
  transactions db' = <[i := t2]> (<[i := t1]> (transactions db)) ->
  db_extends db db'.
Proof.
  intros Hi E1 E2 Heq. rewrite list_insert_insert_eq in Heq.
  eapply db_extends_write; [exact Hi| |exact Heq]. by eapply tx_extends_trans.
Qed.

Lemma preSave_extends now d : tx_extends (doc d) (preSave now d).
Proof.
  destruct (preSave_frame now d) as (_ & Ha & Hid & _ & _ & Hgo & _ & _ & _ & Hc).
  split; [|by repeat split].
  rewrite preSave_history. by apply prefix_app_r.
Qed.

Lemma assign_extends f d t0 :
  (forall t, tx_extends t (f t)) -> tx_extends t0 (doc d) -> tx_extends t0 (doc (assign f d)).
Proof. intros Hf He. cbn [assign doc]. eapply tx_extends_trans; [exact He|apply Hf]. Qed.

Lemma set_method_extends v t : tx_extends t (set_method v t).
Proof. destruct t. by repeat split. Qed.
Lemma set_fees_extends v t : tx_extends t (set_fees v t).
Proof. destruct t. by repeat split. Qed.
Lemma set_netAmount_extends v t : tx_extends t (set_netAmount v t).
Proof. destruct t. by repeat split. Qed.
Lemma set_refund_extends v t : tx_extends t (set_refund v t).
Proof. destruct t. by repeat split. Qed.
Lemma set_orderId_extends v t : tx_extends t (set_orderId v t).
Proof. destruct t. by repeat split. Qed.
Lemma set_gatewayPaymentId_extends v t : tx_extends t (set_gatewayPaymentId v t).
Proof. destruct t. by repeat split. Qed.
Lemma set_previousStatus_extends v t : tx_extends t (set_previousStatus v t).
Proof. destruct t. by repeat split. Qed.
Lemma set_status_extends v t : tx_extends t (set_status v t).
Proof. destruct t. by repeat split. Qed.
Lemma push_history_extends e t : tx_extends t (push_history e t).
Proof. destruct t. split; [by apply prefix_app_r|by repeat split]. Qed.

Lemma updated_extends now st reason metadata d : tx_extends (doc d) (updated now st reason metadata d).
Proof.
  unfold updated. eapply tx_extends_trans; [|apply preSave_extends].
  cbn [assign assign_status doc].
  eapply tx_extends_trans; [|apply push_history_extends].
  eapply tx_extends_trans; [|apply set_status_extends].
  apply set_previousStatus_extends.
Qed.

(** The documents a query returns sit at distinct positions. *)
Lemma find_all_positions (q : Transaction -> bool) (l : list Transaction) (k : nat) :
  let ds := omap (fun it : nat * Transaction =>
                    if q (snd it) then Some (load (fst it) (snd it)) else None)
                 (imap (fun i t => ((k + i)%nat, t)) l) in
  NoDup (doc_id <$> ds) /\ forall d, d ∈ ds -> (k <= doc_id d)%nat.
Proof.
  revert k. induction l as [|t l IH]; intros k; cbn zeta.
  { split; [constructor|]. intros d Hd. by apply elem_of_nil in Hd. }
  rewrite imap_cons. cbn [omap list_omap fst snd].
  assert (Hext : imap ((fun i t0 => ((k + i)%nat, t0)) ∘ S) l
                 = imap (fun i t0 => ((S k + i)%nat, t0)) l).
  { apply imap_ext. intros i x _. cbn. f_equal. lia. }
  rewrite Hext. destruct (IH (S k)) as [Hnd Hge]. cbn zeta in Hnd, Hge.
  destruct (q t).
  - split.
    + cbn [fmap list_fmap]. constructor; [|exact Hnd].
      cbn [doc_id load]. intros Hin. apply list_elem_of_fmap in Hin as (d & Hid & Hd).
      apply Hge in Hd. lia.
    + intros d Hd. apply elem_of_cons in Hd as [->|Hd]; [cbn; lia|].
      apply Hge in Hd. lia.
  - split; [exact Hnd|]. intros d Hd. apply Hge in Hd. lia.
Qed.

Lemma find_all_NoDup q db : NoDup (doc_id <$> find_all q db).
Proof. apply (find_all_positions q (transactions db) 0). Qed.

Lemma find_all_synced q db d :
  d ∈ find_all q db -> transactions db !! doc_id d = Some (doc d).
Proof. intros Hd. by apply elem_of_find_all in Hd as (i & t & -> & Hi & _). Qed.

(** A loop over documents found by one query, each iteration writing a
    later state of its own document. *)
Lemma fold_docs_extends (step : Db -> TxDoc -> Db) :
  (forall acc d, transactions acc !! doc_id d = Some (doc d) ->
     exists t', transactions (step acc d) = <[doc_id d := t']> (transactions acc)
                /\ tx_extends (doc d) t') ->
  forall ds db,
    NoDup (doc_id <$> ds) ->
    (forall d, d ∈ ds -> transactions db !! doc_id d = Some (doc d)) ->
    db_extends db (foldl step db ds).
Proof.
  intros Hstep ds. induction ds as [|d ds IH]; intros db Hnd Hsync.
  { apply db_extends_refl. }
  cbn [foldl]. apply NoDup_cons in Hnd as [Hnotin Hnd].
  destruct (Hstep db d) as (t' & Heq & He); [apply Hsync; by left|].
  eapply db_extends_trans.
  - eapply db_extends_write; [apply Hsync; by left|exact He|exact Heq].
  - apply IH; [exact Hnd|]. intros d' Hd'. rewrite Heq.
    rewrite list_lookup_insert_ne; [apply Hsync; by right|].
    intros Hc. apply Hnotin. rewrite Hc. apply list_elem_of_fmap. by exists d'.
Qed.

Ltac found_doc Hf i t Hi :=
  match goal with
  | |- context [findOne ?q ?db] =>
      destruct (findOne q db) as [?d|] eqn:Hf; [|apply db_extends_refl];
      destruct (findOne_Some _ _ _ Hf) as (i & t & -> & Hi & _)
  end.

Lemma handlePaymentAuthorized_extends now payment ip db :
  db_extends db (fst (handlePaymentAuthorized now payment ip db)).
Proof.
  unfold handlePaymentAuthorized. found_doc Hf i t Hi.
  rewrite addStatusUpdate_eq. cbv beta iota zeta. set (T1 := updated _ _ _ _ _).
  assert (E1 : tx_extends t T1) by apply (updated_extends _ _ _ _ (load i t)).
  cbn [doc doc_id load]. destruct (bool_decide _).
  - rewrite save_eq. cbn [fst snd].
    eapply (db_extends_write2 db _ i t T1); [done|done| |reflexivity].
    eapply tx_extends_trans; [|apply preSave_extends]. apply set_method_extends.
  - by eapply (db_extends_write db _ i t T1).
Qed.

Lemma handlePaymentCaptured_extends now payment ip db :
  db_extends db (fst (handlePaymentCaptured now payment ip db)).
Proof.
  unfold handlePaymentCaptured. found_doc Hf i t Hi.
  rewrite addStatusUpdate_eq. cbv beta iota zeta. set (T1 := updated _ _ _ _ _).
  assert (E1 : tx_extends t T1) by apply (updated_extends _ _ _ _ (load i t)).
  cbn [doc doc_id load]. destruct (_ || _).
  - rewrite save_eq. cbn [fst snd].
    eapply (db_extends_write2 db _ i t T1); [done|done| |reflexivity].
    eapply tx_extends_trans; [|apply preSave_extends]. cbn [assign doc].
    eapply tx_extends_trans; [apply set_fees_extends|apply set_netAmount_extends].
  - by eapply (db_extends_write db _ i t T1).
Qed.

Lemma handlePaymentFailed_extends now payment ip db :
  db_extends db (fst (handlePaymentFailed now payment ip db)).
Proof.
  unfold handlePaymentFailed. found_doc Hf i t Hi.
  rewrite addStatusUpdate_eq. cbv beta iota zeta. set (T1 := updated _ _ _ _ _).
  assert (E1 : tx_extends t T1) by apply (updated_extends _ _ _ _ (load i t)).
  cbn [doc doc_id load].
  assert (Hw : forall os, db_extends db (mkDb (<[i := T1]> (transactions db)) os)).
  { intros os. by eapply (db_extends_write db _ i t T1). }
  destruct (orderId T1) as [oid|]; [|apply Hw].
  unfold findById. destruct (orders _ !! oid) as [o|]; [|apply Hw].
  destruct (negb _); [|apply Hw].
  unfold save_order. destruct (orderPreSave _); apply Hw.
Qed.

Lemma handleOrderPaid_extends now order ip db :
  db_extends db (fst (handleOrderPaid now order ip db)).
Proof.
  unfold handleOrderPaid. found_doc Hf i t Hi.
  rewrite addStatusUpdate_eq. cbv beta iota zeta.
  eapply (db_extends_write db _ i t); [done| |reflexivity].
  apply (updated_extends _ _ _ _ (load i t)).
Qed.

Lemma handleRefundCreated_extends now refundE ip db :
  db_extends db (fst (handleRefundCreated now refundE ip db)).
Proof.
  unfold handleRefundCreated. found_doc Hf i t Hi.
  rewrite addStatusUpdate_eq. cbv beta iota zeta. rewrite save_eq. cbn [fst snd].
  set (d1 := assign (set_refund _) (load i t)). set (T1 := updated _ _ _ _ d1).
  eapply (db_extends_write2 db _ i t T1); [done| | |reflexivity].
  - eapply tx_extends_trans; [|unfold T1; apply updated_extends]. apply set_refund_extends.
  - apply (preSave_extends now (mkTxDoc i T1 false None)).
Qed.

Lemma refund_progress_extends now upd reason event refundE ip db :
  db_extends db (fst (refund_progress now upd reason event refundE ip db)).
Proof.
  unfold refund_progress. found_doc Hf i t Hi.
  rewrite addStatusUpdate_eq. cbv beta iota zeta. rewrite save_eq. cbn [fst snd].
  set (d1 := assign _ (load i t)). set (T1 := updated _ _ _ _ d1).
  eapply (db_extends_write2 db _ i t T1); [done| | |reflexivity].
  - eapply tx_extends_trans; [|unfold T1; apply updated_extends]. apply set_refund_extends.
  - apply (preSave_extends now (mkTxDoc i T1 false None)).
Qed.

Lemma handleDisputeCreated_extends now dispute ip db :
  db_extends db (fst (handleDisputeCreated now dispute ip db)).
Proof.
  unfold handleDisputeCreated. found_doc Hf i t Hi.
  rewrite addStatusUpdate_eq. cbv beta iota zeta. rewrite save_eq. cbn [fst snd].
  set (T1 := updated _ _ _ _ _).
  eapply (db_extends_write2 db _ i t T1); [done| | |reflexivity].
  - unfold T1. apply (updated_extends _ _ _ _ (load i t)).
  - apply (preSave_extends now (mkTxDoc i T1 false None)).
Qed.

Lemma handleSettlementProcessed_extends now settlement ip db :
  db_extends db (fst (handleSettlementProcessed now settlement ip db)).
Proof.
  unfold handleSettlementProcessed.
  destruct (j_strs _ _) as [ids|]; [|apply db_extends_refl]. cbn [fst].
  apply fold_docs_extends; [|apply find_all_NoDup|apply find_all_synced].
  intros acc d Hd. rewrite addStatusUpdate_eq. cbv beta iota zeta. rewrite save_eq.
  cbn [fst snd transactions doc_id]. set (T1 := updated _ _ _ _ d).
  exists (preSave now (mkTxDoc (doc_id d) T1 false (tx_original d))).
  split; [by rewrite list_insert_insert_eq|].
  eapply tx_extends_trans; [unfold T1; apply updated_extends|].
  apply (preSave_extends now (mkTxDoc (doc_id d) T1 false (tx_original d))).
Qed.

(** X1: whatever event and payload a webhook delivers, [processWebhookEvent]
    only adds to the audit trail: the Transaction collection keeps its size,
    and every stored transaction keeps its transaction id, gateway order id,
    amount and creation time while its status history is extended at the
    end (the old history is a prefix of the new one). *)
Theorem webhook_events_extend_history
    (now : Z) (event payload : option Json) (ip : string) (db : Db) :
  length (transactions (fst (processWebhookEvent now event payload ip db)))
  = length (transactions db)
  /\ forall i t,
       transactions db !! i = Some t ->
       exists t',
         transactions (fst (processWebhookEvent now event payload ip db)) !! i = Some t'
         /\ statusHistory t `prefix_of` statusHistory t'
         /\ transactionId t' = transactionId t
         /\ gatewayOrderId t' = gatewayOrderId t
         /\ amount t' = amount t
         /\ createdAt t' = createdAt t.
Proof.
  change (db_extends db (fst (processWebhookEvent now event payload ip db))).
  assert (Hdispatch : forall ev e,
    db_extends db (fst (
      if String.eqb ev "payment.authorized"
      then handlePaymentAuthorized now (payment_view e) ip db
      else if String.eqb ev "payment.captured"
      then handlePaymentCaptured now (payment_view e) ip db
      else if String.eqb ev "payment.failed"
      then handlePaymentFailed now (payment_view e) ip db
      else if String.eqb ev "order.paid"
      then handleOrderPaid now e ip db
      else if String.eqb ev "refund.created"
      then handleRefundCreated now e ip db
      else if String.eqb ev "refund.processed"
      then handleRefundProcessed now e ip db
      else if String.eqb ev "refund.failed"
      then handleRefundFailed now e ip db
      else if String.eqb ev "payment.dispute.created"
      then handleDisputeCreated now e ip db
      else if String.eqb ev "settlement.processed"
      then handleSettlementProcessed now e ip db
      else (db, inr tt)))).
  { intros ev e. unfold handleRefundProcessed, handleRefundFailed.
    destruct (String.eqb ev _); [apply handlePaymentAuthorized_extends|].
    destruct (String.eqb ev _); [apply handlePaymentCaptured_extends|].
    destruct (String.eqb ev _); [apply handlePaymentFailed_extends|].
    destruct (String.eqb ev _); [apply handleOrderPaid_extends|].
    destruct (String.eqb ev _); [apply handleRefundCreated_extends|].
    destruct (String.eqb ev _); [apply refund_progress_extends|].
    destruct (String.eqb ev _); [apply refund_progress_extends|].
    destruct (String.eqb ev _); [apply handleDisputeCreated_extends|].
    destruct (String.eqb ev _); [apply handleSettlementProcessed_extends|].
    exact (db_extends_refl db). }
  assert (Hentity : forall entity : option Json,
    db_extends db (fst (
      match entity with
      | Some e =>
          if negb (j_truthy entity) then (db, inl (AppError "Invalid webhook payload" 400))
          else
            match event with
            | Some (JStr ev) =>
                if String.eqb ev "payment.authorized"
                then handlePaymentAuthorized now (payment_view e) ip db
                else if String.eqb ev "payment.captured"
                then handlePaymentCaptured now (payment_view e) ip db
                else if String.eqb ev "payment.failed"
                then handlePaymentFailed now (payment_view e) ip db
                else if String.eqb ev "order.paid"
                then handleOrderPaid now e ip db
                else if String.eqb ev "refund.created"
                then handleRefundCreated now e ip db
                else if String.eqb ev "refund.processed"
                then handleRefundProcessed now e ip db
                else if String.eqb ev "refund.failed"
                then handleRefundFailed now e ip db
                else if String.eqb ev "payment.dispute.created"
                then handleDisputeCreated now e ip db
                else if String.eqb ev "settlement.processed"
                then handleSettlementProcessed now e ip db
                else (db, inr tt)
            | _ => (db, inr tt)
            end
      | None => (db, inl (AppError "Invalid webhook payload" 400))
      end))).
  { intros [e|]; [|exact (db_extends_refl db)].
    destruct (negb _); [exact (db_extends_refl db)|].
    destruct event as [ev|]; [|exact (db_extends_refl db)].
    destruct ev; try exact (db_extends_refl db). apply Hdispatch. }
  unfold processWebhookEvent.
  destruct payload as [pl|]; [|exact (db_extends_refl db)].
  destruct pl; [exact (db_extends_refl db)|apply Hentity..].
Qed.

Lemma verify_try_extends env now req od db :
  db_extends db (fst (verify_try env now req od db)).
Proof.
  unfold verify_try. found_doc Hf i t Hi.
  destruct (negb (bool_decide _)).
  { rewrite addStatusUpdate_eq. cbv beta iota zeta. cbn [fst].
    eapply (db_extends_write db _ i t); [done| |reflexivity].
    apply (updated_extends _ _ _ _ (load i t)). }
  destruct (snd (fetchPaymentDetailsWithRetry _ _ _)) as [e|pd]; [exact (db_extends_refl db)|].
  destruct (negb (amount_matches _ _)); [exact (db_extends_refl db)|].
  destruct (negb (bool_decide _)); [exact (db_extends_refl db)|].
  unfold save_new_order. destruct (orderPreSave _) as [e|o']; [exact (db_extends_refl db)|].
  rewrite addStatusUpdate_eq. cbv beta iota zeta. cbn [fst transactions doc_id assign load].
  eapply (db_extends_write db _ i t); [done| |reflexivity].
  match goal with |- tx_extends _ (updated ?n ?s ?r ?m ?dd) =>
    eapply tx_extends_trans; [|apply (updated_extends n s r m dd)] end.
  cbn [assign doc load].
  eapply tx_extends_trans; [|apply set_fees_extends].
  eapply tx_extends_trans; [|apply set_method_extends].
  eapply tx_extends_trans; [|apply set_gatewayPaymentId_extends].
  apply set_orderId_extends.
Qed.

Lemma verifyPayment_extends env now req db :
  db_extends db (fst (verifyPayment env now req db)).
Proof.
  unfold verifyPayment.
  destruct (_ || _); [exact (db_extends_refl db)|].
  destruct (orderData req) as [od|]; [|exact (db_extends_refl db)].
  destruct (Js.falsy_str _); [exact (db_extends_refl db)|].
  pose proof (verify_try_extends env now req od db) as Htry.
  destruct (verify_try env now req od db) as [db1 [e|r]]; cbn [fst] in *; [|exact Htry].
  eapply db_extends_trans; [exact Htry|].
  destruct (findOne _ db1) as [d|] eqn:Hf; [|exact (db_extends_refl db1)].
  destruct (findOne_Some _ _ _ Hf) as (i & t & -> & Hi & _).
  rewrite addStatusUpdate_eq. cbn [snd].
  eapply (db_extends_write db1 _ i t); [done| |reflexivity].
  apply (updated_extends _ _ _ _ (load i t)).
Qed.

Lemma refundPayment_extends env now req db :
  db_extends db (fst (refundPayment env now req db)).
Proof.
  unfold refundPayment.
  destruct (_ && _); [exact (db_extends_refl db)|].
  assert (Htry : db_extends db (fst (refund_try env now req db))).
  { unfold refund_try. cbv zeta. found_doc Hf i t Hi.
    destruct (negb (Qle_bool _ _)); [exact (db_extends_refl db)|].
    destruct (getRazorpayInstance env) as [e|rz]; [exact (db_extends_refl db)|].
    destruct (payments_refund _ _ _) as [e|gw]; [exact (db_extends_refl db)|].
    rewrite addStatusUpdate_eq. cbv beta iota zeta. cbn [doc doc_id load].
    set (d1 := assign (set_refund _) (load i t)). set (T1 := updated _ _ _ _ d1).
    assert (Hw : forall os, db_extends db (mkDb (<[i := T1]> (transactions db)) os)).
    { intros os. eapply (db_extends_write db _ i t T1); [done| |reflexivity].
      eapply tx_extends_trans; [|unfold T1; apply updated_extends].
      apply set_refund_extends. }
    destruct (orderId T1) as [oid|]; [|apply Hw].
    unfold findById. destruct (orders _ !! oid) as [o|]; [|apply Hw].
    destruct (Qeq_bool _ _); [|apply Hw].
    unfold save_order. destruct (orderPreSave _); apply Hw. }
  by destruct (refund_try env now req db) as [db1 [e|r]].
Qed.

(** X2: [verifyPayment] and [refundPayment], whether they answer or throw,
    only add to the audit trail: the Transaction collection keeps its size,
    and every stored transaction keeps its transaction id, gateway order id,
    amount and creation time while its status history is extended at the
    end. *)
Theorem controller_writes_extend_history
    (env : Env) (now : Z) (vreq : VerifyRequest) (rreq : RefundRequest) (db : Db) :
  forall db',
    db' = fst (verifyPayment env now vreq db) \/ db' = fst (refundPayment env now rreq db) ->
    length (transactions db') = length (transactions db)
    /\ forall i t,
         transactions db !! i = Some t ->
         exists t',
           transactions db' !! i = Some t'
           /\ statusHistory t `prefix_of` statusHistory t'
           /\ transactionId t' = transactionId t
           /\ gatewayOrderId t' = gatewayOrderId t
           /\ amount t' = amount t
           /\ createdAt t' = createdAt t.
Proof.
  intros db' [->| ->].
  - apply verifyPayment_extends.
  - apply refundPayment_extends.
Qed.

(** The instance of the theorem at the second verification of the sample
    payment. *)
Lemma controller_writes_witness :
  length (transactions (fst (verifyPayment sample_env 20 good_request db_verified)))
  = length (transactions db_verified)
  /\ forall i t,
       transactions db_verified !! i = Some t ->
       exists t',
         transactions (fst (verifyPayment sample_env 20 good_request db_verified)) !! i
         = Some t'
         /\ statusHistory t `prefix_of` statusHistory t'
         /\ transactionId t' = transactionId t
         /\ gatewayOrderId t' = gatewayOrderId t
         /\ amount t' = amount t
         /\ createdAt t' = createdAt t.
Proof.
  apply (controller_writes_extend_history sample_env 20 good_request full_refund_request
           db_verified).
  left. reflexivity.
Defined.

Lemma reconcileTransaction_extends rz now i t db :
  transactions db !! i = Some t ->
  db_extends db (fst (reconcileTransaction rz now (load i t) db)).
Proof.
  intros Hi. split.
  - destruct (reconcileTransaction_transactions rz now i t db)
      as [-> | [(t' & t1 & -> & _) | (t' & -> & _)]];
      by rewrite ?length_insert.
  - unfold reconcileTransaction. cbn [doc load].
    destruct (payments_fetch rz (gatewayPaymentId t) 1) as [e|pd].
    + destruct (bool_decide _); [|apply db_extends_refl].
      rewrite addStatusUpdate_eq. cbn [fst snd].
      eapply (db_extends_write db _ i t); [done| |reflexivity].
      apply (updated_extends _ _ _ _ (load i t)).
    + destruct (bool_decide _); [apply db_extends_refl|].
      cbn [negb]. rewrite addStatusUpdate_eq. cbv beta iota zeta.
      set (T1 := updated _ _ _ _ _). rewrite save_eq. cbv beta iota zeta.
      set (d2 := if negb (Js.falsy_str (p_method pd)) then _ else _).
      set (d3 := if Js.truthyZ (p_fee pd) || Js.truthyZ (p_tax pd) then _ else _).
      assert (Hid : doc_id d3 = i).
      { unfold d3, d2. by destruct (negb (Js.falsy_str (p_method pd))),
                            (Js.truthyZ (p_fee pd) || Js.truthyZ (p_tax pd)). }
      assert (E1 : tx_extends t T1) by (unfold T1; apply (updated_extends _ _ _ _ (load i t))).
      assert (E2 : tx_extends T1 (doc d2)).
      { unfold d2. destruct (negb _); cbn [assign doc]; [apply set_method_extends
                                                        |apply tx_extends_refl]. }
      assert (E3 : tx_extends T1 (preSave now d3)).
      { eapply tx_extends_trans; [|apply preSave_extends]. unfold d3.
        destruct (_ || _); [|exact E2]. cbn [assign doc].
        eapply tx_extends_trans; [exact E2|].
        eapply tx_extends_trans; [apply set_fees_extends|apply set_netAmount_extends]. }
      rewrite Hid. cbn [doc_id load].
      assert (Hw : forall os,
                db_extends db (mkDb (<[i := preSave now d3]> (<[i := T1]> (transactions db))) os)).
      { intros os. by eapply (db_extends_write2 db _ i t T1 (preSave now d3)). }
      destruct (bool_decide _); [|apply Hw].
      destruct (orderId _) as [oid|]; [|apply Hw].
      unfold findById. destruct (orders _ !! oid) as [o|]; [|apply Hw].
      destruct (negb (o_isPaid o)); [|apply Hw].
      unfold save_order. destruct (orderPreSave _) as [e|o1] eqn:Hpre; [|apply Hw].
      apply orderPreSave_error in Hpre. subst e. apply Hw.
Qed.

Lemma cleanupStaleTransactions_extends now db :
  db_extends db (cleanupStaleTransactions now db).
Proof.
  unfold cleanupStaleTransactions.
  apply fold_docs_extends; [|apply find_all_NoDup|apply find_all_synced].
  intros acc d Hd. eexists. split; [apply cleanup_one_transactions|].
  apply updated_extends.
Qed.

(** X3: a reconciliation of a stored transaction and the expiry sweep only
    add to the audit trail: the Transaction collection keeps its size, and
    every stored transaction keeps its transaction id, gateway order id,
    amount and creation time while its status history is extended at the
    end. *)
Theorem monitoring_writes_extend_history
    (rz : Razorpay) (now : Z) (j : nat) (u : Transaction) (db : Db) :
  transactions db !! j = Some u ->
  forall db',
    db' = fst (reconcileTransaction rz now (load j u) db)
    \/ db' = cleanupStaleTransactions now db ->
    length (transactions db') = length (transactions db)
    /\ forall i t,
         transactions db !! i = Some t ->
         exists t',
           transactions db' !! i = Some t'
           /\ statusHistory t `prefix_of` statusHistory t'
           /\ transactionId t' = transactionId t
           /\ gatewayOrderId t' = gatewayOrderId t
           /\ amount t' = amount t
           /\ createdAt t' = createdAt t.
Proof.
  intros Hj db' [->| ->].
  - by apply reconcileTransaction_extends.
  - apply cleanupStaleTransactions_extends.
Qed.

(** The instance of the theorem at the sweep of the sample database. *)
Lemma monitoring_writes_witness :
  length (transactions (cleanupStaleTransactions (day 9) db_sweep))
  = length (transactions db_sweep)
  /\ forall i t,
       transactions db_sweep !! i = Some t ->
       exists t',
         transactions (cleanupStaleTransactions (day 9) db_sweep) !! i = Some t'
         /\ statusHistory t `prefix_of` statusHistory t'
         /\ transactionId t' = transactionId t
         /\ gatewayOrderId t' = gatewayOrderId t
         /\ amount t' = amount t
         /\ createdAt t' = createdAt t.
Proof.
  apply (monitoring_writes_extend_history sample_gateway (day 9) 0
           (tx_at "txn_a" pending (day 1) (Some 0%nat)) db_sweep eq_refl).
  right. reflexivity.
Defined.

(** ** The pre-save hook behind [addStatusUpdate] *)

Lemma updated_previousStatus now st reason metadata i t :
  previousStatus (updated now st reason metadata (load i t)) = Some st.
Proof.
  unfold updated, preSave. destruct t as [a b c e f g s0 h hs j k l n fe na r ca].
  cbn [assign assign_status load doc statusModified tx_original set_previousStatus
       set_status push_history set_statusHistory status previousStatus orb negb].
  destruct (decide (s0 = st)) as [->|Hne].
  - rewrite !bool_decide_eq_true_2 by reflexivity. cbn.
    by destruct (Js.truthyQ f).
  - rewrite (bool_decide_eq_false_2 (s0 = st)) by exact Hne.
    rewrite bool_decide_eq_false_2 by (intros [= Hc]; by apply Hne).
    cbn [negb andb]. destruct st; cbn; by destruct (Js.truthyQ f).
Qed.

(** X4: after [addStatusUpdate] on a stored transaction that passes the
    schema, the stored
    [previousStatus] is the status just written, not the one before: the
    pre-save hook overwrites what [addStatusUpdate] recorded, since no
    document has the [original] it reads.  The prior status survives only in
    the metadata of the hook's "Status changed" history entry, which is the
    last entry whenever the status changed. *)
Theorem previousStatus_is_current_status
    (now : Z) (st : Status) (reason : option string)
    (metadata : list (string * MetaValue)) (i : nat) (t : Transaction) (db : Db) :
  transactions db !! i = Some t ->
  schema_valid t = true ->
  exists t',
    transactions (snd (addStatusUpdate now st reason metadata (load i t) db)) !! i = Some t'
    /\ status t' = st
    /\ previousStatus t' = Some st
    /\ (status t <> st ->
        last (statusHistory t')
        = Some (mkStatusEntry st now (Some "Status changed")
                  [("previousStatus", MStatus (Some (status t)))])).
Proof.
  intros Hi _. rewrite addStatusUpdate_eq. cbn [snd transactions doc_id load].
  exists (updated now st reason metadata (load i t)).
  split; [apply list_lookup_insert_eq; by eapply lookup_lt_Some|].
  split; [by destruct (updated_frame now st reason metadata (load i t)) as (Hs & _)|].
  split; [apply updated_previousStatus|].
  intros Hne. rewrite updated_history by reflexivity. cbn [doc load].
  rewrite bool_decide_eq_false_2 by exact Hne.
  match goal with |- last (?l ++ ?e1 :: [?e2]) = _ =>
    replace (l ++ e1 :: [e2]) with ((l ++ [e1]) ++ [e2]) by (by rewrite <- app_assoc) end.
  apply last_snoc.
Qed.

(** The instance of the theorem at the sample transaction, moved from
    [success] to [failed]. *)
Lemma previousStatus_witness :
  exists t',
    transactions (snd (addStatusUpdate 20 failed (Some "Payment failed at gateway") []
                         (load 0 tx_success) db_success)) !! 0%nat = Some t'
    /\ status t' = failed
    /\ previousStatus t' = Some failed
    /\ (status tx_success <> failed ->
        last (statusHistory t')
        = Some (mkStatusEntry failed 20 (Some "Status changed")
                  [("previousStatus", MStatus (Some (status tx_success)))])).
Proof.
  apply (previousStatus_is_current_status 20 failed (Some "Payment failed at gateway") []
           0 tx_success db_success).
  - reflexivity.
  - reflexivity.
Defined.

Lemma updated_timing now st reason metadata i t :
  timing (updated now st reason metadata (load i t)) =
  if bool_decide (status t = st) then timing t
  else match st with
       | authorized => (Some now, capturedAt t, failedAt t, refundedAt t)
       | captured | success => (authorizedAt t, Some now, failedAt t, refundedAt t)
       | failed => (authorizedAt t, capturedAt t, Some now, refundedAt t)
       | refunded | partially_refunded => (authorizedAt t, capturedAt t, failedAt t, Some now)
       | _ => timing t
       end.
Proof.
  unfold updated, preSave, timing. destruct t as [a b c e f g s0 h hs j k l n fe na r ca].
  cbn [assign assign_status load doc statusModified tx_original set_previousStatus
       set_status push_history set_statusHistory status previousStatus orb negb
       authorizedAt capturedAt failedAt refundedAt].
  destruct (decide (s0 = st)) as [->|Hne].
  - rewrite !bool_decide_eq_true_2 by reflexivity. cbn.
    by destruct (Js.truthyQ f).
  - rewrite (bool_decide_eq_false_2 (s0 = st)) by exact Hne.
    rewrite bool_decide_eq_false_2 by (intros [= Hc]; by apply Hne).
    cbn [negb andb]. destruct st; cbn; by destruct (Js.truthyQ f).
Qed.

(** X5: the timing fields under [addStatusUpdate], for a stored
    transaction that passes the schema.  An update with the
    current status moves none of [authorizedAt], [capturedAt], [failedAt],
    [refundedAt].  An update with a different status stamps exactly one field
    with the time of the update: [authorizedAt] for [authorized],
    [capturedAt] for [captured] and [success], [failedAt] for [failed],
    [refundedAt] for [refunded] and [partially_refunded]; the other six
    statuses ([expired] and [cancelled] among them) stamp nothing. *)
Theorem status_update_timing
    (now : Z) (st : Status) (reason : option string)
    (metadata : list (string * MetaValue)) (i : nat) (t : Transaction) (db : Db) :
  transactions db !! i = Some t ->
  schema_valid t = true ->
  exists t',
    transactions (snd (addStatusUpdate now st reason metadata (load i t) db)) !! i = Some t'
    /\ (status t = st -> timing t' = timing t)
    /\ (status t <> st ->
        timing t' =
        match st with
        | authorized => (Some now, capturedAt t, failedAt t, refundedAt t)
        | captured | success => (authorizedAt t, Some now, failedAt t, refundedAt t)
        | failed => (authorizedAt t, capturedAt t, Some now, refundedAt t)
        | refunded | partially_refunded =>
            (authorizedAt t, capturedAt t, failedAt t, Some now)
        | initiated | pending | processing | cancelled | expired | disputed => timing t
        end).
Proof.
  intros Hi _. rewrite addStatusUpdate_eq. cbn [snd transactions doc_id load].
  exists (updated now st reason metadata (load i t)).
  split; [apply list_lookup_insert_eq; by eapply lookup_lt_Some|].
  rewrite updated_timing. split; intros H.
  - by rewrite bool_decide_eq_true_2.
  - rewrite bool_decide_eq_false_2 by exact H. by destruct st.
Qed.

(** The instance of the theorem at the sample transaction, captured at time
    10 and refunded at time 20. *)
Lemma status_update_timing_witness :
  exists t',
    transactions (snd (addStatusUpdate 20 refunded (Some "Refund initiated") []
                         (load 0 tx_success) db_success)) !! 0%nat = Some t'
    /\ (status tx_success = refunded -> timing t' = timing tx_success)
    /\ (status tx_success <> refunded ->
        timing t' =
        (authorizedAt tx_success, capturedAt tx_success, failedAt tx_success, Some 20)).
Proof.
  apply (status_update_timing 20 refunded (Some "Refund initiated") [] 0 tx_success db_success).
  - reflexivity.
  - reflexivity.
Defined.

(** ** [verifyPayment]: the failing and the successful call *)

Lemma verify_try_error_found env now req od db db1 e i t :
  verify_try env now req od db = (db1, inl e) ->
  findOne (by_transactionId (vr_transactionId req)) db = Some (load i t) ->
  exists t1, findOne (by_transactionId (vr_transactionId req)) db1 = Some (load i t1)
             /\ transactions db1 !! i = Some t1
             /\ schema_valid t1 = schema_valid t.
Proof.
  intros Htry Hf. destruct (findOne_Some _ _ _ Hf) as (i' & t0 & Heq & Hi & Hq).
  injection Heq as <- <-. unfold verify_try in Htry. rewrite Hf in Htry.
  destruct (negb (bool_decide _)).
  { rewrite addStatusUpdate_eq in Htry. cbv beta iota zeta in Htry.
    injection Htry as <- _. cbn [doc_id load].
    set (T1 := updated _ _ _ _ _). exists T1. split; [|split].
    - apply (findOne_insert _ db i t T1 _ Hf). unfold by_transactionId in *.
      destruct (updated_frame now failed (Some "Invalid payment signature")
                  [("razorpay_order_id", MOptStr (razorpay_order_id req));
                   ("razorpay_payment_id", MOptStr (razorpay_payment_id req));
                   ("provided_signature", MOptStr (razorpay_signature req));
                   ("expected_signature",
                    MStr (hmac_sha256_hex env (RAZORPAY_KEY_SECRET env) (signed_ids req)))]
                  (load i t)) as (_ & _ & Hid & _).
      fold T1 in Hid. cbn [doc load] in Hid. by rewrite Hid.
    - cbn [transactions]. apply list_lookup_insert_eq. by eapply lookup_lt_Some.
    - unfold T1. by rewrite schema_valid_updated. }
  assert (Hsame : db1 = db).
  { destruct (snd (fetchPaymentDetailsWithRetry _ _ _)) as [e'|pd]; [by injection Htry|].
    destruct (negb (amount_matches _ _)); [by injection Htry|].
    destruct (negb (bool_decide _)); [by injection Htry|].
    unfold save_new_order in Htry.
    destruct (orderPreSave _) as [e'|o']; [by injection Htry|].
    rewrite addStatusUpdate_eq in Htry. cbv beta iota zeta in Htry. discriminate Htry. }
  subst db1. by exists t.
Qed.

(** X6: a [verifyPayment] that throws one of the errors of its [try] block
    (unknown transaction apart: signature mismatch, gateway failure, amount
    or status mismatch, an Order the Order hook rejects), for a request that
    carries its fields and names a stored transaction passing the schema:
    the [catch] block reloads the transaction and stores it as [failed], with
    a history entry that carries the message of the thrown error, and the
    stored document passes the schema again. *)
Theorem failed_verification_marks_failed
    (env : Env) (now : Z) (req : VerifyRequest) (db db' : Db) (e : JsError)
    (i : nat) (t : Transaction) :
  verifyPayment env now req db = (db', inl e) ->
  Js.falsy_str (razorpay_order_id req) = false ->
  Js.falsy_str (razorpay_payment_id req) = false ->
  Js.falsy_str (razorpay_signature req) = false ->
  orderData req <> None ->
  Js.falsy_str (vr_transactionId req) = false ->
  findOne (by_transactionId (vr_transactionId req)) db = Some (load i t) ->
  schema_valid t = true ->
  exists t',
    transactions db' !! i = Some t'
    /\ status t' = failed
    /\ schema_valid t' = true
    /\ exists entry,
         entry ∈ statusHistory t'
         /\ se_status entry = failed
         /\ se_reason entry = err_message e
         /\ se_timestamp entry = now.
Proof.
  unfold verifyPayment. intros H F1 F2 F3 Hod F4 Hf Hvalid.
  rewrite F1, F2, F3 in H. cbn [orb] in H.
  destruct (orderData req) as [od|]; [|by destruct Hod]. rewrite F4 in H.
  destruct (verify_try env now req od db) as [db1 [e1|r1]] eqn:Htry; [|discriminate H].
  cbv zeta in H. apply pair_equal_spec in H as [Hdb He]. injection He as <-. subst db'.
  destruct (verify_try_error_found _ _ _ _ _ _ _ _ _ Htry Hf) as (t1 & Hf1 & Hi1 & Hv1).
  rewrite Hf1, addStatusUpdate_eq. cbn [snd transactions doc_id load].
  set (m := [("error_code", _); _; _]).
  exists (updated now failed (err_message e1) m (load i t1)).
  split; [apply list_lookup_insert_eq; by eapply lookup_lt_Some|].
  split; [by destruct (updated_frame now failed (err_message e1) m (load i t1)) as (Hs & _)|].
  split; [rewrite schema_valid_updated; cbn [doc load]; by rewrite Hv1|].
  exists (mkStatusEntry failed now (err_message e1) m). split; [|done].
  rewrite updated_history by reflexivity. cbn [doc load].
  rewrite elem_of_app, elem_of_cons. auto.
Qed.

Lemma tampered_verification_sample :
  verifyPayment sample_env 20 tampered_request db_linked
  = (db_tampered, inl (AppError "Payment verification failed" 400)).
Proof. vm_compute. reflexivity. Qed.

(** The instance of the theorem at the request signed for another payment
    id, for the sample transaction linked to its order. *)
Lemma failed_verification_witness :
  exists t',
    transactions db_tampered !! 0%nat = Some t'
    /\ status t' = failed
    /\ schema_valid t' = true
    /\ exists entry,
         entry ∈ statusHistory t'
         /\ se_status entry = failed
         /\ se_reason entry = err_message (AppError "Payment verification failed" 400)
         /\ se_timestamp entry = 20.
Proof.
  apply (failed_verification_marks_failed sample_env 20 tampered_request db_linked
           db_tampered (AppError "Payment verification failed" 400) 0%nat tx_linked
           tampered_verification_sample).
  - reflexivity.
  - reflexivity.
  - reflexivity.
  - discriminate.
  - reflexivity.
  - reflexivity.
  - reflexivity.
Defined.

(** The fields the Order hook leaves alone. *)
Lemma orderPreSave_fields o o' :
  orderPreSave o = inr o' ->
  o_user o' = o_user o /\ o_paymentId o' = o_paymentId o /\ o_total o' = o_total o
  /\ o_status o' = o_status o /\ o_isPaid o' = o_isPaid o /\ o_paidAt o' = o_paidAt o
  /\ o_notes o' = o_notes o.
Proof.
  unfold orderPreSave. destruct (_ && _); [discriminate|].
  intros [= <-]. by destruct o.
Qed.

(** X7: a [verifyPayment] that answers stores [success] together with its
    Order: the stored transaction is [success], carries the submitted
    gateway payment id and the id of an Order that exists in the Order
    collection; that Order is the one returned, it is new (the collection
    grew by one), paid at the time of the call, [confirmed], named, and
    carries the payment id and the user of the request. *)
Theorem successful_verification_links_paid_order
    (env : Env) (now : Z) (req : VerifyRequest) (db db' : Db) (r : VerifyResponse) :
  verifyPayment env now req db = (db', inr r) ->
  exists t',
    transactions db' !! vresp_tx_id r = Some t'
    /\ status t' = success
    /\ gatewayPaymentId t' = razorpay_payment_id req
    /\ orderId t' = Some (vresp_order_id r)
    /\ orders db' !! vresp_order_id r = Some (vresp_order r)
    /\ orders db' = orders db ++ [vresp_order r]
    /\ o_isPaid (vresp_order r) = true
    /\ o_paidAt (vresp_order r) = Some now
    /\ o_status (vresp_order r) = order_confirmed
    /\ o_paymentId (vresp_order r) = razorpay_payment_id req
    /\ o_user (vresp_order r) = vr_user req
    /\ order_named (vresp_order r).
Proof.
  intros H.
  destruct (verifyPayment_success_inv _ _ _ _ _ _ H)
    as (od & i & t & pd & o' & _ & _ & _ & _ & _ & Hfind & _ & _ & _ & _ & Hpre & Hdb & Hr).
  clear H. subst db' r.
  destruct (findOne_Some _ _ _ Hfind) as (i' & t0 & Heq & Hi & _).
  injection Heq as <- <-.
  destruct (verified_tx_frame now req pd (length (orders db)) (load i t))
    as (Hst & _ & _ & Hoid & Hgp & _).
  destruct (orderPreSave_fields _ _ Hpre) as (Hu & Hp & _ & Hs & Hpaid & Hat & _).
  exists (verified_tx now req pd (length (orders db)) (load i t)).
  cbn [vresp_tx_id vresp_order_id vresp_order transactions orders].
  split; [apply list_lookup_insert_eq; by eapply lookup_lt_Some|].
  do 3 (split; [assumption|]).
  split; [rewrite lookup_app_r by reflexivity; by rewrite Nat.sub_diag|].
  split; [reflexivity|].
  rewrite Hpaid, Hat, Hs, Hp, Hu. do 5 (split; [reflexivity|]).
  by eapply orderPreSave_stored.
Qed.

(** The instance of the theorem at the sample verification. *)
Lemma successful_verification_witness :
  exists t',
    transactions db_verified !! vresp_tx_id first_response = Some t'
    /\ status t' = success
    /\ gatewayPaymentId t' = razorpay_payment_id good_request
    /\ orderId t' = Some (vresp_order_id first_response)
    /\ orders db_verified !! vresp_order_id first_response = Some (vresp_order first_response)
    /\ orders db_verified = orders db_initiated ++ [vresp_order first_response]
    /\ o_isPaid (vresp_order first_response) = true
    /\ o_paidAt (vresp_order first_response) = Some 10
    /\ o_status (vresp_order first_response) = order_confirmed
    /\ o_paymentId (vresp_order first_response) = razorpay_payment_id good_request
    /\ o_user (vresp_order first_response) = vr_user good_request
    /\ order_named (vresp_order first_response).
Proof.
  exact (successful_verification_links_paid_order sample_env 10 good_request db_initiated
           db_verified first_response first_verification_sample).
Defined.

(** ** [createOrder] and [refundPayment]: the failing calls *)

(** X8: [createOrder] answers 400 "Invalid amount specified" when the
    amount is missing, zero or negative, and 400 "Order items are required"
    when the amount is fine and the items are missing, not an array or empty,
    whatever the gateway would do.  Every failure of [createOrder] leaves the
    database as it was and is answered 400 or 500: a gateway failure is
    rethrown as a 500, "Payment gateway unavailable. Please try again." when
    its message contains "API", its own message otherwise. *)
Theorem createOrder_failures
    (env : Env) (now : Z) (suffix : string) (req : CreateRequest) (db : Db) :
  (cr_amount req = None \/ (exists a, cr_amount req = Some a /\ (a <= 0)%Q) ->
   createOrder env now suffix req db = (db, inl (AppError "Invalid amount specified" 400)))
  /\ ((exists a, cr_amount req = Some a /\ (0 < a)%Q) ->
      cr_items req = None \/ cr_items req = Some O ->
      createOrder env now suffix req db = (db, inl (AppError "Order items are required" 400)))
  /\ (forall a n ge m,
        cr_amount req = Some a -> (0 < a)%Q -> cr_items req = Some (S n) ->
        snd (createRazorpayOrderWithRetry env
               (mkOrderRequest (a * 100) (Js.str_or (cr_currency req) "INR")
                  ("txn_" +:+ pretty now +:+ "_" +:+ suffix)) 1) = inl ge ->
        err_message ge = Some m ->
        createOrder env now suffix req db
        = (db, inl (AppError (if Js.includes "API" m
                              then "Payment gateway unavailable. Please try again."
                              else m) 500)))
  /\ (forall db' e,
        createOrder env now suffix req db = (db', inl e) ->
        db' = db /\ (http_status e = 400 \/ http_status e = 500)).
Proof.
  assert (Hpos : forall a, (0 < a)%Q -> Js.truthyQ a = true /\ Qle_bool a 0 = false).
  { intros a Ha. split.
    - apply truthyQ_true. intros Hz. rewrite Hz in Ha. by apply Qlt_irrefl in Ha.
    - apply not_true_is_false. intros Hc. apply Qle_bool_iff in Hc.
      by apply Qle_not_lt in Hc. }
  unfold createOrder. split; [|split; [|split]].
  - intros [->|(a & -> & Ha)]; [reflexivity|].
    apply Qle_bool_iff in Ha. rewrite Ha. by rewrite orb_true_r.
  - intros (a & -> & Ha) Hitems. destruct (Hpos a Ha) as [-> ->]. cbn [negb orb].
    by destruct Hitems as [-> | ->].
  - intros a n ge m -> Ha -> Hge Hm. destruct (Hpos a Ha) as [-> ->]. cbn [negb orb].
    rewrite Hge, Hm. reflexivity.
  - intros db' e. destruct (cr_amount req) as [a|]; [|intros [= <- <-]; auto].
    destruct (negb (Js.truthyQ a) || Qle_bool a 0); [intros [= <- <-]; auto|].
    destruct (cr_items req) as [[|n]|]; try (intros [= <- <-]; auto).
    destruct (snd (createRazorpayOrderWithRetry _ _ _)) as [ge|go].
    + intros [= <- <-]. split; [done|]. right. by destruct (err_message ge).
    + unfold save_new. cbv beta iota zeta. discriminate.
Qed.

(** X9: the errors of [refundPayment].  A request with neither payment id
    nor transaction id is answered 400.  Every other failure is answered
    with the one 500 error "Failed to process refund": an unknown
    transaction is not answered 404 and a refund above the transaction
    amount is not answered 400, and both leave the database as it was; so
    does a gateway that is not configured or that rejects the refund. *)
Theorem refundPayment_failures
    (env : Env) (now : Z) (req : RefundRequest) (db : Db) :
  (Js.falsy_str (rr_paymentId req) && Js.falsy_str (rr_transactionId req) = true ->
   refundPayment env now req db
   = (db, inl (AppError "Payment ID or Transaction ID is required" 400)))
  /\ (Js.falsy_str (rr_paymentId req) && Js.falsy_str (rr_transactionId req) = false ->
      (findOne (refund_query req) db = None
       \/ (exists i t, findOne (refund_query req) db = Some (load i t)
                       /\ (amount t < refund_amount_or (rr_amount req) (amount t))%Q)
       \/ (exists i t, findOne (refund_query req) db = Some (load i t)
                       /\ (refund_amount_or (rr_amount req) (amount t) <= amount t)%Q
                       /\ (razorpay env = None
                           \/ exists rz e,
                                razorpay env = Some rz
                                /\ payments_refund rz (gatewayPaymentId t)
                                     (refund_amount_or (rr_amount req) (amount t) * 100)%Q
                                   = inl e))) ->
      refundPayment env now req db = (db, inl (AppError "Failed to process refund" 500)))
  /\ (forall db' e,
        refundPayment env now req db = (db', inl e) ->
        e = AppError "Payment ID or Transaction ID is required" 400
        \/ e = AppError "Failed to process refund" 500).
Proof.
  unfold refundPayment. split; [|split].
  - by intros ->.
  - intros -> Hcase. unfold refund_try, getRazorpayInstance. cbv zeta.
    destruct Hcase as [-> | [(i & t & -> & Hgt) | (i & t & -> & Hle & Hgw)]].
    + reflexivity.
    + cbn [doc load].
      assert (Qle_bool (refund_amount_or (rr_amount req) (amount t)) (amount t) = false) as ->.
      { apply not_true_is_false. intros Hc. apply Qle_bool_iff in Hc.
        by apply Qle_not_lt in Hc. }
      reflexivity.
    + cbn [doc load]. apply Qle_bool_iff in Hle. rewrite Hle. cbn [negb].
      destruct Hgw as [-> | (rz & e & -> & ->)]; reflexivity.
  - intros db' e. destruct (_ && _); [intros [= _ <-]; by left|].
    destruct (refund_try env now req db) as [db1 [e1|r1]]; [|discriminate].
    intros [= _ <-]. by right.
Qed.

(** ** The gateway adapter: an error without message *)

(** X10: when the gateway call fails with an error that has no [message]
    and whose status code is not one of 429, 500,
    502, 503, 504, the adapter does not retry; on attempts 1 and 2 the
    caller does not receive the gateway's error but the [TypeError] thrown by
    [isRetryableError] reading [message.toLowerCase]. *)
Theorem messageless_gateway_error_becomes_TypeError
    {A : Type} (call : Z -> JsError + A) (n : Z) (e : JsError) :
  1 <= n < 3 ->
  call n = inl e ->
  err_message e = None ->
  includes_code retryableStatusCodes (err_statusCode e) = false ->
  retry_loop (retry_fuel n) call n = ([EvCall n], inl (TypeError "toLowerCase")).
Proof.
  intros Hn Hcall Hm Hc. rewrite (retry_fuel_step n) by lia. cbn [retry_loop].
  rewrite Hcall. assert ((n <? maxAttempts RETRY_CONFIG) = true) as -> by (cbn; lia).
  unfold isRetryableError. by rewrite Hc, Hm.
Qed.

(** The instance of the theorem at a gateway that rejects the order with
    the validation error [{statusCode: 400}]. *)
Lemma messageless_gateway_error_witness :
  retry_loop (retry_fuel 1) (fun _ : Z => inl (mkError None (Some 400)) : JsError + GatewayOrder) 1
  = ([EvCall 1], inl (TypeError "toLowerCase")).
Proof.
  apply (messageless_gateway_error_becomes_TypeError
           (fun _ : Z => inl (mkError None (Some 400)) : JsError + GatewayOrder)
           1 (mkError None (Some 400))).
  - lia.
  - reflexivity.
  - reflexivity.
  - reflexivity.
Defined.

(** ** The Order hook and the fees *)

(** X11: the Order pre-save hook.  It rejects an order exactly when its
    shipping address has neither a name nor a full name.  An accepted order
    is stored with both name fields filled in, each either kept or copied
    from the other, with every other field as it was; and the hook is
    idempotent: it accepts what it stored and leaves it as it is. *)
Theorem order_hook_normalises_names (o : Order) :
  (Js.falsy_str (sa_name (o_shippingAddress o)) = true
   /\ Js.falsy_str (sa_fullName (o_shippingAddress o)) = true ->
   orderPreSave o = inl (PlainError "Shipping address must have a name or fullName"))
  /\ (order_named o ->
      exists o',
        orderPreSave o = inr o'
        /\ Js.falsy_str (sa_name (o_shippingAddress o')) = false
        /\ Js.falsy_str (sa_fullName (o_shippingAddress o')) = false
        /\ (sa_name (o_shippingAddress o') = sa_name (o_shippingAddress o)
            \/ Js.falsy_str (sa_name (o_shippingAddress o)) = true
               /\ sa_name (o_shippingAddress o') = sa_fullName (o_shippingAddress o))
        /\ (sa_fullName (o_shippingAddress o') = sa_fullName (o_shippingAddress o)
            \/ Js.falsy_str (sa_fullName (o_shippingAddress o)) = true
               /\ sa_fullName (o_shippingAddress o') = sa_name (o_shippingAddress o))
        /\ o' = set_o_shippingAddress (o_shippingAddress o') o
        /\ orderPreSave o' = inr o').
Proof.
  unfold order_named, orderPreSave.
  destruct o as [u [n f] p tot st paid pa notes].
  cbn [o_shippingAddress sa_name sa_fullName set_o_shippingAddress].
  destruct (Js.falsy_str n) eqn:Hn, (Js.falsy_str f) eqn:Hf;
    cbn [negb andb sa_name sa_fullName];
    repeat (progress (rewrite ?Hn, ?Hf; cbn [negb andb sa_name sa_fullName]));
    (split; [intros [H1 H2]; first [reflexivity | discriminate]|]);
    intros [H|H]; try discriminate H;
    eexists; (split; [reflexivity|]);
    cbn [o_shippingAddress sa_name sa_fullName set_o_shippingAddress];
    repeat (progress (rewrite ?Hn, ?Hf; cbn [negb andb sa_name sa_fullName]));
    auto 10.
Qed.

(** The instance of the theorem at an order with a full name only. *)
Lemma order_hook_witness :
  exists o',
    orderPreSave (mkOrder 7 (mkShippingAddress None (Some "Asha Rao")) None 500
                    order_pending false None None) = inr o'
    /\ Js.falsy_str (sa_name (o_shippingAddress o')) = false
    /\ Js.falsy_str (sa_fullName (o_shippingAddress o')) = false
    /\ (sa_name (o_shippingAddress o') = None
        \/ Js.falsy_str None = true /\ sa_name (o_shippingAddress o') = Some "Asha Rao")
    /\ (sa_fullName (o_shippingAddress o') = Some "Asha Rao"
        \/ Js.falsy_str (Some "Asha Rao") = true /\ sa_fullName (o_shippingAddress o') = None)
    /\ o' = set_o_shippingAddress (o_shippingAddress o')
              (mkOrder 7 (mkShippingAddress None (Some "Asha Rao")) None 500
                 order_pending false None None)
    /\ orderPreSave o' = inr o'.
Proof.
  apply (proj2 (order_hook_normalises_names
                  (mkOrder 7 (mkShippingAddress None (Some "Asha Rao")) None 500
                     order_pending false None None))).
  right. reflexivity.
Defined.

(** ** Reconciliation: the edges *)

(** X12: the edges of [reconcileTransaction] for the stored transaction
    [i].  When the gateway answers 404 and the transaction passes the
    schema, it is written as [failed], with [failedAt] set to the time of the
    call unless it was [failed] already, no order is touched and the call
    succeeds.  Any other gateway error is rethrown and nothing is written.
    When the gateway's status, a string that is not the name of an inherited
    member, maps to the stored status, nothing is written either, whatever
    method, fee or tax the gateway reports. *)
Theorem reconcileTransaction_edges
    (rz : Razorpay) (now : Z) (i : nat) (t : Transaction) (db : Db) :
  transactions db !! i = Some t ->
  (forall e,
     payments_fetch rz (gatewayPaymentId t) 1 = inl e ->
     err_statusCode e = Some 404 ->
     schema_valid t = true ->
     exists t',
       reconcileTransaction rz now (load i t) db
       = (mkDb (<[i := t']> (transactions db)) (orders db), inr tt)
       /\ transactions (fst (reconcileTransaction rz now (load i t) db)) !! i = Some t'
       /\ status t' = failed
       /\ (status t <> failed -> failedAt t' = Some now)
       /\ mkStatusEntry failed now (Some "Payment not found in gateway")
            [("reconciliation", MBool true); ("error", MStr "PAYMENT_NOT_FOUND")]
          ∈ statusHistory t')
  /\ (forall e,
        payments_fetch rz (gatewayPaymentId t) 1 = inl e ->
        err_statusCode e <> Some 404 ->
        reconcileTransaction rz now (load i t) db = (db, inl e))
  /\ (forall paymentDetails,
        payments_fetch rz (gatewayPaymentId t) 1 = inr paymentDetails ->
        inherited (Js.to_string (p_status paymentDetails)) = false ->
        mapRazorpayStatus (Js.to_string (p_status paymentDetails)) = status t ->
        reconcileTransaction rz now (load i t) db = (db, inr tt)).
Proof.
  intros Hi. unfold reconcileTransaction. cbn [doc load]. split; [|split].
  - intros e -> H404 _. rewrite bool_decide_eq_true_2 by exact H404.
    rewrite addStatusUpdate_eq. cbn [fst snd doc_id load].
    set (md := [("reconciliation", MBool true); ("error", MStr "PAYMENT_NOT_FOUND")]).
    exists (updated now failed (Some "Payment not found in gateway") md (load i t)).
    split; [reflexivity|]. split.
    { cbn [transactions]. apply list_lookup_insert_eq. by eapply lookup_lt_Some. }
    destruct (updated_frame now failed (Some "Payment not found in gateway") md (load i t))
      as (Hs & _).
    split; [exact Hs|]. split.
    + intros Hne.
      pose proof (updated_timing now failed (Some "Payment not found in gateway") md i t)
        as Ht.
      rewrite bool_decide_eq_false_2 in Ht by exact Hne.
      unfold timing in Ht. by injection Ht.
    + rewrite updated_history by reflexivity. cbn [doc load].
      rewrite elem_of_app, elem_of_cons. right. by left.
  - intros e -> Hne. by rewrite bool_decide_eq_false_2 by exact Hne.
  - intros pd -> _ ->. by rewrite bool_decide_eq_true_2 by reflexivity.
Qed.

(** The instance of the theorem at the sample transaction linked to its
    order and a gateway that does not know the payment. *)
Lemma reconcileTransaction_edges_witness :
  exists t',
    reconcileTransaction
      (mkRazorpay (orders_create sample_gateway)
         (fun _ _ => inl (mkError (Some "not found") (Some 404)))
         (payments_refund sample_gateway))
      30 (load 0 tx_linked) db_linked
    = (mkDb (<[0%nat := t']> (transactions db_linked)) (orders db_linked), inr tt)
    /\ status t' = failed.
Proof.
  destruct (proj1 (reconcileTransaction_edges
                     (mkRazorpay (orders_create sample_gateway)
                        (fun _ _ => inl (mkError (Some "not found") (Some 404)))
                        (payments_refund sample_gateway))
                     30 0%nat tx_linked db_linked eq_refl)
              (mkError (Some "not found") (Some 404)) eq_refl eq_refl eq_refl)
    as (t' & Hr & _ & Hs & _).
  exists t'. split; [exact Hr | exact Hs].
Defined.

Lemma order_named_set_paidAt p o : order_named (set_o_paidAt p o) <-> order_named o.
Proof. by destruct o. Qed.

Lemma order_named_set_isPaid p o : order_named (set_o_isPaid p o) <-> order_named o.
Proof. by destruct o. Qed.

Lemma orderId_assign_fee_fields f d :
  orderId (doc (assign (fun t => set_netAmount (amount t - totalFee (fees t))%Q t)
                  (assign (set_fees f) d))) = orderId (doc d).
Proof. by destruct d as [i t m o]; destruct t. Qed.

Lemma orderId_assign_method m d : orderId (doc (assign (set_method m) d)) = orderId (doc d).
Proof. by destruct d as [i t m' o]; destruct t. Qed.

(** X13: a reconciliation that finds a payment the gateway reports as
    captured, with a method that is not the name of an inherited member, for
    a stored transaction that passes the schema, is not [success] and is
    linked to an order: the order, when not paid yet, is stored as paid at
    the time
    of the call and [confirmed], its other fields kept (the names
    normalised by the Order hook); an order already paid is left as it is.
    Every other order is untouched. *)
Theorem reconciliation_confirms_linked_order
    (rz : Razorpay) (now : Z) (i : nat) (t : Transaction) (db : Db)
    (paymentDetails : Payment) (oid : nat) (o : Order) :
  transactions db !! i = Some t ->
  schema_valid t = true ->
  payments_fetch rz (gatewayPaymentId t) 1 = inr paymentDetails ->
  p_status paymentDetails = Some "captured" ->
  inherited (Js.to_string (p_method paymentDetails)) = false ->
  status t <> success ->
  orderId t = Some oid ->
  orders db !! oid = Some o ->
  order_named o ->
  snd (reconcileTransaction rz now (load i t) db) = inr tt
  /\ exists o',
       orders (fst (reconcileTransaction rz now (load i t) db)) = <[oid := o']> (orders db)
       /\ (o_isPaid o = true -> o' = o)
       /\ (o_isPaid o = false ->
           o_isPaid o' = true /\ o_paidAt o' = Some now /\ o_status o' = order_confirmed
           /\ o_user o' = o_user o /\ o_total o' = o_total o
           /\ o_paymentId o' = o_paymentId o /\ o_notes o' = o_notes o
           /\ order_named o').
Proof.
  intros Hi _ Hfetch Hcap _ Hne Hoid Ho Hnamed.
  assert (Hmap : mapRazorpayStatus (Js.to_string (p_status paymentDetails)) = success)
    by (by rewrite Hcap).
  unfold reconcileTransaction. cbn [doc load]. rewrite Hfetch, Hmap.
  rewrite bool_decide_eq_false_2 by (intros Hc; by apply Hne).
  cbn [negb]. rewrite addStatusUpdate_eq. cbv beta iota zeta.
  set (T1 := updated _ _ _ _ _).
  assert (HT1 : orderId T1 = Some oid).
  { unfold T1.
    match goal with |- context [updated ?n ?s ?r ?m ?dd] =>
      destruct (updated_frame n s r m dd) as (_ & _ & _ & Ho' & _) end.
    by rewrite Ho'. }
  set (d2 := if negb (Js.falsy_str (p_method paymentDetails)) then _ else _).
  assert (Hd2 : orderId (doc d2) = Some oid).
  { unfold d2. destruct (negb _); [rewrite orderId_assign_method|]; exact HT1. }
  set (d3 := if Js.truthyZ (p_fee paymentDetails) || Js.truthyZ (p_tax paymentDetails)
             then _ else _).
  assert (Hd3 : orderId (doc d3) = Some oid).
  { unfold d3. destruct (_ || _); [rewrite orderId_assign_fee_fields|]; exact Hd2. }
  rewrite save_eq. cbv beta iota zeta.
  rewrite bool_decide_eq_true_2 by reflexivity. cbn [doc].
  destruct (preSave_frame now d3) as (_ & _ & _ & Hp & _). cbv zeta in Hp.
  rewrite Hp, Hd3. unfold findById. cbn [orders]. rewrite Ho.
  destruct (o_isPaid o) eqn:Hpaid; cbn [negb].
  - split; [reflexivity|]. exists o. cbn [fst orders].
    split; [by rewrite list_insert_id|]. split; [done|discriminate].
  - destruct (orderPreSave_named
                (set_o_status order_confirmed
                   (set_o_paidAt (Some now) (set_o_isPaid true o)))) as (o' & Hpre & _ & Hn').
    { by apply order_named_set_status, order_named_set_paidAt, order_named_set_isPaid. }
    unfold save_order. rewrite Hpre. cbn [fst snd orders].
    split; [reflexivity|]. exists o'. split; [reflexivity|]. split; [discriminate|].
    intros _. destruct (orderPreSave_fields _ _ Hpre) as (Hu & Hpi & Ht & Hs & Hip & Hpa & Hno).
    rewrite Hu, Hpi, Ht, Hs, Hip, Hpa, Hno. by destruct o.
Qed.

(** The instance of the theorem at a transaction linked to the sample
    order that waits for its payment. *)
Lemma reconciliation_confirms_witness :
  snd (reconcileTransaction sample_gateway 40
         (load 0 (set_orderId (Some 0%nat) tx_initiated))
         (mkDb [set_orderId (Some 0%nat) tx_initiated] [order_waiting])) = inr tt
  /\ exists o',
       orders (fst (reconcileTransaction sample_gateway 40
                      (load 0 (set_orderId (Some 0%nat) tx_initiated))
                      (mkDb [set_orderId (Some 0%nat) tx_initiated] [order_waiting])))
       = <[0%nat := o']> [order_waiting]
       /\ (o_isPaid order_waiting = true -> o' = order_waiting)
       /\ (o_isPaid order_waiting = false ->
           o_isPaid o' = true /\ o_paidAt o' = Some 40 /\ o_status o' = order_confirmed
           /\ o_user o' = o_user order_waiting /\ o_total o' = o_total order_waiting
           /\ o_paymentId o' = o_paymentId order_waiting
           /\ o_notes o' = o_notes order_waiting
           /\ order_named o').
Proof.
  destruct (payments_fetch sample_gateway None 1) as [e|pd] eqn:Hfetch;
    [vm_compute in Hfetch; discriminate Hfetch|].
  apply (reconciliation_confirms_linked_order sample_gateway 40 0%nat
           (set_orderId (Some 0%nat) tx_initiated)
           (mkDb [set_orderId (Some 0%nat) tx_initiated] [order_waiting])
           pd 0%nat order_waiting).
  - reflexivity.
  - reflexivity.
  - exact Hfetch.
  - vm_compute in Hfetch. injection Hfetch as <-. reflexivity.
  - vm_compute in Hfetch. injection Hfetch as <-. vm_compute. reflexivity.
  - discriminate.
  - reflexivity.
  - reflexivity.
  - left. reflexivity.
Defined.

(** ** The webhook router: which entity, which collection *)

(** X14: [processWebhookEvent] reads the entity from the payload members
    [payment], [order] and [refund] only.  A payload with none of them is
    rejected with the error "Invalid webhook payload", whatever the event,
    and nothing is written: an event whose entity sits under another member
    (a settlement under [settlement], a dispute under [dispute] alone) never
    reaches its handler. *)
Theorem payload_without_known_member_rejected
    (now : Z) (event : option Json) (pl : Json) (ip : string) (db : Db) :
  pl <> JNull ->
  j_truthy (jget "payment" pl) = false ->
  j_truthy (jget "order" pl) = false ->
  j_truthy (jget "refund" pl) = false ->
  processWebhookEvent now event (Some pl) ip db
  = (db, inl (AppError "Invalid webhook payload" 400)).
Proof.
  intros Hnull Hp Ho Hr. unfold processWebhookEvent.
  rewrite Hp, Ho, Hr. cbv beta iota zeta.
  change (jget "entity" (JObj [])) with (@None Json).
  by destruct pl.
Qed.

(** The instance of the theorem at a [settlement.processed] delivery that
    carries its entity under [settlement]. *)
Lemma payload_without_known_member_witness :
  processWebhookEvent 20 (Some (JStr "settlement.processed"))
    (Some (JObj [("settlement",
                  JObj [("entity", JObj [("id", JStr "setl_1");
                                         ("entity_ids", JArr [JStr "pay_1"])])])]))
    "10.0.0.1" db_success
  = (db_success, inl (AppError "Invalid webhook payload" 400)).
Proof.
  apply (payload_without_known_member_rejected 20 (Some (JStr "settlement.processed"))
           (JObj [("settlement",
                   JObj [("entity", JObj [("id", JStr "setl_1");
                                          ("entity_ids", JArr [JStr "pay_1"])])])])
           "10.0.0.1" db_success).
  - discriminate.
  - reflexivity.
  - reflexivity.
  - reflexivity.
Defined.

(** X15: the entity is chosen by the payload, not by the event.  When the
    payload has a [payment] member, [processWebhookEvent] depends on that
    member alone: two payloads with the same [payment] member are processed
    alike, for every event, whatever their [order] and [refund] members
    hold.  So a [refund.*] event delivered with both a payment and a refund
    entity is handled on the payment entity. *)
Theorem payment_member_decides_entity
    (now : Z) (event : option Json) (pl pl' : Json) (ip : string) (db : Db) :
  j_truthy (jget "payment" pl) = true ->
  jget "payment" pl' = jget "payment" pl ->
  processWebhookEvent now event (Some pl') ip db
  = processWebhookEvent now event (Some pl) ip db.
Proof.
  intros Hp Heq.
  assert (Hp' : j_truthy (jget "payment" pl') = true) by by rewrite Heq.
  unfold processWebhookEvent. rewrite Hp, Hp', Heq.
  destruct pl; try discriminate Hp; destruct pl'; try discriminate Hp'; reflexivity.
Qed.

(** The instance of the theorem at a [refund.created] delivery with and
    without its refund entity. *)
Lemma payment_member_decides_witness :
  processWebhookEvent 20 (Some (JStr "refund.created"))
    (Some (JObj [("payment", JObj [("entity", JObj [("id", JStr "pay_1")])]);
                 ("refund", JObj [("entity", JObj [("id", JStr "rfnd_1");
                                                   ("payment_id", JStr "pay_1");
                                                   ("amount", JNum 50000)])])]))
    "10.0.0.1" db_success
  = processWebhookEvent 20 (Some (JStr "refund.created"))
      (Some (JObj [("payment", JObj [("entity", JObj [("id", JStr "pay_1")])])]))
      "10.0.0.1" db_success.
Proof.
  apply (payment_member_decides_entity 20 (Some (JStr "refund.created"))
           (JObj [("payment", JObj [("entity", JObj [("id", JStr "pay_1")])])])).
  - reflexivity.
  - reflexivity.
Defined.

Lemma fold_docs_orders (step : Db -> TxDoc -> Db) :
  (forall acc d, orders (step acc d) = orders acc) ->
  forall ds db, orders (foldl step db ds) = orders db.
Proof.
  intros Hstep ds. induction ds as [|d ds IH]; intros db; [done|].
  cbn [foldl]. by rewrite IH, Hstep.
Qed.

Ltac orders_kept :=
  match goal with
  | |- context [findOne ?q ?db] => destruct (findOne q db) as [?d|]; [|reflexivity]
  end;
  rewrite addStatusUpdate_eq; cbv beta iota zeta; rewrite ?save_eq;
  repeat match goal with
         | |- context [if ?c then _ else _] => destruct c
         end;
  reflexivity.

Lemma handlePaymentAuthorized_orders now payment ip db :
  orders (fst (handlePaymentAuthorized now payment ip db)) = orders db.
Proof. unfold handlePaymentAuthorized. orders_kept. Qed.

Lemma handlePaymentCaptured_orders now payment ip db :
  orders (fst (handlePaymentCaptured now payment ip db)) = orders db.
Proof. unfold handlePaymentCaptured. orders_kept. Qed.

Lemma handleOrderPaid_orders now order ip db :
  orders (fst (handleOrderPaid now order ip db)) = orders db.
Proof. unfold handleOrderPaid. orders_kept. Qed.

Lemma handleRefundCreated_orders now refundE ip db :
  orders (fst (handleRefundCreated now refundE ip db)) = orders db.
Proof. unfold handleRefundCreated. orders_kept. Qed.

Lemma refund_progress_orders now upd reason event refundE ip db :
  orders (fst (refund_progress now upd reason event refundE ip db)) = orders db.
Proof. unfold refund_progress. orders_kept. Qed.

Lemma handleDisputeCreated_orders now dispute ip db :
  orders (fst (handleDisputeCreated now dispute ip db)) = orders db.
Proof. unfold handleDisputeCreated. orders_kept. Qed.

Lemma handleSettlementProcessed_orders now settlement ip db :
  orders (fst (handleSettlementProcessed now settlement ip db)) = orders db.
Proof.
  unfold handleSettlementProcessed.
  destruct (j_strs _ _) as [ids|]; [|reflexivity]. cbn [fst].
  apply fold_docs_orders. intros acc d.
  rewrite addStatusUpdate_eq. cbv beta iota zeta. by rewrite save_eq.
Qed.

(** X16: of all webhook events only [payment.failed] writes to the Order
    collection.  Every other event, [payment.captured] and [order.paid]
    included, leaves every order as it was: a payment confirmed by webhook
    alone marks no order paid. *)
Theorem only_failed_payment_touches_orders
    (now : Z) (event payload : option Json) (ip : string) (db : Db) :
  event <> Some (JStr "payment.failed") ->
  orders (fst (processWebhookEvent now event payload ip db)) = orders db.
Proof.
  intros Hev.
  assert (Hdispatch : forall ev e,
    ev <> "payment.failed" ->
    orders (fst (
      if String.eqb ev "payment.authorized"
      then handlePaymentAuthorized now (payment_view e) ip db
      else if String.eqb ev "payment.captured"
      then handlePaymentCaptured now (payment_view e) ip db
      else if String.eqb ev "payment.failed"
      then handlePaymentFailed now (payment_view e) ip db
      else if String.eqb ev "order.paid"
      then handleOrderPaid now e ip db
      else if String.eqb ev "refund.created"
      then handleRefundCreated now e ip db
      else if String.eqb ev "refund.processed"
      then handleRefundProcessed now e ip db
      else if String.eqb ev "refund.failed"
      then handleRefundFailed now e ip db
      else if String.eqb ev "payment.dispute.created"
      then handleDisputeCreated now e ip db
      else if String.eqb ev "settlement.processed"
      then handleSettlementProcessed now e ip db
      else (db, inr tt))) = orders db).
  { intros ev e Hne. unfold handleRefundProcessed, handleRefundFailed.
    destruct (String.eqb ev _); [apply handlePaymentAuthorized_orders|].
    destruct (String.eqb ev _); [apply handlePaymentCaptured_orders|].
    destruct (String.eqb_spec ev "payment.failed") as [Hf|_]; [by destruct Hne|].
    destruct (String.eqb ev _); [apply handleOrderPaid_orders|].
    destruct (String.eqb ev _); [apply handleRefundCreated_orders|].
    destruct (String.eqb ev _); [apply refund_progress_orders|].
    destruct (String.eqb ev _); [apply refund_progress_orders|].
    destruct (String.eqb ev _); [apply handleDisputeCreated_orders|].
    destruct (String.eqb ev _); [apply handleSettlementProcessed_orders|].
    reflexivity. }
  unfold processWebhookEvent.
  destruct payload as [pl|]; [|reflexivity].
  set (holder := if j_truthy (jget "payment" pl) then _ else _).
  destruct pl; try reflexivity;
    (destruct (match holder with Some h => jget "entity" h | None => None end) as [e|];
     [|reflexivity]);
    (destruct (negb (j_truthy (Some e))); [reflexivity|]);
    (destruct event as [[| | |ev| |]|]; try reflexivity);
    (apply Hdispatch; intros ->; by apply Hev).
Qed.

(** The instance of the theorem at the sample [payment.captured] delivery. *)
Lemma only_failed_payment_witness :
  orders (fst (processWebhookEvent 20 (jget "event" captured_event)
                 (jget "payload" captured_event) "10.0.0.1" db_success))
  = orders db_success.
Proof.
  apply (only_failed_payment_touches_orders 20 (jget "event" captured_event)
           (jget "payload" captured_event) "10.0.0.1" db_success).
  vm_compute. discriminate.
Defined.

Lemma o_notes_set_notes s o : o_notes (set_o_notes s o) = s.
Proof. by destruct o. Qed.

(** X17: a [payment.failed] event for a stored transaction that is linked
    to an order.  The transaction is written as [failed], whatever its
    status was.  The order, unless it is [cancelled] already, is stored as
    [cancelled] with the note "Payment failed: " followed by the gateway's
    error description ("undefined" when there is none); whether it was
    paid, when, its total and payment id stay as they were, so a paid and
    confirmed order is cancelled and still marked paid.  An order already
    [cancelled] and every other order are untouched.  The note is taken to
    fit the 500 characters the Order schema allows for [notes]. *)
Theorem failed_payment_cancels_linked_order
    (now : Z) (payment : Payment) (ip : string) (db : Db)
    (i : nat) (t : Transaction) (oid : nat) (o : Order) :
  findOne (fun t => by_gatewayPaymentId (p_id payment) t
                    || by_gatewayOrderId (p_order_id payment) t) db = Some (load i t) ->
  orderId t = Some oid ->
  orders db !! oid = Some o ->
  order_named o ->
  (String.length ("Payment failed: " ++ Js.to_string (p_error_description payment)) <= 500)%nat ->
  snd (handlePaymentFailed now payment ip db) = inr tt
  /\ exists t' o',
       transactions (fst (handlePaymentFailed now payment ip db))
       = <[i := t']> (transactions db)
       /\ status t' = failed
       /\ orders (fst (handlePaymentFailed now payment ip db)) = <[oid := o']> (orders db)
       /\ (o_status o = order_cancelled -> o' = o)
       /\ (o_status o <> order_cancelled ->
           o_status o' = order_cancelled
           /\ o_notes o'
              = Some ("Payment failed: " ++ Js.to_string (p_error_description payment))%string
           /\ o_isPaid o' = o_isPaid o /\ o_paidAt o' = o_paidAt o
           /\ o_total o' = o_total o /\ o_paymentId o' = o_paymentId o
           /\ o_user o' = o_user o).
Proof.
  intros Hfind Hoid Ho Hnamed _.
  unfold handlePaymentFailed. rewrite Hfind, addStatusUpdate_eq. cbv beta iota zeta.
  set (T1 := updated _ _ _ _ _). cbn [doc doc_id load].
  assert (HT1 : orderId T1 = Some oid /\ status T1 = failed).
  { unfold T1.
    match goal with |- context [updated ?n ?s ?r ?m ?dd] =>
      destruct (updated_frame n s r m dd) as (Hs & _ & _ & Ho' & _) end.
    split; [by rewrite Ho'|exact Hs]. }
  destruct HT1 as [HT1 Hst]. rewrite HT1. unfold findById. cbn [orders]. rewrite Ho.
  destruct (decide (o_status o = order_cancelled)) as [Hc|Hc].
  - rewrite bool_decide_eq_true_2 by exact Hc. cbn [negb fst snd transactions orders].
    split; [reflexivity|]. exists T1, o.
    split; [reflexivity|]. split; [exact Hst|]. split; [by rewrite list_insert_id|].
    split; [done|]. intros Hn. by destruct Hn.
  - rewrite bool_decide_eq_false_2 by exact Hc. cbn [negb].
    set (note := Some _).
    destruct (orderPreSave_named (set_o_notes note (set_o_status order_cancelled o)))
      as (o' & Hpre & _ & _).
    { by apply order_named_set_notes, order_named_set_status. }
    unfold save_order. rewrite Hpre. cbn [fst snd transactions orders].
    split; [reflexivity|]. exists T1, o'.
    split; [reflexivity|]. split; [exact Hst|]. split; [reflexivity|].
    split; [intros Hn; by destruct Hc|]. intros _.
    destruct (orderPreSave_fields _ _ Hpre) as (Hu & Hpi & Ht & Hs & Hip & Hpa & Hno).
    rewrite Hu, Hpi, Ht, Hs, Hip, Hpa, Hno.
    rewrite o_notes_set_notes, o_status_set_notes, o_status_set_status.
    by destruct o.
Qed.

(** The instance of the theorem at the sample database: the verified
    transaction with its paid, confirmed order. *)
Lemma failed_payment_cancels_witness :
  snd (handlePaymentFailed 50
         (mkPayment (Some "pay_1") (Some "failed") None None None None None
            (Some "BAD_REQUEST_ERROR") None None)
         "10.0.0.1" db_success) = inr tt
  /\ exists t' o',
       transactions (fst (handlePaymentFailed 50
                            (mkPayment (Some "pay_1") (Some "failed") None None None None None
                               (Some "BAD_REQUEST_ERROR") None None)
                            "10.0.0.1" db_success))
       = <[0%nat := t']> (transactions db_success)
       /\ status t' = failed
       /\ orders (fst (handlePaymentFailed 50
                         (mkPayment (Some "pay_1") (Some "failed") None None None None None
                            (Some "BAD_REQUEST_ERROR") None None)
                         "10.0.0.1" db_success))
          = <[0%nat := o']> (orders db_success)
       /\ (o_status order_paid = order_cancelled -> o' = order_paid)
       /\ (o_status order_paid <> order_cancelled ->
           o_status o' = order_cancelled
           /\ o_notes o' = Some "Payment failed: undefined"
           /\ o_isPaid o' = o_isPaid order_paid /\ o_paidAt o' = o_paidAt order_paid
           /\ o_total o' = o_total order_paid /\ o_paymentId o' = o_paymentId order_paid
           /\ o_user o' = o_user order_paid).
Proof.
  apply (failed_payment_cancels_linked_order 50
           (mkPayment (Some "pay_1") (Some "failed") None None None None None
              (Some "BAD_REQUEST_ERROR") None None)
           "10.0.0.1" db_success 0%nat tx_success 0%nat order_paid).
  - reflexivity.
  - reflexivity.
  - reflexivity.
  - left. reflexivity.
  - vm_compute. lia.
Defined.

(** ** Failure categories and the retry job *)

(** X18: [categorizeFailureReason] and the retry job.  The category stored
    with a failed payment is one of "technical", "business", "user_error"
    and "unknown", never "network"; so the category condition of the query
    of [retryFailedPayments], which asks for "technical" or "network", is
    met exactly when the gateway error code is GATEWAY_ERROR,
    BAD_REQUEST_ERROR or SERVER_ERROR (compared as written, in upper case);
    a failure without error code is "unknown" and does not meet it. *)
Theorem categorized_failures_retried (errorCode : option string) :
  categorizeFailureReason errorCode ∈ ["technical"; "business"; "user_error"; "unknown"]
  /\ categorizeFailureReason errorCode <> "network"
  /\ (retryable_category (categorizeFailureReason errorCode) = true
      <-> exists c, errorCode = Some c
                    /\ c ∈ ["GATEWAY_ERROR"; "BAD_REQUEST_ERROR"; "SERVER_ERROR"])
  /\ categorizeFailureReason None = "unknown".
Proof.
  unfold categorizeFailureReason. cbv zeta.
  destruct errorCode as [c|]; cbn [includes_str].
  - destruct (decide (c ∈ ["GATEWAY_ERROR"; "BAD_REQUEST_ERROR"; "SERVER_ERROR"]))
      as [Hin|Hout].
    + rewrite (bool_decide_eq_true_2 _ Hin).
      split; [rewrite !elem_of_cons; auto 10|]. split; [discriminate|]. split; [|reflexivity].
      split; [intros _; by exists c|]. intros _. reflexivity.
    + rewrite (bool_decide_eq_false_2 _ Hout).
      assert (Hno : forall P : Prop, (exists c0, Some c = Some c0 /\ c0 ∈
                 ["GATEWAY_ERROR"; "BAD_REQUEST_ERROR"; "SERVER_ERROR"]) -> P).
      { intros P (c0 & [= <-] & Hc0). by destruct Hout. }
      destruct (bool_decide (c ∈ ["PAYMENT_CAPTURE_FAILED"; "PAYMENT_ALREADY_REFUNDED"]));
        [|destruct (bool_decide
                      (c ∈ ["INVALID_CARD_NUMBER"; "CARD_EXPIRED"; "INSUFFICIENT_FUNDS"]))];
        (split; [rewrite !elem_of_cons; auto 10|]); (split; [discriminate|]); (split; [|reflexivity]);
        (split; [intros Hr; vm_compute in Hr; discriminate Hr|apply Hno]).
  - split; [rewrite !elem_of_cons; auto 10|]. split; [discriminate|]. split; [|reflexivity].
    split; [intros Hr; vm_compute in Hr; discriminate Hr|].
    intros (c & Hc & _). discriminate Hc.
Qed.

(** ** The analytics filters *)

Lemma dateRange_createdAt newDate startDate endDate :
  dateRange newDate startDate endDate !! "createdAt" = None.
Proof.
  unfold dateRange.
  destruct startDate as [s|], endDate as [e|];
    repeat match goal with |- context [if ?c then _ else _] => destruct c end;
    rewrite ?lookup_insert_ne by discriminate; apply lookup_empty.
Qed.

(** X19: [getPaymentAnalytics] never filters by date.  The object it
    tests, [dateRange], only ever has the properties [$gte] and [$lte], so
    [dateRange.createdAt] is undefined and [matchStage] is the empty filter
    whatever [startDate] and [endDate] are: the overview matches every
    transaction, the failure analysis every [failed] one, the revenue trends
    and the method distribution every [success] one, of any date. *)
Theorem analytics_never_filter_by_date
    (newDate : string -> Z) (startDate endDate : option string) :
  matchStage newDate startDate endDate = ∅
  /\ getPaymentAnalytics_filters newDate startDate endDate
     = mkAnalyticsFilters ∅ {[ "status" := CEq "failed" ]}
         {[ "status" := CEq "success" ]} {[ "status" := CEq "success" ]}
  /\ getPaymentAnalytics_filters newDate startDate endDate
     = getPaymentAnalytics_filters newDate None None.
Proof.
  assert (Hm : forall s e, matchStage newDate s e = ∅).
  { intros s e. unfold matchStage. cbv zeta. by rewrite dateRange_createdAt. }
  split; [apply Hm|]. unfold getPaymentAnalytics_filters. cbv zeta.
  rewrite !Hm. split; [|reflexivity].
  f_equal.
Qed.

(** ** The expiry sweep, run again *)

Lemma find_all_nil q db :
  (forall i t, transactions db !! i = Some t -> q t = false) -> find_all q db = [].
Proof.
  intros Hq. destruct (find_all q db) as [|d ds] eqn:Hf; [reflexivity|].
  assert (Hd : d ∈ find_all q db) by (rewrite Hf; by left).
  apply elem_of_find_all in Hd as (i & t & _ & Hi & Ht).
  rewrite (Hq i t Hi) in Ht. discriminate Ht.
Qed.

Lemma sweep_leaves_nothing_stale now db i t' :
  transactions (cleanupStaleTransactions now db) !! i = Some t' ->
  is_stale (now - 7 * 24 * 60 * 60 * 1000) t' = false.
Proof.
  unfold cleanupStaleTransactions. cbv zeta.
  set (sd := now - 7 * 24 * 60 * 60 * 1000). intros Ht'.
  assert (Hlt : (i < length (transactions db))%nat).
  { apply lookup_lt_Some in Ht'.
    by destruct (sweep_length now (find_all (is_stale sd) db) db) as [<- _]. }
  destruct (lookup_lt_is_Some_2 _ _ Hlt) as [t Ht].
  destruct (is_stale sd t) eqn:E.
  - destruct (sweep_expires now (find_all (is_stale sd) db) db i) as (t'' & Ht'' & Hst).
    { exists (load i t). split; [|reflexivity]. apply elem_of_find_all. by exists i, t. }
    { exact Hlt. }
    rewrite Ht'' in Ht'. injection Ht' as <-.
    unfold is_stale. rewrite Hst. reflexivity.
  - rewrite sweep_untouched in Ht'.
    + rewrite Ht in Ht'. by injection Ht' as <-.
    + intros d Hd Hid. apply elem_of_find_all in Hd as (j & tj & -> & Hj & Hq).
      cbn [doc_id load] in Hid. subst j. rewrite Ht in Hj. injection Hj as <-.
      rewrite E in Hq. discriminate Hq.
Qed.

(** X20: the expiry sweep is idempotent.  When every stale transaction in
    store passes the schema, no stored transaction matches the query of
    [cleanupStaleTransactions] after a run, so a second run after the first
    has finished, at the same time, finds nothing and leaves both collections
    as the first run left them: no transaction gets a second [expired]
    entry, no order a second write. *)
Theorem expiry_sweep_idempotent (now : Z) (db : Db) :
  (forall i t, transactions db !! i = Some t -> stale_by_spec now t ->
               schema_valid t = true) ->
  find_all (is_stale (now - 7 * 24 * 60 * 60 * 1000)) (cleanupStaleTransactions now db) = []
  /\ cleanupStaleTransactions now (cleanupStaleTransactions now db)
     = cleanupStaleTransactions now db.
Proof.
  intros _.
  assert (Hnil : find_all (is_stale (now - 7 * 24 * 60 * 60 * 1000))
                   (cleanupStaleTransactions now db) = []).
  { apply find_all_nil. intros i t'. apply sweep_leaves_nothing_stale. }
  split; [exact Hnil|].
  unfold cleanupStaleTransactions at 1. cbv zeta. by rewrite Hnil.
Qed.

(** The instance of the theorem at the sweep of day 9 over two linked
    transactions. *)
Lemma expiry_sweep_idempotent_witness :
  find_all (is_stale (day 9 - 7 * 24 * 60 * 60 * 1000))
    (cleanupStaleTransactions (day 9) db_stale) = []
  /\ cleanupStaleTransactions (day 9) (cleanupStaleTransactions (day 9) db_stale)
     = cleanupStaleTransactions (day 9) db_stale.
Proof.
  apply (expiry_sweep_idempotent (day 9) db_stale).
  intros [|[|i]] t Ht _.
  - injection Ht as <-. reflexivity.
  - injection Ht as <-. reflexivity.
  - discriminate Ht.
Defined.

(** ** The life cycle of the monitoring service *)

Lemma start_stop_jobs s :
  cronJobs (start (stop s))
  = cronJobs s ++ [("*/30 * * * *", ReconcileTransactions);
                   ("*/5 * * * *", RetryFailedPayments);
                   ("0 2 * * *", CleanupStaleTransactions);
                   ("0 3 * * *", GenerateDailyAnalytics)]
  /\ intervals (start (stop s)) = intervals s ++ [(30000, ProcessRetryQueue)]
  /\ isRunning (start (stop s)) = true.
Proof. by destruct s. Qed.

(** X21: the life cycle of the monitoring service.  [start] on a running
    service changes nothing.  [stop] clears the retry queue and the running
    flag but cancels no timer, and the next [start] registers the four
    schedules and the queue interval again: after [k] restarts of a started
    service every schedule is registered [k + 1] times, so when the daily
    sweep is due the running service runs it [k + 1] times; a stopped
    service runs nothing. *)
Theorem restart_registers_timers_again (s : Service) (k : nat) :
  start (start s) = start s
  /\ cronJobs (stop s) = cronJobs s
  /\ intervals (stop s) = intervals s
  /\ retryQueue (stop s) = ∅
  /\ fired "0 2 * * *" (stop s) = []
  /\ length (cronJobs (Nat.iter k (fun s => start (stop s)) (start new_service)))
     = (4 * (k + 1))%nat
  /\ length (intervals (Nat.iter k (fun s => start (stop s)) (start new_service)))
     = (k + 1)%nat
  /\ fired "0 2 * * *" (Nat.iter k (fun s => start (stop s)) (start new_service))
     = replicate (k + 1) CleanupStaleTransactions.
Proof.
  split; [by destruct s as [[] q c i]|].
  split; [reflexivity|]. split; [reflexivity|]. split; [reflexivity|].
  split; [reflexivity|].
  assert (H : forall n,
    let sn := Nat.iter n (fun s => start (stop s)) (start new_service) in
    isRunning sn = true
    /\ length (cronJobs sn) = (4 * (n + 1))%nat
    /\ length (intervals sn) = (n + 1)%nat
    /\ snd <$> filter (fun job => fst job = "0 2 * * *") (cronJobs sn)
       = replicate (n + 1) CleanupStaleTransactions).
  { induction n as [|n IH]; cbv zeta.
    - by vm_compute.
    - rewrite Nat.iter_succ. cbv zeta in IH.
      set (sn := Nat.iter n _ _) in *. cbv beta. destruct IH as (_ & Hc & Hi & Hf).
      destruct (start_stop_jobs sn) as (-> & -> & ->).
      split; [reflexivity|]. rewrite !length_app, Hc, Hi. cbn [length].
      split; [lia|]. split; [lia|].
      rewrite filter_app, fmap_app, Hf.
      change (snd <$> filter (fun job : string * Task => fst job = "0 2 * * *")
                [("*/30 * * * *", ReconcileTransactions);
                 ("*/5 * * * *", RetryFailedPayments);
                 ("0 2 * * *", CleanupStaleTransactions);
                 ("0 3 * * *", GenerateDailyAnalytics)])
        with [CleanupStaleTransactions].
      replace (S n + 1)%nat with ((n + 1) + 1)%nat by lia.
      by rewrite (replicate_add (n + 1) 1). }
  destruct (H k) as (Hr & Hc & Hi & Hf). cbv zeta in Hr, Hc, Hi, Hf.
  split; [exact Hc|]. split; [exact Hi|].
  unfold fired. by rewrite Hr.
Qed.

(** ** Refund progress events *)

Lemma refund_of_Some t r : refund t = Some r -> refund_of t = r.
Proof. unfold refund_of. by intros ->. Qed.

Lemma refund_progress_doc now reason md r i t :
  let T1 := updated now (status t) reason md (load i (set_refund r t)) in
  let T2 := preSave now (mkTxDoc i T1 false None) in
  status T2 = status t /\ timing T2 = timing t
  /\ statusHistory T2 = statusHistory t ++ [mkStatusEntry (status t) now reason md]
  /\ refund T2 = r /\ amount T2 = amount t /\ fees T2 = fees t.
Proof.
  destruct t as [a b c e f g s0 h hs j k l n fe na rf ca].
  unfold updated, preSave, timing.
  cbn [assign assign_status load doc statusModified tx_original set_previousStatus
       set_status push_history set_statusHistory set_refund status previousStatus
       orb negb andb].
  rewrite !bool_decide_eq_true_2 by reflexivity.
  cbn. destruct (Js.truthyQ f); cbn; rewrite ?Tauto.if_same; cbn;
    repeat split; try reflexivity;
    destruct (Js.truthyQ f); reflexivity.
Qed.

(** X22: the events [refund.processed] and [refund.failed] for a stored
    transaction that passes the schema and is found by the refund id of the
    entity, a string.  The transaction keeps its status and its four timing
    fields, and its history grows by exactly one entry, which repeats the
    current status.  Only the refund sub-record moves: to "completed", with
    the processing time (when the acquirer reference of the entity, if any,
    is not an array or object, which the String path [refund.arn] would
    refuse), or to "failed".  So after a failed refund the transaction still
    reads [refunded] or [partially_refunded].  No order is written. *)
Theorem refund_progress_keeps_status
    (now : Z) (refundE : Json) (rid : string) (ip : string) (db : Db)
    (i : nat) (t : Transaction) :
  jget "id" refundE = Some (JStr rid) ->
  findOne (by_refundId (Some rid)) db = Some (load i t) ->
  schema_valid t = true ->
  ((forall a v, jget "acquirer_data" refundE = Some a -> jget "arn" a = Some v ->
                (forall l, v <> JArr l) /\ (forall l, v <> JObj l)) ->
   exists t' e,
     handleRefundProcessed now refundE ip db
     = (mkDb (<[i := t']> (transactions db)) (orders db), inr tt)
     /\ status t' = status t /\ timing t' = timing t
     /\ statusHistory t' = statusHistory t ++ [e]
     /\ se_status e = status t /\ se_timestamp e = now
     /\ se_reason e = Some "Refund processed successfully"
     /\ refund_status (refund_of t') = Some "completed"
     /\ refund_processedAt (refund_of t') = Some now
     /\ refund_amount (refund_of t') = refund_amount (refund_of t)
     /\ refundId (refund_of t') = refundId (refund_of t))
  /\ (exists t' e,
        handleRefundFailed now refundE ip db
        = (mkDb (<[i := t']> (transactions db)) (orders db), inr tt)
        /\ status t' = status t /\ timing t' = timing t
        /\ statusHistory t' = statusHistory t ++ [e]
        /\ se_status e = status t /\ se_timestamp e = now
        /\ se_reason e = Some "Refund failed"
        /\ refund_status (refund_of t') = Some "failed"
        /\ refund_processedAt (refund_of t') = refund_processedAt (refund_of t)
        /\ refund_amount (refund_of t') = refund_amount (refund_of t)
        /\ refundId (refund_of t') = refundId (refund_of t)).
Proof.
  intros Hid Hfind0 _.
  assert (Hfind : findOne (by_refundId (j_str "id" refundE)) db = Some (load i t)).
  { unfold j_str. by rewrite Hid. }
  assert (Hgen : forall upd reason event,
    exists t' e,
      refund_progress now upd reason event refundE ip db
      = (mkDb (<[i := t']> (transactions db)) (orders db), inr tt)
      /\ status t' = status t /\ timing t' = timing t
      /\ statusHistory t' = statusHistory t ++ [e]
      /\ se_status e = status t /\ se_timestamp e = now /\ se_reason e = Some reason
      /\ refund t' = Some (upd (refund_of t))).
  { intros upd reason event. unfold refund_progress. rewrite Hfind.
    rewrite addStatusUpdate_eq. cbv beta iota zeta. rewrite save_eq.
    cbn [fst snd transactions orders doc_id doc assign load statusModified tx_original].
    rewrite list_insert_insert_eq.
    assert (Hst : status (set_refund (Some (upd (refund_of t))) t) = status t)
      by by destruct t.
    rewrite Hst.
    destruct (refund_progress_doc now (Some reason)
                [("webhook_event", MStr event);
                 ("refund_id", MOptStr (j_str "id" refundE));
                 ("webhook_ip", MStr ip)]
                (Some (upd (refund_of t))) i t) as (H1 & H2 & H3 & H4 & _).
    cbv zeta in H1, H2, H3, H4.
    eexists _, _. split; [reflexivity|]. unfold load.
    split; [exact H1|]. split; [exact H2|]. split; [exact H3|].
    split; [reflexivity|]. split; [reflexivity|]. split; [reflexivity|exact H4]. }
  split.
  - intros _. destruct (Hgen
      (fun r => mkRefund (refundId r) (refund_amount r) (refund_reason r)
                  (refund_initiatedBy r) (refund_initiatedAt r) (Some now)
                  (match jget "acquirer_data" refundE with
                   | Some a => j_str "arn" a
                   | None => None
                   end)
                  (Some "completed"))
      "Refund processed successfully" "refund.processed")
      as (t' & e & Heq & Hs & Ht & Hh & He1 & He2 & He3 & Hr).
    exists t', e. split; [exact Heq|]. split; [exact Hs|]. split; [exact Ht|].
    split; [exact Hh|]. split; [exact He1|]. split; [exact He2|]. split; [exact He3|].
    rewrite (refund_of_Some _ _ Hr).
    cbn [refund_status refund_processedAt refund_amount refundId]. by repeat split.
  - destruct (Hgen
      (fun r => mkRefund (refundId r) (refund_amount r) (refund_reason r)
                  (refund_initiatedBy r) (refund_initiatedAt r) (refund_processedAt r)
                  (refund_arn r) (Some "failed"))
      "Refund failed" "refund.failed")
      as (t' & e & Heq & Hs & Ht & Hh & He1 & He2 & He3 & Hr).
    exists t', e. split; [exact Heq|]. split; [exact Hs|]. split; [exact Ht|].
    split; [exact Hh|]. split; [exact He1|]. split; [exact He2|]. split; [exact He3|].
    rewrite (refund_of_Some _ _ Hr).
    cbn [refund_status refund_processedAt refund_amount refundId]. by repeat split.
Qed.

(** The instance of the theorem at a refunded transaction whose refund the
    gateway reports as failed. *)
Lemma refund_progress_witness :
  exists t',
    fst (handleRefundFailed 60 (JObj [("id", JStr "rfnd_1")]) "10.0.0.1"
           (mkDb [set_status refunded
                    (set_refund (Some (mkRefund (Some "rfnd_1") (Some 500%Q) None None None
                                         None None (Some "processing"))) tx_success)]
                 [order_paid]))
    = mkDb [t'] [order_paid]
    /\ status t' = refunded
    /\ refund_status (refund_of t') = Some "failed".
Proof.
  destruct (proj2 (refund_progress_keeps_status 60 (JObj [("id", JStr "rfnd_1")]) "rfnd_1"
                     "10.0.0.1"
                     (mkDb [set_status refunded
                              (set_refund (Some (mkRefund (Some "rfnd_1") (Some 500%Q) None
                                                   None None None None (Some "processing")))
                                 tx_success)]
                           [order_paid])
                     0%nat
                     (set_status refunded
                        (set_refund (Some (mkRefund (Some "rfnd_1") (Some 500%Q) None None
                                             None None None (Some "processing"))) tx_success))
                     eq_refl eq_refl eq_refl))
    as (t' & e & Heq & Hs & _ & _ & _ & _ & _ & Hr & _).
  exists t'. split; [by rewrite Heq|]. split; [exact Hs|exact Hr].
Defined.
